(** * Verification of the awesome-src plugin modules

    Three independent pieces of the repository are embedded here:

    - [Xterm]: the vertical stacking layout ([awful.layout.suit.xterm]),
    - [Xkb]: the keyboard layout bridge ([xkb.c]),
    - [Naughty]: the notification popup manager ([lib/naughty/core.lua.in]).

    Lua numbers that stand for pixel quantities are modelled as integers
    ([Z]); the two places where the source divides ([math.ceil(a / b)] in the
    layout and the halving in the horizontal centring of a popup) go through
    exact rationals ([Q]). *)

From Stdlib Require Import ZArith QArith Qround Lia.
From stdpp Require Import base option list gmap strings.

Local Open Scope Z_scope.

(* ===================================================================== *)
(** * The vertical stacking layout *)
(* ===================================================================== *)

Module Xterm.

(** Clients are host objects; the layout only uses them as table keys. *)
Definition client := nat.

(** A geometry table [{ x, y, width, height }]. *)
Record geometry := Geometry {
  g_x : Z;
  g_y : Z;
  g_width : Z;
  g_height : Z
}.

(** The parameter table [p] handed to [arrange]: [p.workarea],
    [p.clients] (a Lua sequence) and [p.geometries] (a table keyed by
    client, filled in by the layout). *)
Record params := Params {
  workarea : geometry;
  clients : list client;
  geometries : gmap client geometry
}.

(** [math.ceil(a / b)]: the quotient is the exact rational one. *)
Definition math_ceil_div (a b : Z) : Z :=
  Qceiling (inject_Z a / inject_Z b).

(** The body of [for k, c in ipairs(cls) do ... end]; [k] is the 1-based
    loop index that the body immediately shifts to 0-based. *)
Fixpoint xterm_loop (wa : geometry) (height : Z) (k : Z)
    (cls : list client) (geos : gmap client geometry) : gmap client geometry :=
  match cls with
  | [] => geos
  | c :: rest =>
      let k0 := k - 1 in
      let g := {| g_height := height;
                  g_width := g_width wa;
                  g_y := height * k0 + g_y wa;
                  g_x := 0 + g_x wa |} in
      xterm_loop wa height (k + 1) rest (<[c := g]> geos)
  end.

Definition do_xterm (p : params) : params :=
  let wa := workarea p in
  let cls := clients p in
  if (0 <? Z.of_nat (length cls)) then
    let rows := Z.of_nat (length cls) in
    let height := math_ceil_div (g_height wa) rows in
    {| workarea := wa; clients := cls;
       geometries := xterm_loop wa height 1 cls (geometries p) |}
  else p.

Definition name : string := "xtermv".

Definition arrange (p : params) : params := do_xterm p.

(** A work area with three clients, used to exercise the statements. *)
Definition sample_params : params :=
  Params (Geometry 10 20 800 100) [7%nat; 3%nat; 5%nat] ∅.

End Xterm.

(* ===================================================================== *)
(** * The keyboard layout bridge *)
(* ===================================================================== *)

Module Xkb.

(** What the bridge leaves on the Lua side: values pushed on the stack
    (most recent first), warnings given to [luaA_warn], and signals
    emitted on the global signal table. *)
Inductive lua_value :=
| LInteger (n : Z)
| LNumber (n : Z)
| LString (s : string).

Record emission := Emit {
  sig_name : string;
  sig_args : list lua_value
}.

Record lua_State := LuaState {
  stack : list lua_value;
  warnings : list string;
  emitted : list emission
}.

Definition lua_push (v : lua_value) (L : lua_State) : lua_State :=
  {| stack := v :: stack L; warnings := warnings L; emitted := emitted L |}.

Definition luaA_warn (msg : string) (L : lua_State) : lua_State :=
  {| stack := stack L; warnings := warnings L ++ [msg]; emitted := emitted L |}.

(** [signal_object_emit(L, &global_signals, name, nargs)] pops [nargs]
    values and hands them, in push order, to the handlers of [name]. *)
Definition signal_object_emit (name : string) (nargs : nat) (L : lua_State)
    : lua_State :=
  {| stack := drop nargs (stack L);
     warnings := warnings L;
     emitted := emitted L ++ [Emit name (reverse (take nargs (stack L)))] |}.

(** The replies of the X server to the three blocking queries; [None] is
    the NULL reply. *)
Record state_reply := { sr_group : Z }.
Record names_reply := { nr_symbolsName : Z }.

Record xserver := XServer {
  get_state_reply : option state_reply;
  get_names_reply : option names_reply;
  get_atom_name_reply : Z -> option string
}.

Definition luaA_xkb_get_layout_group (srv : xserver) (L : lua_State)
    : lua_State * Z :=
  match get_state_reply srv with
  | None => (L, 0)
  | Some state_r => (lua_push (LInteger (sr_group state_r)) L, 1)
  end.

Definition luaA_xkb_get_group_names (srv : xserver) (L : lua_State)
    : lua_State * Z :=
  match get_names_reply srv with
  | None => (luaA_warn "Failed to get xkb symbols name" L, 0)
  | Some name_r =>
      match get_atom_name_reply srv (nr_symbolsName name_r) with
      | None => (luaA_warn "Failed to get atom symbols name" L, 0)
      | Some name => (lua_push (LString name) L, 1)
      end
  end.

(** The fields that [event_handle_xkb_notify] reads from a raw event:
    [pad0] of the generic event, and, through the casts to the
    new-keyboard and state-notify layouts, [changed] and [group]. *)
Record xkb_event := XkbEvent {
  pad0 : Z;
  nkn_changed : Z;
  sn_changed : Z;
  sn_group : Z
}.

Section Handler.

(** Constants of [<xcb/xkb.h>], which the repository includes but does
    not contain. *)
Variables XCB_XKB_NEW_KEYBOARD_NOTIFY XCB_XKB_NAMES_NOTIFY
          XCB_XKB_STATE_NOTIFY : Z.
Variables XCB_XKB_NKN_DETAIL_KEYCODES XCB_XKB_STATE_PART_GROUP_STATE : Z.

(** C's test [if (a & b)]. *)
Definition c_and_nonzero (a b : Z) : bool := negb (Z.land a b =? 0).

Definition event_handle_xkb_notify (event : xkb_event) (L : lua_State)
    : lua_State :=
  if pad0 event =? XCB_XKB_NEW_KEYBOARD_NOTIFY then
    if c_and_nonzero (nkn_changed event) XCB_XKB_NKN_DETAIL_KEYCODES
    then signal_object_emit "xkb::map_changed" 0 L
    else L
  else if pad0 event =? XCB_XKB_NAMES_NOTIFY then
    signal_object_emit "xkb::map_changed" 0 L
  else if pad0 event =? XCB_XKB_STATE_NOTIFY then
    if c_and_nonzero (sn_changed event) XCB_XKB_STATE_PART_GROUP_STATE
    then signal_object_emit "xkb::group_changed" 1
           (lua_push (LNumber (sn_group event)) L)
    else L
  else L.

(** The two kinds of event that the handler relays. *)
Definition map_change (e : xkb_event) : Prop :=
  (pad0 e = XCB_XKB_NEW_KEYBOARD_NOTIFY /\
   Z.land (nkn_changed e) XCB_XKB_NKN_DETAIL_KEYCODES <> 0)
  \/ pad0 e = XCB_XKB_NAMES_NOTIFY.

Definition group_change (e : xkb_event) : Prop :=
  pad0 e = XCB_XKB_STATE_NOTIFY /\
  Z.land (sn_changed e) XCB_XKB_STATE_PART_GROUP_STATE <> 0.

End Handler.

End Xkb.

(* ===================================================================== *)
(** * The notification popup manager *)
(* ===================================================================== *)

Module Naughty.

(** The model keeps what decides identity, timing and placement of the
    popups:

    - the notifications are mutable tables shared between the lists, the
      suspended list and the caller, so they live in a store and are
      named by references;
    - text, markup, icons, colours and the widget tree are left to the
      host toolkit; of them only the measured sizes enter ([measured]);
    - destroy callbacks are functions of the caller: a call is recorded
      in [cb_log], and the callback is taken not to call back into the
      module;
    - [table.remove] is the one of Lua 5.1 and LuaJIT, and [pairs] walks a
      sequence in index order, re-reading it at every step. *)

(** ** Outcomes of a Lua call

    A call either returns, raises a Lua error (indexing or comparing
    [nil]), or is cut off because the recursion budget of the model is
    exhausted. *)
Inductive outcome (A : Type) : Type :=
| Done (a : A)
| LuaError
| OutOfFuel.
Arguments Done {A} a.
Arguments LuaError {A}.
Arguments OutOfFuel {A}.

Definition bind {A B : Type} (m : outcome A) (k : A -> outcome B) : outcome B :=
  match m with
  | Done a => k a
  | LuaError => LuaError
  | OutOfFuel => OutOfFuel
  end.

Notation "x <- m ;; k" := (bind m (fun x => k))
  (at level 100, m at next level, right associativity).

(** A value that must not be [nil] where it is used. *)
Definition non_nil {A : Type} (o : option A) : outcome A :=
  match o with
  | Some a => Done a
  | None => LuaError
  end.

(** ** Positions

    The six keys of the per-screen table built at load time, with the
    strings the source matches against. *)
Inductive position :=
| top_left | top_middle | top_right
| bottom_left | bottom_middle | bottom_right.

#[global] Instance position_eq_dec : EqDecision position.
Proof. solve_decision. Defined.

Definition position_name (p : position) : string :=
  match p with
  | top_left => "top_left"
  | top_middle => "top_middle"
  | top_right => "top_right"
  | bottom_left => "bottom_left"
  | bottom_middle => "bottom_middle"
  | bottom_right => "bottom_right"
  end.

(** [s:match(pat)] for a pattern without magic characters: does [pat]
    occur in [s]? *)
Fixpoint string_match (s pat : string) : bool :=
  String.prefix pat s ||
  match s with
  | EmptyString => false
  | String _ s' => string_match s' pat
  end.

Definition position_match (p : position) (pat : string) : bool :=
  string_match (position_name p) pat.

(** ** Objects *)

(** [capi.screen[s].workarea] *)
Record workarea := Workarea {
  ws_x : Z;
  ws_y : Z;
  ws_width : Z;
  ws_height : Z
}.

(** A [gears.timer]: its duration and whether it is running. *)
Record timer := Timer {
  t_timeout : Z;
  t_started : bool
}.

(** A notification table together with its wibox.  [n_destroy_cb] tells
    whether [args.destroy] was given. *)
Record notification := Notification {
  n_screen : nat;
  n_destroy_cb : bool;
  n_timeout : Z;
  n_id : Z;
  n_position : position;
  n_timer : option timer;
  n_height : Z;
  n_width : Z;
  n_idx : Z;
  box_visible : bool;
  box_x : Q;
  box_y : Z;
  box_width : Z;
  box_height : Z
}.

(** Notifications are shared mutable tables: the lists hold references
    (positions in a store). *)
Abbreviation ref := nat (only parsing).

(** [naughty.notifications[s]]: one Lua sequence per position. *)
Record popups := Popups {
  l_top_left : list ref;
  l_top_middle : list ref;
  l_top_right : list ref;
  l_bottom_left : list ref;
  l_bottom_middle : list ref;
  l_bottom_right : list ref
}.

Definition plist (t : popups) (p : position) : list ref :=
  match p with
  | top_left => l_top_left t
  | top_middle => l_top_middle t
  | top_right => l_top_right t
  | bottom_left => l_bottom_left t
  | bottom_middle => l_bottom_middle t
  | bottom_right => l_bottom_right t
  end.

Definition set_plist (t : popups) (p : position) (l : list ref) : popups :=
  match p with
  | top_left => Popups l (l_top_middle t) (l_top_right t) (l_bottom_left t) (l_bottom_middle t) (l_bottom_right t)
  | top_middle => Popups (l_top_left t) l (l_top_right t) (l_bottom_left t) (l_bottom_middle t) (l_bottom_right t)
  | top_right => Popups (l_top_left t) (l_top_middle t) l (l_bottom_left t) (l_bottom_middle t) (l_bottom_right t)
  | bottom_left => Popups (l_top_left t) (l_top_middle t) (l_top_right t) l (l_bottom_middle t) (l_bottom_right t)
  | bottom_middle => Popups (l_top_left t) (l_top_middle t) (l_top_right t) (l_bottom_left t) l (l_bottom_right t)
  | bottom_right => Popups (l_top_left t) (l_top_middle t) (l_top_right t) (l_bottom_left t) (l_bottom_middle t) l
  end.

Definition no_popups : popups := Popups [] [] [] [] [] [].

(** A screen: its work area and its entry of [naughty.notifications]. *)
Record screen := Screen {
  s_workarea : workarea;
  s_popups : popups
}.

(** ** Configuration and arguments *)

(** A preset, and likewise [naughty.config.defaults]: the parameters of
    [notify] that influence identity, timing and placement. *)
Record preset := Preset {
  p_timeout : option Z;
  p_screen : option nat;
  p_position : option position;
  p_width : option Z;
  p_height : option Z;
  p_border_width : option Z
}.

(** What the host toolkit reports while [notify] builds the widgets: the
    fitted size of the text box, the icon box (if an icon was loaded) with
    the icon size after scaling, the accumulated size of the action
    buttons, and the margin in use. *)
Record measured := Measured {
  m_text_w : Z;
  m_text_h : Z;
  m_icon : option (Z * Z);
  m_actions_total_height : Z;
  m_actions_max_width : Z;
  m_margin : Z
}.

(** The argument table of [notify]. *)
Record args := Args {
  a_timeout : option Z;
  a_screen : option nat;
  a_position : option position;
  a_width : option Z;
  a_height : option Z;
  a_border_width : option Z;
  a_destroy : bool;
  a_preset : option preset;
  a_replaces_id : option Z;
  a_measured : measured
}.

(** [naughty.config] *)
Record config := Config {
  padding : option Z;
  spacing : Z;
  notify_callback : option (args -> option args);
  presets_normal : option preset;
  defaults : option preset
}.

(** [naughty.notificationClosedReason] *)
Definition reason_silent : Z := -1.
Definition reason_expired : Z := 1.
Definition reason_dismissedByUser : Z := 2.
Definition reason_dismissedByCommand : Z := 3.
Definition reason_undefined : Z := 4.

(** ** The module state

    [cb_log] records the calls made to destroy callbacks, oldest first,
    as pairs of the notification and the reason passed.  [g_timeout] is
    the global variable [timeout] of the Lua environment. *)
Record state := State {
  cfg : config;
  counter : Z;
  suspended : bool;
  screens : list screen;
  susp : list ref;
  store : list notification;
  cb_log : list (ref * Z);
  g_timeout : option Z
}.

Definition set_store (st : state) (h : list notification) : state :=
  State (cfg st) (counter st) (suspended st) (screens st) (susp st) h
        (cb_log st) (g_timeout st).

Definition set_screens (st : state) (l : list screen) : state :=
  State (cfg st) (counter st) (suspended st) l (susp st) (store st)
        (cb_log st) (g_timeout st).

Definition set_susp (st : state) (l : list ref) : state :=
  State (cfg st) (counter st) (suspended st) (screens st) l (store st)
        (cb_log st) (g_timeout st).

Definition set_counter (st : state) (c : Z) : state :=
  State (cfg st) c (suspended st) (screens st) (susp st) (store st)
        (cb_log st) (g_timeout st).

Definition set_suspended (st : state) (b : bool) : state :=
  State (cfg st) (counter st) b (screens st) (susp st) (store st)
        (cb_log st) (g_timeout st).

Definition log_cb (st : state) (r : ref) (reason : Z) : state :=
  State (cfg st) (counter st) (suspended st) (screens st) (susp st) (store st)
        (cb_log st ++ [(r, reason)]) (g_timeout st).

(** Screens are numbered from 1. *)
Definition get_screen (st : state) (s : nat) : option screen :=
  match s with
  | O => None
  | S s' => screens st !! s'
  end.

Definition get_list (st : state) (s : nat) (p : position) : option (list ref) :=
  match get_screen st s with
  | Some sc => Some (plist (s_popups sc) p)
  | None => None
  end.

(** Assignment to [naughty.notifications[s][p]]'s contents. *)
Definition set_list (st : state) (s : nat) (p : position) (l : list ref) : state :=
  match s with
  | O => st
  | S s' =>
      match screens st !! s' with
      | Some sc =>
          set_screens st
            (<[s' := Screen (s_workarea sc) (set_plist (s_popups sc) p l)]> (screens st))
      | None => st
      end
  end.

(** In-place update of the notification behind a reference. *)
Definition update (st : state) (r : ref) (f : notification -> notification) : state :=
  set_store st (alter f r (store st)).

Definition with_timer (t : option timer) (n : notification) : notification :=
  Notification (n_screen n) (n_destroy_cb n) (n_timeout n) (n_id n) (n_position n)
    t (n_height n) (n_width n) (n_idx n)
    (box_visible n) (box_x n) (box_y n) (box_width n) (box_height n).


Definition with_visible (b : bool) (n : notification) : notification :=
  Notification (n_screen n) (n_destroy_cb n) (n_timeout n) (n_id n) (n_position n)
    (n_timer n) (n_height n) (n_width n) (n_idx n)
    b (box_x n) (box_y n) (box_width n) (box_height n).

(** [timer:stop()] and [timer:start()] *)
Definition timer_stop (t : timer) : timer := Timer (t_timeout t) false.
Definition timer_start (t : timer) : timer := Timer (t_timeout t) true.

(** [if notification.timer then notification.timer:stop() end] *)
Definition stop_timer (n : notification) : notification :=
  with_timer (timer_stop <$> n_timer n) n.

(** The result table [{ x = X, y = Y, idx = I }] of [get_offset]. *)
Record offset := Offset {
  o_x : Q;
  o_y : Z;
  o_idx : Z
}.

(** [notification.box:geometry({ x = offset.x, y = offset.y })] followed by
    [notification.idx = offset.idx]. *)
Definition place (o : offset) (n : notification) : notification :=
  Notification (n_screen n) (n_destroy_cb n) (n_timeout n) (n_id n) (n_position n)
    (n_timer n) (n_height n) (n_width n) (o_idx o)
    (box_visible n) (o_x o) (o_y o) (box_width n) (box_height n).

(** [t[i]] on a Lua sequence. *)
Definition lua_index (l : list ref) (i : Z) : option ref :=
  if 1 <=? i then l !! Z.to_nat (i - 1) else None.

(** [table.remove(t, pos)] as in Lua 5.1 and LuaJIT: a position outside
    [1..#t] removes nothing. *)
Definition table_remove (l : list ref) (pos : Z) : list ref :=
  if (1 <=? pos) && (pos <=? Z.of_nat (length l))
  then delete (Z.to_nat (pos - 1)) l
  else l.

(** The loop over [naughty.notifications.suspended] in [destroy]: remove
    the first entry whose box is the notification's box. *)
Fixpoint remove_first (r : ref) (l : list ref) : list ref :=
  match l with
  | [] => []
  | v :: l' => if decide (v = r) then l' else v :: remove_first r l'
  end.

(** [for i = 1, idx-1, 1 do existing = existing + t[i].height + spacing end] *)
Fixpoint sum_existing (h : list notification) (sp : Z) (l : list ref)
    (existing : Z) : outcome Z :=
  match l with
  | [] => Done existing
  | r :: l' =>
      n <- non_nil (h !! r) ;;
      sum_existing h sp l' (existing + n_height n + sp)
  end.

Definition existing_height (st : state) (l : list ref) (idx : Z) : outcome Z :=
  let cnt := Z.to_nat (idx - 1) in
  if decide (cnt <= length l)%nat
  then sum_existing (store st) (spacing (cfg st)) (take cnt l) 0
  else LuaError.

(** The two placement formulas and the test that triggers an eviction. *)
Definition offset_x (ws : workarea) (pos : position) (pad width : Z) : Q :=
  if position_match pos "left" then inject_Z (ws_x ws + pad)
  else if position_match pos "middle" then
    (inject_Z (ws_width ws) / 2 - inject_Z width / 2)%Q
  else inject_Z (ws_x ws + ws_width ws - (width + pad)).

Definition offset_y (ws : workarea) (pos : position) (pad height existing : Z) : Z :=
  if position_match pos "top" then ws_y ws + pad + existing
  else ws_y ws + ws_height ws - (pad + height + existing).

Definition outside (ws : workarea) (y height : Z) : bool :=
  (y + height >? ws_y ws + ws_height ws) || (y <? ws_y ws).

Section Runtime.

(** The order in which [pairs] walks the six position keys of a per-screen
    table.  Lua leaves it unspecified, so it is a parameter. *)
Variable pairs_order : list position.

(** ** [get_offset], [naughty.destroy] and [arrange]

    The three functions call each other; [fuel] bounds the depth of the
    calls.  The inner loop of [arrange] walks a list that the calls it
    makes may shorten, so it re-reads the list at every step
    ([arrange_items], with a 0-based cursor). *)
Fixpoint get_offset (fuel : nat) (st : state) (s : nat) (pos : position)
    (idx : option Z) (width : option Z) (height : Z) {struct fuel}
    : outcome (state * offset) :=
  match fuel with
  | O => OutOfFuel
  | S fuel' =>
      sc <- non_nil (get_screen st s) ;;
      let ws := s_workarea sc in
      let l := plist (s_popups sc) pos in
      let idx := default (Z.of_nat (length l) + 1) idx in
      width <- match width with
               | Some w => Done w
               | None =>
                   r <- non_nil (lua_index l idx) ;;
                   n <- non_nil (store st !! r) ;;
                   Done (n_width n)
               end ;;
      pad <- non_nil (padding (cfg st)) ;;
      (* calculate x *)
      let x := offset_x ws pos pad width in
      (* calculate existing popups' height *)
      existing <- existing_height st l idx ;;
      (* calculate y *)
      let y := offset_y ws pos pad height existing in
      (* if positioned outside workarea, destroy oldest popup and recalculate *)
      if outside ws y height then
        let idx := idx - 1 in
        d <- destroy fuel' st (lua_index l 1) None ;;
        get_offset fuel' (fst d) s pos (Some idx) (Some width) height
      else Done (st, Offset x y idx)
  end

with arrange_items (fuel : nat) (st : state) (s : nat) (p : position)
    (i : nat) {struct fuel} : outcome state :=
  match fuel with
  | O => OutOfFuel
  | S fuel' =>
      l <- non_nil (get_list st s p) ;;
      match l !! i with
      | None => Done st
      | Some r =>
          n <- non_nil (store st !! r) ;;
          o <- get_offset fuel' st s p (Some (Z.of_nat i + 1))
                 (Some (n_width n)) (n_height n) ;;
          arrange_items fuel' (update (fst o) r (place (snd o))) s p (S i)
      end
  end

with arrange (fuel : nat) (st : state) (s : nat) {struct fuel} : outcome state :=
  match fuel with
  | O => OutOfFuel
  | S fuel' =>
      _ <- non_nil (get_screen st s) ;;
      foldl (fun acc p => st' <- acc ;; arrange_items fuel' st' s p 0)
            (Done st) pairs_order
  end

with destroy (fuel : nat) (st : state) (notification : option ref)
    (reason : option Z) {struct fuel} : outcome (state * bool) :=
  match fuel with
  | O => OutOfFuel
  | S fuel' =>
      match notification with
      | None => Done (st, false)
      | Some r =>
          n <- non_nil (store st !! r) ;;
          if box_visible n then
            let st := if suspended st
                      then set_susp st (remove_first r (susp st))
                      else st in
            let scr := n_screen n in
            l <- non_nil (get_list st scr (n_position n)) ;;
            let st := set_list st scr (n_position n) (table_remove l (n_idx n)) in
            let st := update st r stop_timer in
            let st := update st r (with_visible false) in
            st <- arrange fuel' st scr ;;
            n' <- non_nil (store st !! r) ;;
            let st := if n_destroy_cb n' && negb (bool_decide (reason = Some reason_silent))
                      then log_cb st r (default reason_undefined reason)
                      else st in
            Done (st, true)
          else Done (st, false)
      end
  end.

(** ** [naughty.getById] *)
Fixpoint find_id (h : list notification) (id : Z) (l : list ref) : option ref :=
  match l with
  | [] => None
  | r :: l' =>
      match h !! r with
      | Some n => if n_id n =? id then Some r else find_id h id l'
      | None => find_id h id l'
      end
  end.

Fixpoint find_id_positions (h : list notification) (id : Z) (t : popups)
    (ps : list position) : option ref :=
  match ps with
  | [] => None
  | p :: ps' =>
      match find_id h id (plist t p) with
      | Some r => Some r
      | None => find_id_positions h id t ps'
      end
  end.

Fixpoint find_id_screens (h : list notification) (id : Z) (scs : list screen)
    : option ref :=
  match scs with
  | [] => None
  | sc :: scs' =>
      match find_id_positions h id (s_popups sc) pairs_order with
      | Some r => Some r
      | None => find_id_screens h id scs'
      end
  end.

Definition getById (st : state) (id : Z) : option ref :=
  find_id_screens (store st) id (screens st).

(** ** Timers *)

(** [set_timeout(notification, timeout)]: a timer is installed only for a
    positive timeout, and it is started unless notifications are
    suspended.  (The closure stored in [notification.die] is not part of
    the model.) *)
Definition set_timeout (is_suspended : bool) (timeout : Z) (n : notification)
    : notification :=
  if 0 <? timeout
  then with_timer (Some (Timer timeout (negb is_suspended))) n
  else n.


(** ** Suspending *)

Definition suspend (st : state) : state := set_suspended st true.

(** The body of the loop of [naughty.resume]. *)
Definition wake (n : notification) : notification :=
  with_timer (timer_start <$> n_timer n) (with_visible true n).

Definition resume (st : state) : state :=
  let st := set_suspended st false in
  let st := foldl (fun st' v => update st' v wake) st (susp st) in
  set_susp st [].

Definition toggle (st : state) : state :=
  if suspended st then resume st else suspend st.

(** ** [naughty.notify] *)

Definition empty_preset : preset := Preset None None None None None None.

Definition lua_or {A : Type} (a b : option A) : option A :=
  match a with
  | Some v => Some v
  | None => b
  end.

(** [util.table.join(d, p)]: the entries of [p] override those of [d]. *)
Definition join (d p : preset) : preset :=
  Preset (lua_or (p_timeout p) (p_timeout d))
         (lua_or (p_screen p) (p_screen d))
         (lua_or (p_position p) (p_position d))
         (lua_or (p_width p) (p_width d))
         (lua_or (p_height p) (p_height d))
         (lua_or (p_border_width p) (p_border_width d)).

(** "calculate the height" and "calculate the width", up to the crop. *)
Definition computed_height (height : option Z) (m : measured) : Z :=
  let margin := m_margin m in
  let h := m_text_h m in
  let height :=
    match height with
    | Some v => v
    | None =>
        match m_icon m with
        | Some (_, icon_h) =>
            if icon_h + 2 * margin >? h + 2 * margin
            then icon_h + 2 * margin
            else h + 2 * margin
        | None => h + 2 * margin
        end
    end in
  height + m_actions_total_height m.

Definition computed_width (width : option Z) (m : measured) : Z :=
  let margin := m_margin m in
  let w := m_text_w m in
  let width :=
    match width with
    | Some v => v
    | None =>
        w + match m_icon m with
            | Some (icon_w, _) => icon_w + 2 * margin
            | None => 0
            end + 2 * margin
    end in
  if width <? m_actions_max_width m then m_actions_max_width m else width.

(** "crop to workarea size if too big", for one dimension. *)
Definition crop (dim workarea_dim : Z) (border_width pad : option Z) : Z :=
  if dim >? workarea_dim - 2 * default 0 border_width - 2 * default 0 pad
  then workarea_dim - 2 * default 0 border_width - 2 * default 0 pad
  else dim.

(** "replace notification if needed": the state after the silent destroy
    and the id of the new notification. *)
Definition assign_id (fuel : nat) (st : state) (replaces_id : option Z)
    : outcome (state * Z) :=
  match replaces_id with
  | Some rid =>
      st <- match getById st rid with
            | Some obj =>
                d <- destroy fuel st (Some obj) (Some reason_silent) ;;
                Done (fst d)
            | None => Done st
            end ;;
      if rid <=? counter st
      then Done (st, rid)
      else Done (set_counter st (counter st + 1), counter st + 1)
  | None => Done (set_counter st (counter st + 1), counter st + 1)
  end.

(** [table.insert] at the end of [naughty.notifications[s][p]]. *)
Definition append_popup (st : state) (s : nat) (p : position) (r : ref)
    : outcome state :=
  l <- non_nil (get_list st s p) ;;
  Done (set_list st s p (l ++ [r])).

(** The first lines of [notify]: the callback may rewrite the arguments or
    veto the notification. *)
Definition effective_args (c : config) (a : args) : option args :=
  match notify_callback c with
  | Some f => f a
  | None => Some a
  end.

(** "gather variables together" *)
Definition gathered (c : config) (a : args) : preset :=
  let preset := join (default empty_preset (defaults c))
                     (default (default empty_preset (presets_normal c))
                              (a_preset a)) in
  Preset (lua_or (a_timeout a) (p_timeout preset))
         (lua_or (a_screen a) (p_screen preset))
         (lua_or (a_position a) (p_position preset))
         (lua_or (a_width a) (p_width preset))
         (lua_or (a_height a) (p_height preset))
         (lua_or (a_border_width a) (p_border_width preset)).

(** The width and height given to the wibox, after the crop. *)
Definition popup_width (c : config) (wa : workarea) (a : args) : Z :=
  let g := gathered c a in
  crop (computed_width (p_width g) (a_measured a)) (ws_width wa)
       (p_border_width g) (padding c).

Definition popup_height (c : config) (wa : workarea) (a : args) : Z :=
  let g := gathered c a in
  crop (computed_height (p_height g) (a_measured a)) (ws_height wa)
       (p_border_width g) (padding c).

(** "set size in notification object" *)
Definition outer (c : config) (a : args) (dim : Z) : Z :=
  dim + 2 * default 0 (p_border_width (gathered c a)).

Definition notify (fuel : nat) (st : state) (a : args)
    : outcome (state * option ref) :=
  match effective_args (cfg st) a with
  | None => Done (st, None)
  | Some a =>
      (* gather variables together *)
      let g := gathered (cfg st) a in
      let destroy_cb := a_destroy a in
      (* replace notification if needed *)
      i <- assign_id fuel st (a_replaces_id a) ;;
      let st := fst i in
      let id := snd i in
      (* hook destroy *)
      timeout <- non_nil (p_timeout g) ;;
      let hook := set_timeout (suspended st) timeout in
      (* calculate the height and the width, crop to workarea size *)
      screen <- non_nil (p_screen g) ;;
      sc <- non_nil (get_screen st screen) ;;
      let wa := s_workarea sc in
      let width := popup_width (cfg st) wa a in
      let height := popup_height (cfg st) wa a in
      (* set size in notification object *)
      let n_h := outer (cfg st) a height in
      let n_w := outer (cfg st) a width in
      (* position the wibox *)
      position <- non_nil (p_position g) ;;
      o <- get_offset fuel st screen position None (Some n_w) n_h ;;
      let st := fst o in
      let offset := snd o in
      let r := length (store st) in
      let n := hook {| n_screen := screen; n_destroy_cb := destroy_cb;
                       n_timeout := timeout; n_id := id; n_position := position;
                       n_timer := None; n_height := n_h; n_width := n_w;
                       n_idx := o_idx offset;
                       box_visible := negb (suspended st);
                       box_x := o_x offset; box_y := o_y offset;
                       box_width := width; box_height := height |} in
      let st := set_store st (store st ++ [n]) in
      (* insert the notification to the table *)
      st <- append_popup st screen position r ;;
      let st := if suspended st then set_susp st (susp st ++ [r]) else st in
      Done (st, Some r)
  end.

End Runtime.

(** ** Title and text *)

Section Text.
Import Stdlib.Strings.Ascii.

(** [s:gsub("[<>&]", { ['<'] = "&lt;", ['>'] = "&gt;", ['&'] = "&amp;" })] *)
Fixpoint gsub_escape (s : string) : string :=
  match s with
  | EmptyString => EmptyString
  | String c s' =>
      (if Ascii.eqb c "<"%char then "&lt;"
       else if Ascii.eqb c ">"%char then "&gt;"
       else if Ascii.eqb c "&"%char then "&amp;"
       else String c EmptyString) +:+ gsub_escape s'
  end.

(** The shortest match of [.->]: what is left of [s] behind its first [>]. *)
Fixpoint after_gt (s : string) : option string :=
  match s with
  | EmptyString => None
  | String c s' => if Ascii.eqb c ">"%char then Some s' else after_gt s'
  end.

(** A match of the pattern [<br.->] at the head of [s]: what is left of
    [s] behind the match. *)
Definition match_br (s : string) : option string :=
  match s with
  | String c1 (String c2 (String c3 s')) =>
      if Ascii.eqb c1 "<"%char && Ascii.eqb c2 "b"%char && Ascii.eqb c3 "r"%char
      then after_gt s'
      else None
  | _ => None
  end.

(** [s:gsub("<br.->", "\n")]; the budget is the length of [s], since every
    step consumes a character. *)
Fixpoint gsub_br_from (budget : nat) (s : string) : string :=
  match budget with
  | O => s
  | S budget' =>
      match s with
      | EmptyString => EmptyString
      | String c s' =>
          match match_br s with
          | Some rest => String "010"%char (gsub_br_from budget' rest)
          | None => String c (gsub_br_from budget' s')
          end
      end
  end.

Definition gsub_br (s : string) : string := gsub_br_from (String.length s) s.

(** What the text box shows: markup accepted by Pango, or plain text. *)
Inductive content :=
| Markup (s : string)
| PlainText (s : string).

Definition invalid_markup : string :=
  "<i>&lt;Invalid markup or UTF8, cannot display message&gt;</i>".

(** Whether [textbox:set_markup] accepts a string (Pango can parse it) and
    whether [textbox:set_text] accepts one (it is valid UTF-8) is decided
    by the host toolkit; a rejected string raises a Lua error and leaves
    the text box as it was. *)
Variable markup_ok : string -> bool.
Variable text_ok : string -> bool.

Definition set_markup (s : string) : outcome content :=
  if markup_ok s then Done (Markup s) else LuaError.

Definition textbox_set_text (s : string) : outcome content :=
  if text_ok s then Done (PlainText s) else LuaError.

(** [if not pcall(f) then g end] *)
Definition pcall_else (f g : outcome content) : outcome content :=
  match f with
  | Done c => Done c
  | _ => g
  end.

(** [set_text(notification, title, text)]: what the text box of the
    notification shows afterwards.  [string.format] with [%s] is
    concatenation. *)
Definition set_text (title text : string) : outcome content :=
  (* the title is escaped before any of the local functions runs *)
  let title := gsub_escape title in
  let setMarkup (sub : string -> string) :=
    set_markup ("<b>" +:+ title +:+ "</b>" +:+ sub text) in
  let setText := textbox_set_text (title +:+ " " +:+ text) in
  pcall_else (setMarkup gsub_br)
    (pcall_else (setMarkup gsub_escape)
       (pcall_else setText
          (set_markup invalid_markup))).

(** [naughty.replace_text(notification, new_title, new_text)] *)
Definition replace_text (new_title : option string) (new_text : string)
    : outcome content :=
  let title := match new_title with
               | Some title => title +:+ String "010"%char EmptyString
               | None => ""
               end in
  set_text title new_text.

End Text.

(** ** The state right after the module is loaded *)

Definition default_preset : preset :=
  Preset (Some 5) (Some 1%nat) (Some top_right) None None (Some 1).

Definition default_config : config :=
  Config (Some 4) 1 None (Some empty_preset) (Some default_preset).

Definition init (was : list workarea) : state :=
  {| cfg := default_config; counter := 1; suspended := false;
     screens := (fun wa => Screen wa no_popups) <$> was;
     susp := []; store := []; cb_log := []; g_timeout := None |}.

(** ** Notions used in the statements *)

(** The six position keys. *)
Definition positions : list position :=
  [top_left; top_middle; top_right; bottom_left; bottom_middle; bottom_right].

Definition visits_each_once (order : list position) : bool :=
  bool_decide (NoDup order) && forallb (fun q => bool_decide (q ∈ order)) positions.

(** The room a listed popup takes in its stack: its height plus the
    spacing; [total] adds it up over a list. *)
Definition weight (st : state) (r : ref) : Z :=
  match store st !! r with
  | Some n => n_height n + spacing (cfg st)
  | None => 0
  end.

Definition total (st : state) (l : list ref) : Z :=
  foldr (fun r acc => weight st r + acc) 0 l.

(** Where [get_offset] puts the popup at (0-based) index [j] of the list
    [l] when nothing has to be evicted. *)
Definition slot (st : state) (ws : workarea) (q : position) (pad : Z)
    (l : list ref) (j : nat) (n : notification) : offset :=
  Offset (offset_x ws q pad (n_width n))
         (offset_y ws q pad (n_height n) (total st (take j l)))
         (Z.of_nat j + 1).

Definition fits_at (st : state) (ws : workarea) (q : position) (pad : Z)
    (l : list ref) (j : nat) (r : ref) : Prop :=
  exists n, store st !! r = Some n /\
    outside ws (offset_y ws q pad (n_height n) (total st (take j l))) (n_height n) = false.

(** A screen is settled when every listed popup is a distinct live
    notification of that screen and position, records its own index, lies
    inside the work area, is displayed where [get_offset] computes it, and
    takes a non-negative room in its stack. *)
Definition popup_settled (st : state) (s : nat) (ws : workarea) (pad : Z)
    (q : position) (l : list ref) (j : nat) (r : ref) : bool :=
  match store st !! r with
  | Some n =>
      bool_decide (n_screen n = s) && bool_decide (n_position n = q)
      && bool_decide (n_idx n = Z.of_nat j + 1)
      && negb (outside ws (offset_y ws q pad (n_height n) (total st (take j l)))
                 (n_height n))
      && bool_decide (box_y n = offset_y ws q pad (n_height n) (total st (take j l)))
      && bool_decide (0 <= n_height n + spacing (cfg st))
  | None => false
  end.

Definition settled (st : state) (s : nat) : bool :=
  match get_screen st s, padding (cfg st) with
  | Some sc, Some pad =>
      forallb (fun q =>
                 let l := plist (s_popups sc) q in
                 bool_decide (NoDup l)
                 && forallb id (imap (popup_settled st s (s_workarea sc) pad q l) l))
              positions
  | _, _ => false
  end.

(** The vertical coordinate a popup is displayed at, and its displayed
    offset: the distance between the popup and the edge of the work area
    its stack grows from (top edge for the [top_*] positions, bottom edge
    for the [bottom_*] ones). *)
Definition displayed_y (st : state) (r : ref) : option Z :=
  box_y <$> store st !! r.

Definition displayed_offset (st : state) (r : ref) : option Z :=
  match store st !! r with
  | Some n =>
      match get_screen st (n_screen n) with
      | Some sc =>
          let ws := s_workarea sc in
          Some (if position_match (n_position n) "top"
                then box_y n - ws_y ws
                else ws_y ws + ws_height ws - (box_y n + n_height n))
      | None => None
      end
  | None => None
  end.

(** The same facts, one popup at a time. *)
Record popup_facts (st : state) (s : nat) (ws : workarea) (pad : Z)
    (q : position) (l : list ref) (j : nat) (n : notification) : Prop := {
  pf_screen : n_screen n = s;
  pf_position : n_position n = q;
  pf_idx : n_idx n = Z.of_nat j + 1;
  pf_inside : outside ws (offset_y ws q pad (n_height n) (total st (take j l)))
                (n_height n) = false;
  pf_shown : box_y n = offset_y ws q pad (n_height n) (total st (take j l));
  pf_weight : 0 <= n_height n + spacing (cfg st)
}.

(** What [get_offset], [arrange] and [naughty.destroy] never change about a
    notification, and about the state: configuration, counter, work
    areas and the identity of the notifications stay, lists only lose
    entries, a hidden popup stays hidden, and destroy callbacks run only
    for popups that were visible. *)
Record same_static (n n' : notification) : Prop := {
  ss_id : n_id n' = n_id n;
  ss_screen : n_screen n' = n_screen n;
  ss_position : n_position n' = n_position n;
  ss_height : n_height n' = n_height n;
  ss_width : n_width n' = n_width n;
  ss_destroy_cb : n_destroy_cb n' = n_destroy_cb n;
  ss_timeout : n_timeout n' = n_timeout n;
  ss_box_width : box_width n' = box_width n;
  ss_box_height : box_height n' = box_height n;
  ss_hidden : box_visible n = false -> box_visible n' = false
}.

Record frame (st st' : state) : Prop := {
  fr_cfg : cfg st' = cfg st;
  fr_counter : counter st' = counter st;
  fr_suspended : suspended st' = suspended st;
  fr_g_timeout : g_timeout st' = g_timeout st;
  fr_length : length (store st') = length (store st);
  fr_workarea : forall s, s_workarea <$> get_screen st' s = s_workarea <$> get_screen st s;
  fr_lists : forall s p l, get_list st s p = Some l ->
               exists l', get_list st' s p = Some l' /\ l' `sublist_of` l;
  fr_store : forall r n, store st !! r = Some n ->
               exists n', store st' !! r = Some n' /\ same_static n n';
  fr_log : exists added, cb_log st' = cb_log st ++ added /\
             forall e, e ∈ added ->
               exists n, store st !! e.1 = Some n /\ box_visible n = true
}.

(** One step of the loop over the positions in [arrange]. *)
Definition arrange_step (order : list position) (fuel : nat) (s : nat) :=
  fun (acc : outcome state) (p : position) =>
    bind acc (fun st' => arrange_items order fuel st' s p 0).

(** What a call of [notify] that returns has done. *)
Record notified (order : list position) (fuel : nat) (st : state) (a' : args) (st' : state) (r : ref)
    (st1 st2 : state) (n : notification) (off : offset) (sc : screen)
    (l : list ref) : Prop := {
  nd_assign : assign_id order fuel st (a_replaces_id a') = Done (st1, n_id n);
  nd_timeout : p_timeout (gathered (cfg st) a') = Some (n_timeout n);
  nd_screen : p_screen (gathered (cfg st) a') = Some (n_screen n);
  nd_position : p_position (gathered (cfg st) a') = Some (n_position n);
  nd_frame1 : frame st st1 \/ exists st0, frame st st0 /\ st1 = set_counter st0 (counter st0 + 1);
  nd_cfg1 : cfg st1 = cfg st;
  nd_sc : get_screen st1 (n_screen n) = Some sc;
  nd_offset : get_offset order fuel st1 (n_screen n) (n_position n) None
                (Some (n_width n)) (n_height n) = Done (st2, off);
  nd_box_width : box_width n = popup_width (cfg st) (s_workarea sc) a';
  nd_box_height : box_height n = popup_height (cfg st) (s_workarea sc) a';
  nd_width : n_width n = outer (cfg st) a' (box_width n);
  nd_height : n_height n = outer (cfg st) a' (box_height n);
  nd_destroy_cb : n_destroy_cb n = a_destroy a';
  nd_idx : n_idx n = o_idx off;
  nd_x : box_x n = o_x off;
  nd_y : box_y n = o_y off;
  nd_visible : box_visible n = negb (suspended st2);
  nd_timer : n_timer n = if 0 <? n_timeout n
                         then Some (Timer (n_timeout n) (negb (suspended st1)))
                         else None;
  nd_ref : r = length (store st2);
  nd_store : store st' = store st2 ++ [n];
  nd_list : get_list st2 (n_screen n) (n_position n) = Some l;
  nd_lists : forall s q, get_list st' s q
               = if decide (s = n_screen n /\ q = n_position n)
                 then Some (l ++ [r]) else get_list st2 s q;
  nd_workarea : forall s, s_workarea <$> get_screen st' s = s_workarea <$> get_screen st2 s;
  nd_cfg : cfg st' = cfg st2;
  nd_counter : counter st' = counter st2;
  nd_suspended : suspended st' = suspended st2;
  nd_g_timeout : g_timeout st' = g_timeout st2;
  nd_cb_log : cb_log st' = cb_log st2;
  nd_susp : susp st' = if suspended st2 then susp st2 ++ [r] else susp st2
}.

(** A popup of height [h] is too tall for screen [s] when it does not fit
    between the padding and the far edge of the work area even with
    nothing stacked before it; the second field says that no stored
    notification takes a negative room. *)
Record too_tall (st : state) (s : nat) (h : Z) : Prop := {
  tt_fit : exists sc pad, get_screen st s = Some sc /\ padding (cfg st) = Some pad /\
             ws_height (s_workarea sc) < pad + h;
  tt_weights : forall r n, store st !! r = Some n -> 0 <= n_height n + spacing (cfg st)
}.

(** Whether a call has returned. *)
Definition returned {A : Type} (o : outcome A) : bool :=
  match o with
  | Done _ => true
  | _ => false
  end.

(** A notification is listed once when the list of its own screen and
    position holds it at the index its [idx] field records, and no list
    holds it anywhere else. *)
Record listed_once (st : state) (r : ref) (n : notification) : Prop := {
  lo_list : exists l, get_list st (n_screen n) (n_position n) = Some l /\
                      lua_index l (n_idx n) = Some r;
  lo_only : forall s q l j, get_list st s q = Some l -> l !! j = Some r ->
              s = n_screen n /\ q = n_position n /\ n_idx n = Z.of_nat j + 1
}.

(** The arguments name a timeout, a settled screen and a position, and the
    new popup fits at the end of its list once [gone] has left it. *)
Definition admits (st : state) (a : args) (gone : ref) : bool :=
  let g := gathered (cfg st) a in
  match p_timeout g, p_screen g, p_position g with
  | Some _, Some s, Some p =>
      settled st s &&
      match get_screen st s, padding (cfg st) with
      | Some sc, Some pad =>
          let ws := s_workarea sc in
          let h := outer (cfg st) a (popup_height (cfg st) ws a) in
          negb (outside ws
                  (offset_y ws p pad h
                     (total st (remove_first gone (plist (s_popups sc) p))))
                  h)
      | _, _ => false
      end
  | _, _, _ => false
  end.

(** The state after a call of [notify] that has nothing to evict. *)
Definition after_notify (st : state) (a : args) : state :=
  match notify positions 1 st a with
  | Done (st', _) => st'
  | _ => st
  end.

(** The host gives screen [s] a new work area (a panel appears, the
    resolution changes); [get_offset] reads the work area anew at every
    call. *)
Definition host_resize (st : state) (s : nat) (wa : workarea) : state :=
  match s with
  | O => st
  | S s' =>
      match screens st !! s' with
      | Some sc => set_screens st (<[s' := Screen wa (s_popups sc)]> (screens st))
      | None => st
      end
  end.

(** ** Sample inputs *)

Definition sample_workarea : workarea := Workarea 0 0 800 100.
Definition sample_measured : measured := Measured 50 20 None 0 0 5.
Definition sample_args : args :=
  Args None None None None None None true None None sample_measured.

Definition tall_args : args :=
  Args None None None None (Some 500) None true None None sample_measured.
Definition forever_args : args :=
  Args (Some 0) None None None None None true None None sample_measured.
Definition shifted_workarea : workarea := Workarea 100 0 800 600.
Definition roomy_workarea : workarea := Workarea 0 0 800 200.
Definition bottom_args : args :=
  Args None None (Some bottom_left) None None None true None None sample_measured.
Definition replacing_args : args :=
  Args None None None None None None true None (Some 2) sample_measured.

(** Two popups at [top_right] (references 0 and 1, ids 2 and 3) and two at
    [bottom_left] (references 2 and 3). *)
Definition sample_state : state :=
  after_notify
    (after_notify
       (after_notify (after_notify (init [roomy_workarea]) sample_args) sample_args)
       bottom_args)
    bottom_args.

(** Two popups of height 32 at [top_right], on a work area whose height
    has since shrunk to 20. *)
Definition shrunk_state : state :=
  host_resize
    (after_notify (after_notify (init [sample_workarea]) sample_args) sample_args)
    1 (Workarea 0 0 800 20).

(** One popup made while notifications are suspended (reference 0, id 2). *)
Definition sample_suspended : state :=
  after_notify (suspend (init [sample_workarea])) sample_args.

(** ** Notions used for the invariants of the popup lists *)

(** Every stored id is at most the counter. *)
Definition ids_bounded (st : state) : bool :=
  forallb (fun n => n_id n <=? counter st) (store st).

(** Whether the popup behind a reference is visible. *)
Definition shown (st : state) (r : ref) : bool :=
  match store st !! r with
  | Some n => box_visible n
  | None => false
  end.

(** The suspended list holds live notifications whose popups are hidden. *)
Definition susp_hidden (st : state) : bool :=
  forallb (fun r => match store st !! r with
                    | Some n => negb (box_visible n)
                    | None => false
                    end) (susp st).

(** The state in which [naughty.destroy] calls [arrange]: the popup has
    left the suspended list and its own list, its timer is stopped and
    its box is hidden; and the list it is removed from. *)
Definition unlisted (st : state) (r : ref) (n : notification) (l : list ref) : state :=
  let st := if suspended st then set_susp st (remove_first r (susp st)) else st in
  let st := set_list st (n_screen n) (n_position n) (table_remove l (n_idx n)) in
  let st := update st r stop_timer in
  update st r (with_visible false).

Definition list_before_removal (st : state) (r : ref) (n : notification)
    : option (list ref) :=
  get_list (if suspended st then set_susp st (remove_first r (susp st)) else st)
    (n_screen n) (n_position n).

(** The test that guards the call of the destroy callback. *)
Definition called_back (n : notification) (reason : option Z) : bool :=
  n_destroy_cb n && negb (bool_decide (reason = Some reason_silent)).

(** The callbacks added were all made with the reason [undefined]. *)
Definition evictions_only (st st' : state) : Prop :=
  exists added, cb_log st' = cb_log st ++ added /\
    forall e, e ∈ added -> e.2 = reason_undefined.

Definition keeps_suspended_list (st st' : state) : Prop :=
  susp_hidden st = true -> susp st' = susp st /\ susp_hidden st' = true.

(** Timers are at most stopped. *)
Definition timers_only_stop (st st' : state) : Prop :=
  length (store st') = length (store st) /\
  forall r n n', store st !! r = Some n -> store st' !! r = Some n' ->
    n_timer n' = n_timer n \/ n_timer n' = timer_stop <$> n_timer n.

(** The callbacks made when the popups of [l] are evicted, in order. *)
Definition eviction_calls (st : state) (l : list ref) : list (ref * Z) :=
  flat_map (fun r => match store st !! r with
                     | Some n => if n_destroy_cb n then [(r, reason_undefined)] else []
                     | None => []
                     end) l.

(** The state after [get_offset] has evicted the [k] oldest popups of
    position [p] on screen [s]. *)
Record evicted (st : state) (s : nat) (p : position) (sc : screen) (k : nat)
    (st' : state) : Prop := {
  ev_settled : settled st' s = true;
  ev_screen : get_screen st' s
              = Some (Screen (s_workarea sc)
                        (set_plist (s_popups sc) p (drop k (plist (s_popups sc) p))));
  ev_others : forall s', s' <> s -> get_screen st' s' = get_screen st s';
  ev_settled_others : forall s', s' <> s -> settled st s' = true -> settled st' s' = true;
  ev_frame : frame st st';
  ev_hidden : forall r, r ∈ take k (plist (s_popups sc) p) ->
                exists n1, store st' !! r = Some n1 /\ box_visible n1 = false;
  ev_visible : forall r' n', r' ∉ take k (plist (s_popups sc) p) ->
                 store st !! r' = Some n' ->
                 exists n'', store st' !! r' = Some n'' /\ box_visible n'' = box_visible n';
  ev_log : cb_log st' = cb_log st ++ eviction_calls st (take k (plist (s_popups sc) p))
}.

(** The test of [get_offset] for a popup of height [h] behind popups that
    take [existing] pixels: is it positioned outside the work area? *)
Definition no_room (st : state) (s : nat) (p : position) (h existing : Z) : bool :=
  match get_screen st s, padding (cfg st) with
  | Some sc, Some pad =>
      outside (s_workarea sc) (offset_y (s_workarea sc) p pad h existing) h
  | _, _ => true
  end.

(** The arguments name a timeout, a settled screen and a position whose
    popups are all visible; the padding is not negative, and the new popup
    takes a non-negative room. *)
Definition welcomes (st : state) (a : args) : bool :=
  let g := gathered (cfg st) a in
  match p_timeout g, p_screen g, p_position g with
  | Some _, Some s, Some p =>
      settled st s &&
      match get_screen st s, padding (cfg st) with
      | Some sc, Some pad =>
          (0 <=? pad) &&
          (0 <=? outer (cfg st) a (popup_height (cfg st) (s_workarea sc) a)
                 + spacing (cfg st)) &&
          forallb (shown st) (plist (s_popups sc) p)
      | _, _ => false
      end
  | _, _, _ => false
  end.

(** Two popups of height 32 at [top_right] of a work area of height 100:
    a third one does not fit below them. *)
Definition crowded_state : state :=
  after_notify (after_notify (init [sample_workarea]) sample_args) sample_args.

(** Two popups made at [top_right] while notifications are suspended. *)
Definition crowded_suspended : state :=
  after_notify (after_notify (suspend (init [sample_workarea])) sample_args) sample_args.

(** A third one, made while still suspended, and [naughty.resume]: three
    visible popups at [top_right] (references 0, 1 and 2, ids 2, 3
    and 4). *)
Definition stale_state : state :=
  match notify positions 3 crowded_suspended sample_args with
  | Done (st, _) => resume st
  | _ => crowded_suspended
  end.

(** ** Notions used for the escaping of titles *)

Section Entities.
Import Stdlib.Strings.Ascii.

(** Decoding of the three entities, and occurrence of a character. *)
Fixpoint unescape_from (skip : nat) (s : string) : string :=
  match s with
  | EmptyString => EmptyString
  | String c s' =>
      match skip with
      | S k => unescape_from k s'
      | O =>
          if String.prefix "&lt;" s then String "<"%char (unescape_from 3 s')
          else if String.prefix "&gt;" s then String ">"%char (unescape_from 3 s')
          else if String.prefix "&amp;" s then String "&"%char (unescape_from 4 s')
          else String c (unescape_from 0 s')
      end
  end.

Definition unescape (s : string) : string := unescape_from 0 s.

Fixpoint has_char (c : Ascii.ascii) (s : string) : bool :=
  match s with
  | EmptyString => false
  | String c' s' => Ascii.eqb c c' || has_char c s'
  end.

End Entities.

End Naughty.

(* ===================================================================== *)
(** * Facts about the stacking layout *)
(* ===================================================================== *)

Module XtermProofs.
Import Xterm.

Lemma math_ceil_div_spec (a b : Z) :
  0 < b -> b * (math_ceil_div a b - 1) < a <= b * math_ceil_div a b.
Proof.
  intros Hb. unfold math_ceil_div.
  pose proof (Qle_ceiling (inject_Z a / inject_Z b)) as Hle.
  pose proof (Qceiling_lt (inject_Z a / inject_Z b)) as Hlt.
  set (h := Qceiling (inject_Z a / inject_Z b)) in *.
  assert (Hbq : (0 < inject_Z b)%Q) by (unfold Qlt; simpl; lia).
  assert (Hb0 : ~ (inject_Z b == 0)%Q) by (unfold Qeq; simpl; lia).
  split.
  - apply (proj2 (Qmult_lt_r _ _ (inject_Z b) Hbq)) in Hlt.
    rewrite (Qmult_comm (inject_Z a / inject_Z b)), (Qmult_div_r _ _ Hb0) in Hlt.
    unfold Qlt in Hlt; simpl in Hlt. lia.
  - apply (proj2 (Qmult_le_r _ _ (inject_Z b) Hbq)) in Hle.
    rewrite (Qmult_comm (inject_Z a / inject_Z b)), (Qmult_div_r _ _ Hb0) in Hle.
    unfold Qle in Hle; simpl in Hle. lia.
Qed.


Lemma xterm_loop_other wa h cls : forall k geos (c : client),
  c ∉ cls -> xterm_loop wa h k cls geos !! c = geos !! c.
Proof.
  induction cls as [|c' cls IH]; intros k geos c Hc; simpl; [done|].
  rewrite IH by set_solver. apply lookup_insert_ne. set_solver.
Qed.

Lemma xterm_loop_lookup wa h cls : forall k geos j (c : client),
  NoDup cls -> cls !! j = Some c ->
  xterm_loop wa h k cls geos !! c
  = Some (Geometry (g_x wa) (g_y wa + (k - 1 + Z.of_nat j) * h) (g_width wa) h).
Proof.
  induction cls as [|c' cls IH]; intros k geos j c Hnd Hj; [done|].
  apply NoDup_cons in Hnd as [Hnotin Hnd]. destruct j as [|j]; simpl in *.
  - inversion Hj; subst c'. rewrite xterm_loop_other by done.
    rewrite lookup_insert_eq. f_equal. f_equal; lia.
  - rewrite (IH _ _ j c Hnd Hj). f_equal. f_equal; lia.
Qed.

(** C1: for a non-empty list of N distinct clients and a work area [wa],
    [arrange] gives the client at (0-based) index [k] the geometry of
    width [wa.width], height [h], x [wa.x] and y [wa.y + k * h], where
    [h] is the ceiling of [wa.height / N], that is the integer with
    [N * (h - 1) < wa.height <= N * h]; for an empty list it changes
    nothing. *)
Theorem xterm_arrange_geometry (p : params) :
  NoDup (clients p) ->
  let wa := workarea p in
  let N := Z.of_nat (length (clients p)) in
  (N = 0 -> arrange p = p) /\
  (0 < N ->
   exists h,
     N * (h - 1) < g_height wa <= N * h /\
     forall (k : nat) (c : client),
       clients p !! k = Some c ->
       geometries (arrange p) !! c
       = Some (Geometry (g_x wa) (g_y wa + Z.of_nat k * h) (g_width wa) h)).
Proof.
  intros Hnd wa N. unfold arrange, do_xterm. fold wa. fold N. split.
  - intros HN. rewrite HN. reflexivity.
  - intros HN. exists (math_ceil_div (g_height wa) N). split.
    + apply math_ceil_div_spec, HN.
    + intros k c Hk. destruct (Z.ltb_spec 0 N) as [_|]; [|lia]. simpl.
      rewrite (xterm_loop_lookup _ _ _ _ _ k c Hnd Hk). f_equal; f_equal; lia.
Qed.

(** Three clients on a work area of height 100 get rows of height 34. *)
Lemma xterm_arrange_geometry_witness :
  NoDup (clients sample_params) /\
  geometries (arrange sample_params) !! 5%nat = Some (Geometry 10 88 800 34).
Proof.
  assert (Hnd : NoDup (clients sample_params)) by (apply (bool_decide_unpack (NoDup (clients sample_params))); vm_compute; exact I).
  split; [exact Hnd|].
  destruct (xterm_arrange_geometry sample_params Hnd) as [_ H].
  destruct H as (h & Hh & Hk); [reflexivity|].
  pose proof (Hk 2%nat 5%nat eq_refl) as E.
  assert (h = 34) by (simpl in Hh; lia). subst h. exact E.
Defined.

(** ** Idempotence and tiling *)

Lemma xterm_loop_in wa h cls : forall k geos1 geos2 (c : client),
  c ∈ cls ->
  xterm_loop wa h k cls geos1 !! c = xterm_loop wa h k cls geos2 !! c.
Proof.
  induction cls as [|c' cls IH]; intros k geos1 geos2 c Hc; [set_solver|].
  cbn [xterm_loop]. destruct (decide (c ∈ cls)) as [Hin|Hnot].
  - apply IH. exact Hin.
  - assert (c = c') as -> by set_solver.
    rewrite !xterm_loop_other by done. rewrite !lookup_insert_eq. reflexivity.
Qed.

Lemma xterm_loop_again wa h cls k geos :
  xterm_loop wa h k cls (xterm_loop wa h k cls geos) = xterm_loop wa h k cls geos.
Proof.
  apply map_eq. intros c. destruct (decide (c ∈ cls)) as [Hin|Hnot].
  - apply xterm_loop_in. exact Hin.
  - rewrite xterm_loop_other by done. reflexivity.
Qed.

(** X1: arranging is idempotent and touches nothing else.  Applying
    [arrange] to its own result changes nothing more; the work area and
    the client list are returned as they were; and the geometry entry of
    every client that is not in the list is left as it was. *)
Theorem xterm_arrange_idempotent (p : params) :
  arrange (arrange p) = arrange p /\
  workarea (arrange p) = workarea p /\
  clients (arrange p) = clients p /\
  forall c : client, c ∉ clients p -> geometries (arrange p) !! c = geometries p !! c.
Proof.
  unfold arrange, do_xterm.
  destruct (0 <? Z.of_nat (length (clients p))) eqn:E.
  - cbn [workarea clients geometries]. rewrite E. cbn [workarea clients geometries].
    rewrite xterm_loop_again. split; [reflexivity|]. split; [reflexivity|].
    split; [reflexivity|]. intros c Hc. apply xterm_loop_other. exact Hc.
  - rewrite E. repeat split; reflexivity.
Qed.


(** Arranging the sample clients twice; client 9 is not among them. *)
Lemma xterm_arrange_idempotent_witness :
  arrange (arrange sample_params) = arrange sample_params /\
  geometries (arrange sample_params) !! 9%nat = geometries sample_params !! 9%nat.
Proof.
  destruct (xterm_arrange_idempotent sample_params) as (H1 & _ & _ & H4).
  split; [exact H1|]. apply H4. cbn [clients sample_params].
  rewrite !elem_of_cons, elem_of_nil. lia.
Defined.

(** X2: the rows tile the work area from the top.  For a non-empty list
    of distinct clients the geometries form a column of rows, one per
    client in list order: every row has the x and the width of the work
    area, the first row starts at the top of the work area, every next
    row starts where the previous one ends, and the last row ends at or
    below the bottom of the work area, overshooting it by fewer pixels
    than there are clients. *)
Theorem xterm_rows_tile (p : params) :
  NoDup (clients p) ->
  (0 < length (clients p))%nat ->
  let wa := workarea p in
  let N := Z.of_nat (length (clients p)) in
  exists rows : list geometry,
    length rows = length (clients p) /\
    (forall (k : nat) (c : client), clients p !! k = Some c ->
       geometries (arrange p) !! c = rows !! k) /\
    (forall g, g ∈ rows -> g_x g = g_x wa /\ g_width g = g_width wa) /\
    (g_y <$> rows !! 0%nat) = Some (g_y wa) /\
    (forall (k : nat) g g', rows !! k = Some g -> rows !! S k = Some g' ->
       g_y g' = g_y g + g_height g) /\
    (forall g, last rows = Some g ->
       g_y wa + g_height wa <= g_y g + g_height g < g_y wa + g_height wa + N).
Proof.
  intros Hnd Hpos wa N.
  set (h := math_ceil_div (g_height wa) N).
  assert (HN : 0 < N) by (unfold N; lia).
  pose proof (math_ceil_div_spec (g_height wa) N HN) as Hh. fold h in Hh.
  set (row := fun k : nat => Geometry (g_x wa) (g_y wa + Z.of_nat k * h) (g_width wa) h).
  exists (row <$> seq 0 (length (clients p))).
  assert (Hrow : forall k, (k < length (clients p))%nat ->
                   (row <$> seq 0 (length (clients p))) !! k = Some (row k)).
  { intros k Hk. rewrite list_lookup_fmap, lookup_seq_lt by exact Hk. reflexivity. }
  assert (Hrow' : forall k g, (row <$> seq 0 (length (clients p))) !! k = Some g ->
                    (k < length (clients p))%nat /\ g = row k).
  { intros k g Hk. assert (Hlt : (k < length (clients p))%nat).
    { apply lookup_lt_Some in Hk. rewrite length_fmap, length_seq in Hk. exact Hk. }
    rewrite (Hrow k Hlt) in Hk. inversion Hk. done. }
  split; [rewrite length_fmap, length_seq; reflexivity|]. split; [|split; [|split; [|split]]].
  - intros k c Hk. rewrite (Hrow k) by (eapply lookup_lt_Some; eauto).
    unfold arrange, do_xterm. fold wa. fold N.
    destruct (Z.ltb_spec 0 N) as [_|]; [|lia]. cbn [geometries]. fold h.
    rewrite (xterm_loop_lookup _ _ _ _ _ k c Hnd Hk). unfold row. f_equal; f_equal; lia.
  - intros g Hg. apply list_elem_of_lookup in Hg as [k Hk].
    apply Hrow' in Hk as [_ ->]. split; reflexivity.
  - rewrite (Hrow 0%nat) by lia. cbn. f_equal. lia.
  - intros k g g' Hk Hk'. apply Hrow' in Hk as [_ ->]. apply Hrow' in Hk' as [_ ->].
    cbn [row g_y g_height]. lia.
  - intros g Hg. rewrite last_lookup, length_fmap, length_seq in Hg.
    apply Hrow' in Hg as [_ ->]. cbn [row g_y g_height].
    replace (Z.of_nat (pred (length (clients p)))) with (N - 1) by (unfold N; lia). nia.
Qed.

(** Three clients on a work area of height 100 starting at y = 20. *)
Lemma xterm_rows_tile_witness :
  exists rows : list geometry,
    NoDup (clients sample_params) /\
    length rows = 3%nat /\
    geometries (arrange sample_params) !! 3%nat = rows !! 1%nat /\
    (forall g, last rows = Some g ->
       20 + 100 <= g_y g + g_height g < 20 + 100 + 3).
Proof.
  assert (Hnd : NoDup (clients sample_params))
    by (apply (bool_decide_unpack (NoDup (clients sample_params))); vm_compute; exact I).
  destruct (xterm_rows_tile sample_params Hnd) as (rows & Hlen & Hrows & _ & _ & _ & Hlast).
  { cbn. lia. }
  exists rows. split; [exact Hnd|]. split; [exact Hlen|]. split.
  - apply (Hrows 1%nat 3%nat). reflexivity.
  - exact Hlast.
Defined.

End XtermProofs.

(* ===================================================================== *)
(** * Facts about the keyboard layout bridge *)
(* ===================================================================== *)

Module XkbProofs.
Import Xkb.

Lemma c_and_nonzero_true a b : c_and_nonzero a b = true <-> Z.land a b <> 0.
Proof. unfold c_and_nonzero. rewrite negb_true_iff, Z.eqb_neq. tauto. Qed.

Section Relay.

Variables NEW_KEYBOARD_NOTIFY NAMES_NOTIFY STATE_NOTIFY : Z.
Variables NKN_DETAIL_KEYCODES STATE_PART_GROUP_STATE : Z.

(** The labels of a C [switch] are pairwise distinct. *)
Hypothesis labels_distinct :
  NEW_KEYBOARD_NOTIFY <> NAMES_NOTIFY /\
  NEW_KEYBOARD_NOTIFY <> STATE_NOTIFY /\
  NAMES_NOTIFY <> STATE_NOTIFY.

(** C8: for every incoming event, the handler emits [xkb::map_changed]
    with no payload exactly when the event is a new-keyboard notify whose
    changed mask has the keycodes detail set, or a names notify; it emits
    [xkb::group_changed] with the event's group as only payload exactly
    when the event is a state notify whose changed mask has the group
    part set; for every other sub-type or mask it emits nothing.  The Lua
    stack and the warnings are left as they were. *)
Theorem xkb_notify_relay (e : xkb_event) (L : lua_State) :
  let handler :=
    event_handle_xkb_notify NEW_KEYBOARD_NOTIFY NAMES_NOTIFY STATE_NOTIFY
      NKN_DETAIL_KEYCODES STATE_PART_GROUP_STATE in
  let is_map :=
    map_change NEW_KEYBOARD_NOTIFY NAMES_NOTIFY NKN_DETAIL_KEYCODES e in
  let is_group := group_change STATE_NOTIFY STATE_PART_GROUP_STATE e in
  exists out,
    emitted (handler e L) = emitted L ++ out /\
    stack (handler e L) = stack L /\
    warnings (handler e L) = warnings L /\
    (out = [Emit "xkb::map_changed" []] <-> is_map) /\
    (out = [Emit "xkb::group_changed" [LNumber (sn_group e)]] <-> is_group) /\
    (out = [] <-> ~ is_map /\ ~ is_group).
Proof.
  destruct labels_distinct as (Hab & Hac & Hbc).
  cbn zeta. unfold event_handle_xkb_notify, map_change, group_change.
  destruct (Z.eqb_spec (pad0 e) NEW_KEYBOARD_NOTIFY) as [E1|E1].
  - destruct (c_and_nonzero (nkn_changed e) NKN_DETAIL_KEYCODES) eqn:Hk.
    + apply c_and_nonzero_true in Hk.
      exists [Emit "xkb::map_changed" []]. simpl.
      repeat split; try done; try tauto; try (intros; intuition congruence).
    + assert (Hz : ~ Z.land (nkn_changed e) NKN_DETAIL_KEYCODES <> 0)
        by (rewrite <- c_and_nonzero_true; congruence).
      exists []. rewrite app_nil_r.
      repeat split; try done; try (intros; intuition congruence).
  - destruct (Z.eqb_spec (pad0 e) NAMES_NOTIFY) as [E2|E2].
    + exists [Emit "xkb::map_changed" []]. simpl.
      repeat split; try done; try tauto; try (intros; intuition congruence).
    + destruct (Z.eqb_spec (pad0 e) STATE_NOTIFY) as [E3|E3].
      * destruct (c_and_nonzero (sn_changed e) STATE_PART_GROUP_STATE) eqn:Hg.
        -- apply c_and_nonzero_true in Hg.
           exists [Emit "xkb::group_changed" [LNumber (sn_group e)]]. simpl.
           repeat split; try done; try tauto; try (intros; intuition congruence).
        -- assert (Hz : ~ Z.land (sn_changed e) STATE_PART_GROUP_STATE <> 0)
             by (rewrite <- c_and_nonzero_true; congruence).
           exists []. rewrite app_nil_r.
           repeat split; try done; try (intros; intuition congruence).
      * exists []. rewrite app_nil_r.
        repeat split; try done; try (intros; intuition congruence).
Qed.

End Relay.

(** With the values the constants have in [<xcb/xkb.h>] (new keyboard 0,
    names 6, state 2, keycodes detail 1, group state part 16), a state
    notify for group 3 is relayed as a group change. *)
Lemma xkb_notify_relay_witness :
  (0 <> 6 /\ 0 <> 2 /\ 6 <> 2) /\
  exists out,
    emitted (event_handle_xkb_notify 0 6 2 1 16 (XkbEvent 2 0 16 3)
               (LuaState [] [] []))
    = [] ++ out /\
    out = [Emit "xkb::group_changed" [LNumber 3]].
Proof.
  assert (H : 0 <> 6 /\ 0 <> 2 /\ 6 <> 2) by lia.
  split; [exact H|].
  destruct (xkb_notify_relay 0 6 2 1 16 H (XkbEvent 2 0 16 3) (LuaState [] [] []))
    as (out & Hout & _ & _ & _ & Hg & _).
  exists out. split; [exact Hout|].
  apply Hg. simpl. split; [reflexivity|discriminate].
Defined.

(** C9: when the state query has no reply, [get_layout] pushes nothing,
    logs nothing and returns 0 values; when it has one, the group is
    pushed as the single result.  When the names query or the atom-name
    query has no reply, [get_group_names] pushes nothing, logs one
    warning and returns 0 values; when both succeed, the text of the atom
    is pushed as the single result. *)
Theorem xkb_queries_degrade (srv : xserver) (L : lua_State) :
  (get_state_reply srv = None ->
   luaA_xkb_get_layout_group srv L = (L, 0)) /\
  (forall r, get_state_reply srv = Some r ->
   exists L', luaA_xkb_get_layout_group srv L = (L', 1) /\
     stack L' = LInteger (sr_group r) :: stack L /\
     warnings L' = warnings L) /\
  ((get_names_reply srv = None \/
    exists r, get_names_reply srv = Some r /\
              get_atom_name_reply srv (nr_symbolsName r) = None) ->
   exists L' msg, luaA_xkb_get_group_names srv L = (L', 0) /\
     stack L' = stack L /\ warnings L' = warnings L ++ [msg]) /\
  (forall r name, get_names_reply srv = Some r ->
   get_atom_name_reply srv (nr_symbolsName r) = Some name ->
   exists L', luaA_xkb_get_group_names srv L = (L', 1) /\
     stack L' = LString name :: stack L /\
     warnings L' = warnings L).
Proof.
  unfold luaA_xkb_get_layout_group, luaA_xkb_get_group_names.
  split; [|split; [|split]].
  - intros ->. reflexivity.
  - intros r ->. eexists. repeat split; reflexivity.
  - intros [-> | (r & -> & ->)]; eexists _, _; repeat split; reflexivity.
  - intros r name -> ->. eexists. repeat split; reflexivity.
Qed.

(** A server that answers no query, and one that answers all of them. *)
Lemma xkb_queries_degrade_witness :
  luaA_xkb_get_layout_group (XServer None None (fun _ => None)) (LuaState [] [] [])
  = (LuaState [] [] [], 0) /\
  (exists L', luaA_xkb_get_group_names (XServer None None (fun _ => None))
                (LuaState [] [] []) = (L', 0) /\ stack L' = []) /\
  exists L', luaA_xkb_get_group_names
               (XServer (Some {| sr_group := 1 |}) (Some {| nr_symbolsName := 7 |})
                        (fun _ => Some "pc+us"))
               (LuaState [] [] []) = (L', 1) /\
             stack L' = [LString "pc+us"].
Proof.
  split; [|split].
  - apply (xkb_queries_degrade (XServer None None (fun _ => None)) (LuaState [] [] [])).
    reflexivity.
  - destruct (xkb_queries_degrade (XServer None None (fun _ => None)) (LuaState [] [] []))
      as (_ & _ & H & _).
    destruct H as (L' & msg & HL & Hs & _); [left; reflexivity|].
    exists L'. split; [exact HL|exact Hs].
  - destruct (xkb_queries_degrade
                (XServer (Some {| sr_group := 1 |}) (Some {| nr_symbolsName := 7 |})
                         (fun _ => Some "pc+us")) (LuaState [] [] []))
      as (_ & _ & _ & H).
    destruct (H {| nr_symbolsName := 7 |} "pc+us" eq_refl eq_refl) as (L' & HL & Hs & _).
    exists L'. split; [exact HL|exact Hs].
Defined.

End XkbProofs.

(* ===================================================================== *)
(** * Facts about the notification popup manager *)
(* ===================================================================== *)

Module NaughtyProofs.
Import Naughty.

(** ** Inversion of outcomes, and the sums over a stack *)

Lemma bind_done {A B} (m : outcome A) (k : A -> outcome B) b :
  bind m k = Done b -> exists a, m = Done a /\ k a = Done b.
Proof. destruct m; simpl; intros H; try discriminate; eauto. Qed.

Lemma non_nil_done {A} (o : option A) a : non_nil o = Done a -> o = Some a.
Proof. destruct o; simpl; congruence. Qed.

Lemma sum_existing_total st l : forall acc,
  (forall r, r ∈ l -> is_Some (store st !! r)) ->
  sum_existing (store st) (spacing (cfg st)) l acc = Done (acc + total st l).
Proof.
  induction l as [|r l IH]; intros acc Hv; simpl.
  - f_equal; lia.
  - destruct (Hv r) as [n Hn]; [set_solver|].
    rewrite Hn. simpl. rewrite IH by (intros; apply Hv; set_solver).
    unfold weight. rewrite Hn. f_equal; lia.
Qed.

Lemma existing_height_total st l (j : nat) :
  (j <= length l)%nat ->
  (forall r, r ∈ l -> is_Some (store st !! r)) ->
  existing_height st l (Z.of_nat j + 1) = Done (total st (take j l)).
Proof.
  intros Hj Hv. unfold existing_height.
  replace (Z.to_nat (Z.of_nat j + 1 - 1)) with j by lia.
  destruct (decide (j <= length l)%nat); [|lia].
  rewrite sum_existing_total; [reflexivity|].
  intros r Hr. apply Hv. apply elem_of_take in Hr as (i & Hi & _).
  eapply list_elem_of_lookup_2; eauto.
Qed.

(* update lemmas *)
(** ** Updates of the store *)

Lemma store_update st r f : store (update st r f) = alter f r (store st).
Proof. reflexivity. Qed.

Lemma get_screen_update st r f s : get_screen (update st r f) s = get_screen st s.
Proof. destruct s; reflexivity. Qed.

Lemma get_list_update st r f s p : get_list (update st r f) s p = get_list st s p.
Proof. unfold get_list. rewrite get_screen_update. reflexivity. Qed.

Lemma lookup_update_eq st r f n :
  store st !! r = Some n -> store (update st r f) !! r = Some (f n).
Proof. intros H. rewrite store_update, list_lookup_alter_eq, H. reflexivity. Qed.

Lemma lookup_update_ne st r r' f :
  r <> r' -> store (update st r f) !! r' = store st !! r'.
Proof. intros H. rewrite store_update. apply list_lookup_alter_ne. exact H. Qed.

Lemma weight_update_place st r o r' : weight (update st r (place o)) r' = weight st r'.
Proof.
  unfold weight. destruct (decide (r = r')) as [->|Hne].
  - destruct (store st !! r') as [n|] eqn:E.
    + erewrite lookup_update_eq by eauto. reflexivity.
    + rewrite store_update, list_lookup_alter_eq, E. reflexivity.
  - rewrite lookup_update_ne by done. reflexivity.
Qed.

Lemma total_update_place st r o l : total (update st r (place o)) l = total st l.
Proof. induction l; simpl; [done|]. rewrite IHl, weight_update_place. done. Qed.



Lemma set_store_id st : set_store st (store st) = st.
Proof. destruct st; reflexivity. Qed.

(** ** One step of each function, and arranging when nothing is evicted *)

Section Calm.
Variable order : list position.

Lemma get_offset_inside fuel st s pos idx w h sc pad ex :
  get_screen st s = Some sc ->
  padding (cfg st) = Some pad ->
  existing_height st (plist (s_popups sc) pos) idx = Done ex ->
  outside (s_workarea sc) (offset_y (s_workarea sc) pos pad h ex) h = false ->
  get_offset order (S fuel) st s pos (Some idx) (Some w) h
  = Done (st, Offset (offset_x (s_workarea sc) pos pad w)
                     (offset_y (s_workarea sc) pos pad h ex) idx).
Proof.
  intros Hs Hp He Ho. cbn [get_offset]. rewrite Hs. cbn [non_nil bind default from_option id].
  rewrite Hp. cbn [non_nil bind]. rewrite He. cbn [bind]. rewrite Ho. reflexivity.
Qed.

Lemma destroy_nil fuel st reason :
  destroy order (S fuel) st None reason = Done (st, false).
Proof. reflexivity. Qed.

Lemma get_offset_outside fuel st s pos idx w h sc pad ex :
  get_screen st s = Some sc ->
  padding (cfg st) = Some pad ->
  existing_height st (plist (s_popups sc) pos) idx = Done ex ->
  outside (s_workarea sc) (offset_y (s_workarea sc) pos pad h ex) h = true ->
  get_offset order (S fuel) st s pos (Some idx) (Some w) h
  = bind (destroy order fuel st (lua_index (plist (s_popups sc) pos) 1) None)
      (fun d => get_offset order fuel (fst d) s pos (Some (idx - 1)) (Some w) h).
Proof.
  intros Hs Hp He Ho. cbn [get_offset]. rewrite Hs. cbn [non_nil bind default from_option id].
  rewrite Hp. cbn [non_nil bind]. rewrite He. cbn [bind]. rewrite Ho. reflexivity.
Qed.

Lemma existing_height_first st l idx :
  idx <= 1 -> existing_height st l idx = Done 0.
Proof.
  intros H. unfold existing_height. replace (Z.to_nat (idx - 1)) with 0%nat by lia.
  destruct (decide (0 <= length l)%nat); [reflexivity|lia].
Qed.

Lemma get_offset_diverges (h : Z) (wa : workarea) :
  ws_height wa < 4 + h ->
  forall fuel idx w, idx <= 1 ->
    get_offset order fuel (init [wa]) 1 top_right (Some idx) (Some w) h = OutOfFuel.
Proof.
  intros Hh. induction fuel as [|fuel IH]; intros idx w Hidx; [reflexivity|].
  erewrite get_offset_outside; [| reflexivity | reflexivity | apply existing_height_first, Hidx |].
  - destruct fuel as [|fuel]; [reflexivity|].
    cbn [s_popups plist no_popups lua_index]. simpl lua_index.
    rewrite destroy_nil. cbn [bind fst]. apply IH. lia.
  - unfold outside, offset_y. cbn. apply orb_true_intro. left. lia.
Qed.

Lemma arrange_items_S fuel st s p i :
  arrange_items order (S fuel) st s p i =
  bind (non_nil (get_list st s p)) (fun l =>
    match l !! i with
    | None => Done st
    | Some r =>
        bind (non_nil (store st !! r)) (fun n =>
        bind (get_offset order fuel st s p (Some (Z.of_nat i + 1))
                (Some (n_width n)) (n_height n)) (fun o =>
        arrange_items order fuel (update (fst o) r (place (snd o))) s p (S i)))
    end).
Proof. reflexivity. Qed.

Lemma arrange_items_calm s sc pad q (m : nat) :
  forall (st : state) (i : nat),
  get_screen st s = Some sc ->
  padding (cfg st) = Some pad ->
  let l := plist (s_popups sc) q in
  let ws := s_workarea sc in
  NoDup l ->
  (length l - i <= m)%nat ->
  (forall j r, l !! j = Some r -> fits_at st ws q pad l j r) ->
  exists h',
    (forall fuel, (m < fuel)%nat ->
       arrange_items order fuel st s q i = Done (set_store st h')) /\
    length h' = length (store st) /\
    (forall r, r ∉ drop i l -> h' !! r = store st !! r) /\
    (forall j r n, (i <= j)%nat -> l !! j = Some r -> store st !! r = Some n ->
       h' !! r = Some (place (slot st ws q pad l j n) n)).
Proof.
  induction m as [|m IH]; intros st i Hs Hp l ws Hnd Hm Hfit.
  - exists (store st). rewrite set_store_id. repeat split; try done.
    + intros fuel Hfuel. destruct fuel as [|fuel]; [lia|]. rewrite arrange_items_S.
      unfold get_list. rewrite Hs. cbn [non_nil bind]. fold l.
      rewrite (lookup_ge_None_2 l i) by lia. reflexivity.
    + intros j r n Hj Hl. apply lookup_lt_Some in Hl. lia.
  - destruct (l !! i) as [r|] eqn:Hli.
    2:{ exists (store st). rewrite set_store_id. repeat split; try done.
        - intros fuel Hfuel. destruct fuel as [|fuel]; [lia|]. rewrite arrange_items_S.
          unfold get_list. rewrite Hs. cbn [non_nil bind]. fold l. rewrite Hli. reflexivity.
        - intros j r n Hj Hl. apply lookup_ge_None in Hli. apply lookup_lt_Some in Hl. lia. }
    destruct (Hfit i r Hli) as (n & Hn & Hout).
    assert (Hvalid : forall r', r' ∈ l -> is_Some (store st !! r')).
    { intros r' Hr'. apply list_elem_of_lookup in Hr' as [j Hj].
      destruct (Hfit j r' Hj) as (n' & Hn' & _). eauto. }
    set (o := slot st ws q pad l i n).
    destruct (IH (update st r (place o)) (S i)) as (h' & Hrun & Hlen & Hother & Hplaced).
    + rewrite get_screen_update. exact Hs.
    + exact Hp.
    + exact Hnd.
    + fold l. lia.
    + intros j r' Hj. destruct (Hfit j r' Hj) as (n' & Hn' & Hout').
      destruct (decide (r = r')) as [<-|Hne].
      * exists (place o n'). rewrite (lookup_update_eq _ _ _ n') by congruence.
        split; [done|]. rewrite total_update_place. exact Hout'.
      * exists n'. rewrite lookup_update_ne by done. split; [done|].
        rewrite total_update_place. exact Hout'.
    + exists h'. split.
      { intros fuel Hfuel. destruct fuel as [|fuel]; [lia|]. rewrite arrange_items_S.
        unfold get_list. rewrite Hs. cbn [non_nil bind]. fold l. rewrite Hli.
        rewrite Hn. cbn [non_nil bind].
        destruct fuel as [|fuel]; [lia|].
        erewrite (get_offset_inside (fuel) st s q _ _ _ sc pad); eauto; cycle 1.
        { apply existing_height_total; [|exact Hvalid]. apply lookup_lt_Some in Hli. fold l. lia. }
        cbn [bind fst snd]. apply (Hrun (S fuel)). lia. }
      split.
      { rewrite Hlen, store_update, length_alter. reflexivity. }
      split.
      * intros r' Hr'. rewrite Hother.
        -- apply lookup_update_ne. intros <-. apply Hr'.
           rewrite (drop_S l r i Hli). set_solver.
        -- intros Hin. apply Hr'. rewrite (drop_S l r i Hli). set_solver.
      * intros j r' n' Hj Hl Hn'.
        destruct (decide (j = i)) as [->|Hji].
        -- assert (r' = r) as -> by congruence. assert (n' = n) as -> by congruence.
           rewrite Hother.
           ++ rewrite (lookup_update_eq _ _ _ n) by done. reflexivity.
           ++ intros Hin. apply list_elem_of_lookup in Hin as [k Hk].
              rewrite lookup_drop in Hk.
              pose proof (NoDup_lookup l _ _ _ Hnd Hli Hk). lia.
        -- assert (r <> r') as Hne.
           { intros <-. pose proof (NoDup_lookup l _ _ _ Hnd Hli Hl). lia. }
           rewrite (Hplaced j r' n'); [|lia|exact Hl|rewrite lookup_update_ne; done].
           unfold slot. rewrite total_update_place. reflexivity.
Qed.

Lemma weight_set_store_calm st h' (l : list ref) (f : ref -> notification -> offset) :
  (forall r, r ∉ l -> h' !! r = store st !! r) ->
  (forall r, r ∈ l -> exists n, store st !! r = Some n /\ h' !! r = Some (place (f r n) n)) ->
  forall r, weight (set_store st h') r = weight st r.
Proof.
  intros Hout Hin r. unfold weight. cbn [store set_store cfg].
  destruct (decide (r ∈ l)) as [Hr|Hr].
  - destruct (Hin r Hr) as (n & Hn & Hn'). rewrite Hn, Hn'. reflexivity.
  - rewrite (Hout r Hr). reflexivity.
Qed.

Lemma total_ext st st' l :
  (forall r, weight st' r = weight st r) -> total st' l = total st l.
Proof. intros H. induction l; simpl; [done|]. rewrite IHl, H. done. Qed.

Lemma arrange_S fuel st s :
  arrange order (S fuel) st s =
  bind (non_nil (get_screen st s)) (fun _ =>
    foldl (arrange_step order fuel s) (Done st) order).
Proof. reflexivity. Qed.

Lemma arrange_fold_calm s sc pad (ps : list position) :
  forall st,
  get_screen st s = Some sc ->
  padding (cfg st) = Some pad ->
  let ws := s_workarea sc in
  (forall q, NoDup (plist (s_popups sc) q)) ->
  (forall q j r, plist (s_popups sc) q !! j = Some r ->
     fits_at st ws q pad (plist (s_popups sc) q) j r) ->
  (forall q q' r, r ∈ plist (s_popups sc) q -> r ∈ plist (s_popups sc) q' -> q = q') ->
  NoDup ps ->
  exists h',
    (forall fuel, (forall q, (length (plist (s_popups sc) q) < fuel)%nat) ->
       foldl (arrange_step order fuel s) (Done st) ps = Done (set_store st h')) /\
    length h' = length (store st) /\
    (forall r, (forall q, q ∈ ps -> r ∉ plist (s_popups sc) q) -> h' !! r = store st !! r) /\
    (forall q j r n, q ∈ ps -> plist (s_popups sc) q !! j = Some r ->
       store st !! r = Some n ->
       h' !! r = Some (place (slot st ws q pad (plist (s_popups sc) q) j n) n)).
Proof.
  induction ps as [|q ps IH]; intros st Hs Hp ws Hnd Hfit Hdisj Hps.
  - exists (store st). cbn [foldl]. rewrite set_store_id.
    repeat split; try done. intros q j r n Hq. set_solver.
  - apply NoDup_cons in Hps as [Hq Hps].
    destruct (arrange_items_calm s sc pad q (length (plist (s_popups sc) q)) st 0 Hs Hp (Hnd q))
      as (h1 & Hrun & Hlen1 & Hother1 & Hplaced1); [lia|apply Hfit|].
    assert (Hw : forall r, weight (set_store st h1) r = weight st r).
    { apply (weight_set_store_calm st h1 (plist (s_popups sc) q)
               (fun r n => match list_find (fun x => x = r) (plist (s_popups sc) q) with
                           | Some (j, _) => slot st ws q pad (plist (s_popups sc) q) j n
                           | None => Offset 0 0 0 end)).
      - intros r Hr. apply Hother1. rewrite drop_0. exact Hr.
      - intros r Hr. apply list_elem_of_lookup in Hr as [j Hj].
        destruct (Hfit q j r Hj) as (n & Hn & _). exists n. split; [done|].
        rewrite (Hplaced1 j r n); [|lia|done|done].
        destruct (list_find _ _) as [[j' x]|] eqn:Hfind.
        + apply list_find_Some in Hfind as (Hj' & -> & _).
          pose proof (NoDup_lookup _ _ _ _ (Hnd q) Hj Hj'). subst j'. reflexivity.
        + apply list_find_None in Hfind. exfalso.
          rewrite Forall_forall in Hfind. apply (Hfind r); [|done].
          eapply list_elem_of_lookup_2; eauto. }
    destruct (IH (set_store st h1)) as (h' & Hrun' & Hlen' & Hother' & Hplaced'); try done.
    + intros q' j r Hj. destruct (Hfit q' j r Hj) as (n & Hn & Hout).
      destruct (decide (q' = q)) as [->|Hne].
      * exists (place (slot st ws q pad (plist (s_popups sc) q) j n) n).
        cbn [store set_store]. rewrite (Hplaced1 j r n); [|lia|done|done].
        split; [done|]. rewrite (total_ext st) by done. exact Hout.
      * exists n. cbn [store set_store]. rewrite Hother1.
        -- split; [done|]. rewrite (total_ext st) by done. exact Hout.
        -- rewrite drop_0. intros Hin. apply Hne. eapply Hdisj; [|exact Hin].
           eapply list_elem_of_lookup_2; eauto.
    + exists h'. split.
      { intros fuel Hfuel. cbn [foldl]. unfold arrange_step at 2. cbn [bind].
        rewrite (Hrun fuel (Hfuel q)). apply (Hrun' fuel Hfuel). }
      split; [cbn [store set_store] in Hlen'; lia|].
      split.
      * intros r Hr. rewrite Hother'.
        -- cbn [store set_store]. apply Hother1. rewrite drop_0. apply Hr. set_solver.
        -- intros q' Hq'. apply Hr. set_solver.
      * intros q' j r n Hq' Hj Hn.
        destruct (decide (q' = q)) as [->|Hne].
        -- rewrite Hother'.
           ++ cbn [store set_store]. apply Hplaced1; [lia|done|done].
           ++ intros q'' Hq'' Hin. assert (q'' = q); [|subst; contradiction].
              eapply Hdisj; [exact Hin|]. eapply list_elem_of_lookup_2; eauto.
        -- assert (Hq'ps : q' ∈ ps).
           { apply elem_of_cons in Hq' as [?|?]; [contradiction|done]. }
           assert (Hn1 : h1 !! r = Some n).
           { rewrite Hother1; [done|]. rewrite drop_0. intros Hin. apply Hne.
             eapply Hdisj; [|exact Hin]. eapply list_elem_of_lookup_2; eauto. }
           rewrite (Hplaced' q' j r n Hq'ps Hj Hn1).
           unfold slot. rewrite (total_ext st) by done. reflexivity.
Qed.

Lemma arrange_calm s sc pad st :
  get_screen st s = Some sc ->
  padding (cfg st) = Some pad ->
  let ws := s_workarea sc in
  (forall q, NoDup (plist (s_popups sc) q)) ->
  (forall q j r, plist (s_popups sc) q !! j = Some r ->
     fits_at st ws q pad (plist (s_popups sc) q) j r) ->
  (forall q q' r, r ∈ plist (s_popups sc) q -> r ∈ plist (s_popups sc) q' -> q = q') ->
  NoDup order ->
  exists h',
    (forall fuel, (forall q, (length (plist (s_popups sc) q) + 1 < fuel)%nat) ->
       arrange order fuel st s = Done (set_store st h')) /\
    length h' = length (store st) /\
    (forall r, (forall q, q ∈ order -> r ∉ plist (s_popups sc) q) -> h' !! r = store st !! r) /\
    (forall q j r n, q ∈ order -> plist (s_popups sc) q !! j = Some r ->
       store st !! r = Some n ->
       h' !! r = Some (place (slot st ws q pad (plist (s_popups sc) q) j n) n)).
Proof.
  intros Hs Hp ws Hnd Hfit Hdisj Hord.
  destruct (arrange_fold_calm s sc pad order st Hs Hp Hnd Hfit Hdisj Hord)
    as (h' & Hrun & Hrest).
  exists h'. split; [|exact Hrest].
  intros fuel Hlen.
  destruct fuel as [|fuel]; [specialize (Hlen top_left); lia|].
  rewrite arrange_S, Hs. cbn [non_nil bind].
  apply Hrun. intros q. specialize (Hlen q). lia.
Qed.

End Calm.

(** ** Settled screens *)

Lemma in_positions q : q ∈ positions.
Proof. destruct q; unfold positions; set_solver. Qed.

Lemma NoDup_positions : NoDup positions.
Proof. apply (bool_decide_unpack (NoDup positions)). vm_compute. exact I. Qed.

Lemma forallb_id_lookup (l : list bool) :
  forallb id l = true -> forall i b, l !! i = Some b -> b = true.
Proof.
  induction l as [|x l IH]; intros H i b Hi; [done|].
  simpl in H. apply andb_prop in H as [Hx Hl].
  destruct i; simpl in Hi; [congruence|eauto].
Qed.

Lemma settled_spec st s :
  settled st s = true ->
  exists sc pad,
    get_screen st s = Some sc /\ padding (cfg st) = Some pad /\
    forall q, NoDup (plist (s_popups sc) q) /\
      forall j r, plist (s_popups sc) q !! j = Some r ->
        exists n, store st !! r = Some n /\
          popup_facts st s (s_workarea sc) pad q (plist (s_popups sc) q) j n.
Proof.
  unfold settled. destruct (get_screen st s) as [sc|]; [|done].
  destruct (padding (cfg st)) as [pad|]; [|done].
  intros H. exists sc, pad. split; [done|]. split; [done|]. intros q.
  rewrite forallb_forall in H. specialize (H q).
  rewrite <- list_elem_of_In in H. specialize (H (in_positions q)).
  cbn zeta in H. apply andb_prop in H as [Hnd Hall]. split.
  - apply bool_decide_eq_true in Hnd. exact Hnd.
  - intros j r Hj.
    pose proof (forallb_id_lookup _ Hall j
      (popup_settled st s (s_workarea sc) pad q (plist (s_popups sc) q) j r)) as Hok.
    rewrite list_lookup_imap, Hj in Hok. specialize (Hok eq_refl).
    unfold popup_settled in Hok. destruct (store st !! r) as [n|]; [|done].
    exists n. split; [done|].
    repeat (apply andb_prop in Hok as [Hok ?]).
    repeat match goal with
           | H : bool_decide _ = true |- _ => apply bool_decide_eq_true in H
           | H : negb _ = true |- _ => apply negb_true_iff in H
           end.
    constructor; assumption.
Qed.


(** ** Lists, sums and the eviction test *)

Lemma plist_set_plist t p l q :
  plist (set_plist t p l) q = if decide (q = p) then l else plist t q.
Proof. destruct p, q; reflexivity. Qed.

Lemma store_set_list st s p l : store (set_list st s p l) = store st.
Proof. destruct s as [|s]; [done|]. simpl. destruct (screens st !! s); reflexivity. Qed.

Lemma cfg_set_list st s p l : cfg (set_list st s p l) = cfg st.
Proof. destruct s as [|s]; [done|]. simpl. destruct (screens st !! s); reflexivity. Qed.

Lemma get_screen_set_list st s p l sc :
  get_screen st s = Some sc ->
  get_screen (set_list st s p l) s
  = Some (Screen (s_workarea sc) (set_plist (s_popups sc) p l)).
Proof.
  destruct s as [|s]; [done|]. simpl. intros H. rewrite H. simpl.
  apply list_lookup_insert_eq. eapply lookup_lt_Some; eauto.
Qed.

Lemma get_screen_set_list_ne st s s' p l :
  s <> s' -> get_screen (set_list st s p l) s' = get_screen st s'.
Proof.
  intros Hne. destruct s as [|s]; [done|]. simpl.
  destruct (screens st !! s); [|done]. destruct s' as [|s']; [done|]. simpl.
  apply list_lookup_insert_ne. congruence.
Qed.

Lemma weight_update st r f r' :
  (forall n, n_height (f n) = n_height n) ->
  weight (update st r f) r' = weight st r'.
Proof.
  intros Hf. unfold weight. destruct (decide (r = r')) as [->|Hne].
  - rewrite store_update, list_lookup_alter_eq.
    destruct (store st !! r') as [n|]; simpl; [rewrite Hf|]; reflexivity.
  - rewrite lookup_update_ne by done. reflexivity.
Qed.

Lemma total_nonneg st l :
  (forall r, r ∈ l -> 0 <= weight st r) -> 0 <= total st l.
Proof.
  induction l as [|r l IH]; intros H; simpl; [lia|].
  pose proof (H r ltac:(set_solver)). pose proof (IH ltac:(intros; apply H; set_solver)). lia.
Qed.

Lemma total_take_delete_lt st l : forall i j,
  (j <= i)%nat -> total st (take j (delete i l)) = total st (take j l).
Proof.
  induction l as [|r l IH]; intros i j Hj; [by destruct i, j|].
  destruct j as [|j]; [by destruct i|]. destruct i as [|i]; [lia|].
  unfold total in *. simpl. rewrite IH by lia. reflexivity.
Qed.

Lemma total_take_delete_ge st l : forall i j r,
  l !! i = Some r -> (i <= j)%nat ->
  total st (take j (delete i l)) = total st (take (S j) l) - weight st r.
Proof.
  induction l as [|x l IH]; intros i j r Hi Hj; [done|].
  destruct i as [|i].
  - simpl in Hi. inversion Hi; subst x. simpl. lia.
  - destruct j as [|j]; [lia|]. simpl in Hi. unfold total in *. simpl.
    rewrite (IH i j r Hi) by lia. simpl. lia.
Qed.

Lemma outside_mono ws q pad h ex ex' :
  0 <= pad -> 0 <= ex' <= ex ->
  outside ws (offset_y ws q pad h ex) h = false ->
  outside ws (offset_y ws q pad h ex') h = false.
Proof.
  unfold outside, offset_y. intros Hp Hex H.
  apply orb_false_elim in H as [H1 H2]. apply orb_false_intro.
  - destruct (position_match q "top"); lia.
  - destruct (position_match q "top"); lia.
Qed.

Lemma outside_first_pad ws q pad h :
  outside ws (offset_y ws q pad h 0) h = false -> 0 <= pad.
Proof.
  unfold outside, offset_y. intros H. apply orb_false_elim in H as [H1 H2].
  destruct (position_match q "top"); lia.
Qed.


Lemma NoDup_valid_length (l : list ref) (N : nat) :
  NoDup l -> (forall r, r ∈ l -> (r < N)%nat) -> (length l <= N)%nat.
Proof.
  intros Hnd Hv.
  assert (Hsub : l ⊆ seq 0 N).
  { intros r Hr. apply elem_of_seq. specialize (Hv r Hr). lia. }
  pose proof (submseteq_length l (seq 0 N) (NoDup_submseteq l (seq 0 N) Hnd Hsub)) as H.
  rewrite length_seq in H. exact H.
Qed.

(** ** Destroying a popup of a settled screen *)

Section Destroy.
Variable order : list position.
Hypothesis order_nodup : NoDup order.
Hypothesis order_full : forall q, q ∈ order.

Lemma destroy_S fuel st r reason :
  destroy order (S fuel) st (Some r) reason =
  bind (non_nil (store st !! r)) (fun n =>
    if box_visible n then
      let st1 := if suspended st
                 then set_susp st (remove_first r (susp st))
                 else st in
      bind (non_nil (get_list st1 (n_screen n) (n_position n))) (fun l =>
        let st2 := set_list st1 (n_screen n) (n_position n)
                     (table_remove l (n_idx n)) in
        let st3 := update st2 r stop_timer in
        let st4 := update st3 r (with_visible false) in
        bind (arrange order fuel st4 (n_screen n)) (fun st5 =>
          bind (non_nil (store st5 !! r)) (fun n' =>
            Done (if n_destroy_cb n' && negb (bool_decide (reason = Some reason_silent))
                  then log_cb st5 r (default reason_undefined reason)
                  else st5, true))))
    else Done (st, false)).
Proof. reflexivity. Qed.

Lemma table_remove_at l (i : nat) :
  (i < length l)%nat -> table_remove l (Z.of_nat i + 1) = delete i l.
Proof.
  intros Hi. unfold table_remove.
  destruct (Z.leb_spec 1 (Z.of_nat i + 1)); [|lia].
  destruct (Z.leb_spec (Z.of_nat i + 1) (Z.of_nat (length l))); [|lia].
  simpl. f_equal. lia.
Qed.

Lemma destroy_calm st s p i r n reason sc pad :
  settled st s = true ->
  get_screen st s = Some sc -> padding (cfg st) = Some pad ->
  plist (s_popups sc) p !! i = Some r ->
  store st !! r = Some n -> box_visible n = true ->
  let l := plist (s_popups sc) p in
  let sc' := Screen (s_workarea sc) (set_plist (s_popups sc) p (delete i l)) in
  exists st',
    (forall fuel, (length (store st) + 3 <= fuel)%nat ->
       destroy order fuel st (Some r) reason = Done (st', true)) /\
    cfg st' = cfg st /\ counter st' = counter st /\ suspended st' = suspended st /\
    g_timeout st' = g_timeout st /\
    screens st' = <[pred s := sc']> (screens st) /\
    length (store st') = length (store st) /\
    store st' !! r = Some (with_visible false (stop_timer n)) /\
    (forall q j r' n', plist (s_popups sc') q !! j = Some r' ->
       store st !! r' = Some n' ->
       store st' !! r' = Some (place (slot st (s_workarea sc) q pad (plist (s_popups sc') q) j n') n')) /\
    (forall r', r' <> r -> (forall q, r' ∉ plist (s_popups sc) q) ->
       store st' !! r' = store st !! r') /\
    cb_log st' = cb_log st ++
      (if n_destroy_cb n && negb (bool_decide (reason = Some reason_silent))
       then [(r, default reason_undefined reason)] else []).
Proof.
  intros Hset Hs Hp Hi Hn Hvis l sc'.
  destruct (settled_spec st s Hset) as (sc0 & pad0 & Hs0 & Hp0 & Hall).
  assert (sc0 = sc) as -> by congruence. assert (pad0 = pad) as -> by congruence.
  clear Hs0 Hp0.
  destruct (Hall p) as [Hndp Hpop]. destruct (Hpop i r Hi) as (n0 & Hn0 & F).
  assert (n0 = n) as -> by congruence. clear Hn0.
  assert (Hs_ne : s <> 0%nat) by (intros ->; discriminate).
  set (sta := if suspended st then set_susp st (remove_first r (susp st)) else st).
  assert (Hsta : store sta = store st /\ screens sta = screens st /\ cfg sta = cfg st
                 /\ counter sta = counter st /\ suspended sta = suspended st
                 /\ g_timeout sta = g_timeout st /\ cb_log sta = cb_log st).
  { unfold sta. destruct (suspended st) eqn:E; repeat split; try reflexivity; simpl; congruence. }
  destruct Hsta as (Ha1 & Ha2 & Ha3 & Ha4 & Ha5 & Ha6 & Ha7).
  assert (Hsa : get_screen sta s = Some sc).
  { destruct s; [done|]. simpl. rewrite Ha2. exact Hs. }
  set (stb := set_list sta s p (delete i l)).
  set (std := update (update stb r stop_timer) r (with_visible false)).
  assert (Hsd : get_screen std s = Some sc').
  { unfold std. rewrite !get_screen_update. unfold stb. apply get_screen_set_list. exact Hsa. }
  assert (Hstore_b : store stb = store st).
  { unfold stb. rewrite store_set_list. exact Ha1. }
  assert (Hcfg_d : cfg std = cfg st).
  { unfold std, stb. cbn [cfg update set_store]. rewrite cfg_set_list. exact Ha3. }
  assert (Hstore_d_r : store std !! r = Some (with_visible false (stop_timer n))).
  { unfold std. erewrite lookup_update_eq; [reflexivity|].
    erewrite lookup_update_eq; [reflexivity|]. rewrite Hstore_b. exact Hn. }
  assert (Hstore_d_ne : forall r', r' <> r -> store std !! r' = store st !! r').
  { intros r' Hne. unfold std. rewrite !lookup_update_ne by done. rewrite Hstore_b. done. }
  assert (Hw : forall r', weight std r' = weight st r').
  { intros r'. unfold std. rewrite !weight_update by (intros; reflexivity).
    unfold weight. rewrite Hstore_b. unfold stb. rewrite cfg_set_list, Ha3. reflexivity. }
  assert (Hlists : forall q, plist (s_popups sc') q
                             = if decide (q = p) then delete i l else plist (s_popups sc) q).
  { intros q. unfold sc'. cbn [s_popups]. apply plist_set_plist. }
  assert (Hsub : forall q r', r' ∈ plist (s_popups sc') q -> r' ∈ plist (s_popups sc) q).
  { intros q r'. rewrite Hlists. destruct (decide (q = p)) as [->|]; [|done].
    intros H. apply (sublist_subseteq _ _ (sublist_delete l i)). exact H. }
  assert (Hhome : forall q r', r' ∈ plist (s_popups sc) q ->
                    exists n', store st !! r' = Some n' /\ n_position n' = q).
  { intros q r' Hr'. apply list_elem_of_lookup in Hr' as [j Hj].
    destruct (Hall q) as [_ Hq]. destruct (Hq j r' Hj) as (n' & Hn' & F').
    exists n'. split; [done|]. apply F'. }
  assert (Hdisj : forall q q' r', r' ∈ plist (s_popups sc) q ->
                    r' ∈ plist (s_popups sc) q' -> q = q').
  { intros q q' r' H1 H2. destruct (Hhome q r' H1) as (n1 & Hn1 & <-).
    destruct (Hhome q' r' H2) as (n2 & Hn2 & <-). congruence. }
  assert (Hr_gone : forall q, r ∉ plist (s_popups sc') q).
  { intros q Hin. rewrite Hlists in Hin. destruct (decide (q = p)) as [->|Hne].
    - apply list_elem_of_lookup in Hin as [j Hj].
      destruct (decide (j < i)%nat).
      + rewrite list_lookup_delete_lt in Hj by done.
        pose proof (NoDup_lookup l _ _ _ Hndp Hi Hj). lia.
      + rewrite list_lookup_delete_ge in Hj by lia.
        pose proof (NoDup_lookup l _ _ _ Hndp Hi Hj). lia.
    - apply Hne. eapply Hdisj; [exact Hin|]. eapply list_elem_of_lookup_2; eauto. }
  assert (Hpad : 0 <= pad).
  { destruct (l !! 0%nat) as [r0|] eqn:E0.
    - destruct (Hpop 0%nat r0 E0) as (n0 & Hn0 & F0).
      eapply outside_first_pad. exact (pf_inside _ _ _ _ _ _ _ _ F0).
    - apply lookup_ge_None in E0. apply lookup_lt_Some in Hi. fold l in Hi. lia. }
  assert (Hwpos : forall q r', r' ∈ plist (s_popups sc) q -> 0 <= weight st r').
  { intros q r' Hr'. apply list_elem_of_lookup in Hr' as [j Hj].
    destruct (Hall q) as [_ Hq]. destruct (Hq j r' Hj) as (n' & Hn' & F').
    unfold weight. rewrite Hn'. apply F'. }
  destruct (arrange_calm order s sc' pad std Hsd) as (h' & Hrun & Hlen & Hother & Hplaced).
  - rewrite Hcfg_d. exact Hp.
  - intros q. rewrite Hlists. destruct (decide (q = p)) as [->|].
    + exact (sublist_NoDup _ _ Hndp (sublist_delete l i)).
    + apply Hall.
  - intros q j r' Hj.
    assert (Hne : r' <> r).
    { intros ->. apply (Hr_gone q). eapply list_elem_of_lookup_2; eauto. }
    unfold fits_at. rewrite (Hstore_d_ne r' Hne), (total_ext st std) by done.
    cbn [s_workarea sc'].
    rewrite Hlists in Hj |- *. destruct (decide (q = p)) as [->|Hqp].
    + destruct (decide (j < i)%nat) as [Hlt|Hge].
      * rewrite list_lookup_delete_lt in Hj by done.
        destruct (Hpop j r' Hj) as (n' & Hn' & F'). exists n'. split; [done|].
        rewrite total_take_delete_lt by lia. apply F'.
      * rewrite list_lookup_delete_ge in Hj by lia.
        destruct (Hpop (S j) r' Hj) as (n' & Hn' & F'). exists n'. split; [done|].
        rewrite (total_take_delete_ge st l i j r Hi) by lia.
        eapply outside_mono; [exact Hpad| |apply F'].
        fold l.
        assert (0 <= weight st r) by (apply (Hwpos p); eapply list_elem_of_lookup_2; eauto).
        assert (0 <= total st (take j (delete i l))).
        { apply total_nonneg. intros x Hx. apply (Hwpos p).
          apply elem_of_take in Hx as (k & Hk & _).
          apply (sublist_subseteq _ _ (sublist_delete l i)).
          eapply list_elem_of_lookup_2; eauto. }
        rewrite (total_take_delete_ge st l i j r Hi) in * by lia. lia.
    + destruct (Hall q) as [_ Hq]. destruct (Hq j r' Hj) as (n' & Hn' & F').
      exists n'. split; [done|]. apply F'.
  - intros q q' r' H1 H2. eapply Hdisj; eapply Hsub; eauto.
  - exact order_nodup.
  - assert (Hh'r : h' !! r = Some (with_visible false (stop_timer n))).
    { rewrite Hother; [exact Hstore_d_r|]. intros q _. apply Hr_gone. }
    set (st5 := set_store std h').
    exists (if n_destroy_cb n && negb (bool_decide (reason = Some reason_silent))
            then log_cb st5 r (default reason_undefined reason) else st5).
    split.
    { intros fuel Hfuel. destruct fuel as [|fuel]; [lia|].
      rewrite destroy_S, Hn. cbn [non_nil bind]. rewrite Hvis. cbn zeta. fold sta.
      rewrite (pf_screen _ _ _ _ _ _ _ _ F), (pf_position _ _ _ _ _ _ _ _ F),
              (pf_idx _ _ _ _ _ _ _ _ F).
      unfold get_list. rewrite Hsa. cbn [non_nil bind]. fold l.
      rewrite (table_remove_at l i) by (eapply lookup_lt_Some; eauto).
      fold stb. fold std.
      rewrite Hrun.
      - cbn [bind store set_store]. rewrite Hh'r. cbn [non_nil bind].
        reflexivity.
      - intros q.
        assert (length (plist (s_popups sc') q) <= length (store st))%nat; [|lia].
        apply NoDup_valid_length.
        + rewrite Hlists. destruct (decide (q = p)) as [->|].
          * exact (sublist_NoDup _ _ Hndp (sublist_delete l i)).
          * apply Hall.
        + intros x Hx. apply Hsub in Hx. destruct (Hhome q x Hx) as (nx & Hnx & _).
          eapply lookup_lt_Some; eauto. }
    assert (Hst5 : cfg st5 = cfg st /\ counter st5 = counter st /\ suspended st5 = suspended st
                   /\ g_timeout st5 = g_timeout st
                   /\ screens st5 = <[pred s := sc']> (screens st)
                   /\ cb_log st5 = cb_log st).
    { unfold st5, std, stb. cbn [cfg counter suspended g_timeout screens cb_log set_store update].
      destruct s as [|s]; [done|]. simpl in Hsa. cbn [set_list]. rewrite Hsa.
      cbn [cfg counter suspended g_timeout screens cb_log set_screens pred].
      rewrite Ha2, Ha3, Ha4, Ha5, Ha6, Ha7. repeat split; reflexivity. }
    destruct Hst5 as (H1 & H2 & H3 & H4 & H5 & H6).
    destruct (n_destroy_cb n && negb (bool_decide (reason = Some reason_silent)));
      cbn [cfg counter suspended g_timeout screens cb_log store log_cb];
      rewrite ?H1, ?H2, ?H3, ?H4, ?H5, ?H6, ?app_nil_r;
      (repeat split; try reflexivity;
       [ unfold st5; cbn [store set_store]; rewrite Hlen; unfold std;
         rewrite !store_update, !length_alter, Hstore_b; reflexivity
       | exact Hh'r
       | intros q j r' n' Hj Hn'; unfold st5; cbn [store set_store];
         assert (Hne : r' <> r) by (intros ->; apply (Hr_gone q); eapply list_elem_of_lookup_2; eauto);
         rewrite (Hplaced q j r' n' (order_full q) Hj) by (rewrite Hstore_d_ne; done);
         unfold slot; rewrite (total_ext st std) by done; reflexivity
       | intros r' Hne Hnot; unfold st5; cbn [store set_store];
         rewrite Hother; [apply Hstore_d_ne, Hne|];
         intros q _ Hin; apply (Hnot q), Hsub, Hin ]).
Qed.

End Destroy.

Lemma visits_each_once_spec order :
  visits_each_once order = true -> NoDup order /\ forall q, q ∈ order.
Proof.
  unfold visits_each_once. intros H. apply andb_prop in H as [H1 H2].
  apply bool_decide_eq_true in H1. split; [exact H1|].
  intros q. rewrite forallb_forall in H2. specialize (H2 q).
  rewrite <- list_elem_of_In in H2. specialize (H2 (in_positions q)).
  apply bool_decide_eq_true in H2. exact H2.
Qed.

Lemma offset_distance ws q pad h ex :
  (if position_match q "top"
   then offset_y ws q pad h ex - ws_y ws
   else ws_y ws + ws_height ws - (offset_y ws q pad h ex + h)) = pad + ex.
Proof. unfold offset_y. destruct (position_match q "top"); lia. Qed.

(** X18: on a settled screen, destroying the visible notification at
    index [i] of a list returns [true], removes exactly that entry and
    leaves the other lists alone; every former sibling is displayed
    again, those below [i] where they were, those above [i] with their
    displayed offset reduced by exactly the height of the destroyed
    notification plus the spacing (so their y moves up by that amount in
    the [top_*] stacks and down by it in the [bottom_*] stacks). *)
Theorem destroy_shifts_siblings (order : list position) (st : state)
    (s : nat) (p : position) (l : list ref) (i : nat) (r : ref)
    (n : notification) (reason : option Z) :
  visits_each_once order = true ->
  settled st s = true ->
  get_list st s p = Some l ->
  l !! i = Some r ->
  store st !! r = Some n ->
  box_visible n = true ->
  exists st',
    (forall fuel, (length (store st) + 3 <= fuel)%nat ->
       destroy order fuel st (Some r) reason = Done (st', true)) /\
    get_list st' s p = Some (delete i l) /\
    (forall q, q <> p -> get_list st' s q = get_list st s q) /\
    forall (j : nat) (r' : ref), l !! j = Some r' -> j <> i ->
      exists d d' y y',
        displayed_offset st r' = Some d /\ displayed_offset st' r' = Some d' /\
        displayed_y st r' = Some y /\ displayed_y st' r' = Some y' /\
        ((j < i)%nat -> d' = d /\ y' = y) /\
        ((i < j)%nat ->
           d' = d - (n_height n + spacing (cfg st)) /\
           y' = if position_match p "top"
                then y - (n_height n + spacing (cfg st))
                else y + (n_height n + spacing (cfg st))).
Proof.
  intros Hord Hset Hl Hi Hn Hvis.
  apply visits_each_once_spec in Hord as [Hnd Hfull].
  destruct (settled_spec st s Hset) as (sc & pad & Hs & Hp & Hall).
  unfold get_list in Hl. rewrite Hs in Hl. inversion Hl as [Hl']. clear Hl.
  rewrite <- Hl' in Hi.
  destruct (destroy_calm order Hnd Hfull st s p i r n reason sc pad Hset Hs Hp Hi Hn Hvis)
    as (st' & Hrun & Hcfg & _ & _ & _ & Hscr & Hlen & Hr & Hplaced & _ & _).
  rewrite Hl' in *.
  assert (Hs_ne : s <> 0%nat) by (intros ->; discriminate).
  set (sc' := Screen (s_workarea sc) (set_plist (s_popups sc) p (delete i l))) in *.
  assert (Hs' : get_screen st' s = Some sc').
  { destruct s as [|s]; [done|]. simpl in *. rewrite Hscr.
    apply list_lookup_insert_eq. eapply lookup_lt_Some; eauto. }
  exists st'. split; [exact Hrun|]. split.
  { unfold get_list. rewrite Hs'. unfold sc'. cbn [s_popups].
    rewrite plist_set_plist. destruct (decide (p = p)); [reflexivity|done]. }
  split.
  { intros q Hq. unfold get_list. rewrite Hs', Hs. unfold sc'. cbn [s_popups].
    rewrite plist_set_plist. destruct (decide (q = p)); [done|reflexivity]. }
  intros j r' Hj Hji.
  destruct (Hall p) as [Hndp Hpop]. rewrite Hl' in Hpop, Hndp.
  destruct (Hpop j r' Hj) as (n' & Hn' & F).
  destruct (Hpop i r Hi) as (n0 & Hn0 & F0). assert (n0 = n) as -> by congruence.
  set (j' := if decide (j < i)%nat then j else pred j).
  assert (Hj' : plist (s_popups sc') p !! j' = Some r').
  { unfold sc'. cbn [s_popups]. rewrite plist_set_plist.
    destruct (decide (p = p)); [|done]. unfold j'.
    destruct (decide (j < i)%nat).
    - rewrite list_lookup_delete_lt by done. exact Hj.
    - rewrite list_lookup_delete_ge by lia. replace (S (pred j)) with j by lia. exact Hj. }
  pose proof (Hplaced p j' r' n' Hj' Hn') as Hn''.
  assert (Hlp : plist (s_popups sc') p = delete i l).
  { unfold sc'. cbn [s_popups]. rewrite plist_set_plist.
    destruct (decide (p = p)); [reflexivity|done]. }
  rewrite Hlp in Hn''.
  set (ex := total st (take j l)).
  set (ex' := total st (take j' (delete i l))).
  exists (pad + ex), (pad + ex'), (offset_y (s_workarea sc) p pad (n_height n') ex),
         (offset_y (s_workarea sc) p pad (n_height n') ex').
  assert (Hw : weight st r = n_height n + spacing (cfg st)).
  { unfold weight. rewrite Hn. reflexivity. }
  split.
  { unfold displayed_offset. rewrite Hn', (pf_screen _ _ _ _ _ _ _ _ F), Hs.
    rewrite (pf_position _ _ _ _ _ _ _ _ F), (pf_shown _ _ _ _ _ _ _ _ F).
    f_equal. apply offset_distance. }
  split.
  { unfold displayed_offset. rewrite Hn''. cbn [place n_screen n_position box_y n_height slot o_y].
    rewrite (pf_screen _ _ _ _ _ _ _ _ F), Hs'. cbn [sc' s_workarea].
    rewrite (pf_position _ _ _ _ _ _ _ _ F). f_equal. apply offset_distance. }
  split.
  { unfold displayed_y. rewrite Hn'. simpl. f_equal. apply F. }
  split.
  { unfold displayed_y. rewrite Hn''. reflexivity. }
  split.
  - intros Hlt. unfold ex', j'. destruct (decide (j < i)%nat); [|lia].
    rewrite total_take_delete_lt by lia. fold ex. done.
  - intros Hgt. unfold ex', j'. destruct (decide (j < i)%nat); [lia|].
    rewrite (total_take_delete_ge st l i (pred j) r Hi) by lia.
    replace (S (pred j)) with j by lia. fold ex. rewrite Hw. split; [lia|].
    unfold offset_y. destruct (position_match p "top"); lia.
Qed.

(** Destroying the first popup of the bottom-left stack of the sample
    state brings its sibling 33 units nearer to the bottom edge. *)
Lemma destroy_shifts_siblings_witness :
  exists st',
    destroy positions 7 sample_state (Some 2%nat) None = Done (st', true) /\
    get_list st' 1 bottom_left = Some [3%nat] /\
    displayed_offset sample_state 3 = Some 37 /\
    displayed_offset st' 3 = Some 4 /\
    displayed_y sample_state 3 = Some 131 /\
    displayed_y st' 3 = Some 164.
Proof.
  destruct (destroy_shifts_siblings positions sample_state 1 bottom_left [2; 3]%nat 0 2
              (Notification 1 true 5 4 bottom_left (Some (Timer 5 true)) 32 62 1
                 true 4 164 60 30) None)
    as (st' & Hrun & Hl & _ & Hsib); try reflexivity.
  destruct (Hsib 1%nat 3%nat eq_refl) as (d & d' & y & y' & Hd & Hd' & Hy & Hy' & _ & Hgt);
    [lia|].
  destruct Hgt as [E1 E2]; [lia|].
  vm_compute in Hd. inversion Hd; subst d. vm_compute in Hy. inversion Hy; subst y.
  exists st'. split; [apply Hrun; vm_compute; lia|]. split; [exact Hl|].
  split; [reflexivity|]. split; [rewrite Hd', E1; reflexivity|].
  split; [reflexivity|]. rewrite Hy', E2. reflexivity.
Defined.

(** C5: [naughty.destroy] removes the entry at the index that the
    notification records in its [idx] field, and that need not be the
    index the list holds it at.  Make three popups at [top_right] of a
    work area of height 100 while notifications are suspended: the third
    does not fit, [get_offset] asks [naughty.destroy] to evict the
    oldest, which is hidden and so stays, and lowers the index to 2.
    After [naughty.resume] the three popups are visible, listed as
    [0; 1; 2], and the third records index 2.  Destroying the third (the
    visible notification at list index 3) returns [true] and hides it,
    but removes the second entry: the destroyed notification is still
    listed and [naughty.getById] still finds it, while the second popup
    is still visible and no longer listed. *)
Theorem destroy_removes_entry_at_recorded_idx :
  (exists st3,
     notify positions 3 crowded_suspended sample_args = Done (st3, Some 2%nat) /\
     stale_state = resume st3) /\
  get_list stale_state 1 top_right = Some [0; 1; 2]%nat /\
  shown stale_state 0 = true /\ shown stale_state 1 = true /\
  shown stale_state 2 = true /\
  (n_idx <$> store stale_state !! 2%nat) = Some 2 /\
  getById positions stale_state 4 = Some 2%nat /\
  exists st',
    destroy positions 7 stale_state (Some 2%nat) None = Done (st', true) /\
    get_list st' 1 top_right = Some [0; 2]%nat /\
    shown st' 2 = false /\ shown st' 1 = true /\
    getById positions st' 4 = Some 2%nat /\
    getById positions st' 3 = None.
Proof.
  split.
  { eexists. split; [vm_compute; reflexivity|]. vm_compute. reflexivity. }
  split; [vm_compute; reflexivity|].
  split; [vm_compute; reflexivity|]. split; [vm_compute; reflexivity|].
  split; [vm_compute; reflexivity|]. split; [vm_compute; reflexivity|].
  split; [vm_compute; reflexivity|].
  eexists. split; [vm_compute; reflexivity|].
  split; [vm_compute; reflexivity|]. split; [vm_compute; reflexivity|].
  split; [vm_compute; reflexivity|]. split; vm_compute; reflexivity.
Qed.

(** ** What every call preserves *)

Lemma same_static_refl n : same_static n n.
Proof. constructor; auto. Qed.

Lemma same_static_trans n1 n2 n3 :
  same_static n1 n2 -> same_static n2 n3 -> same_static n1 n3.
Proof.
  intros [] []. constructor; try congruence. auto.
Qed.

Lemma frame_refl st : frame st st.
Proof.
  constructor; [reflexivity..| | |].
  - intros s p l H. exists l. split; [done|reflexivity].
  - intros r n H. exists n. split; [done|apply same_static_refl].
  - exists []. rewrite app_nil_r. split; [done|]. intros e He. set_solver.
Qed.

Lemma frame_trans st1 st2 st3 : frame st1 st2 -> frame st2 st3 -> frame st1 st3.
Proof.
  intros A B. constructor.
  - rewrite (fr_cfg _ _ B). apply A.
  - rewrite (fr_counter _ _ B). apply A.
  - rewrite (fr_suspended _ _ B). apply A.
  - rewrite (fr_g_timeout _ _ B). apply A.
  - rewrite (fr_length _ _ B). apply A.
  - intros s. rewrite (fr_workarea _ _ B). apply A.
  - intros s p l H. destruct (fr_lists _ _ A s p l H) as (l2 & H2 & S2).
    destruct (fr_lists _ _ B s p l2 H2) as (l3 & H3 & S3).
    exists l3. split; [done|]. etransitivity; eauto.
  - intros r n H. destruct (fr_store _ _ A r n H) as (n2 & H2 & S2).
    destruct (fr_store _ _ B r n2 H2) as (n3 & H3 & S3).
    exists n3. split; [done|]. eapply same_static_trans; eauto.
  - destruct (fr_log _ _ A) as (a1 & E1 & V1). destruct (fr_log _ _ B) as (a2 & E2 & V2).
    exists (a1 ++ a2). rewrite E2, E1, app_assoc. split; [done|].
    intros e He. apply elem_of_app in He as [He|He]; [auto|].
    destruct (V2 e He) as (n2 & Hn2 & Hv2).
    assert (Hlt : (e.1 < length (store st1))%nat).
    { rewrite <- (fr_length _ _ A). eapply lookup_lt_Some; eauto. }
    apply lookup_lt_is_Some in Hlt as [n1 Hn1].
    destruct (fr_store _ _ A _ _ Hn1) as (n2' & Hn2' & S).
    assert (n2' = n2) as -> by congruence.
    exists n1. split; [done|]. destruct (box_visible n1) eqn:E; [done|].
    rewrite (ss_hidden _ _ S E) in Hv2. done.
Qed.

Lemma frame_set_susp st l : frame st (set_susp st l).
Proof.
  constructor; [reflexivity..| | | |].
  - intros s. destruct s; reflexivity.
  - intros s p l0 H. exists l0. split; [|reflexivity]. destruct s; exact H.
  - intros r n H. exists n. split; [done|apply same_static_refl].
  - exists []. rewrite app_nil_r. split; [done|]. intros e He. set_solver.
Qed.

Lemma get_list_set_list st s p l l0 q s' :
  get_list st s p = Some l0 ->
  get_list (set_list st s p l) s' q
  = if decide (s' = s /\ q = p) then Some l else get_list st s' q.
Proof.
  unfold get_list. intros H.
  destruct (get_screen st s) as [sc|] eqn:Hs; [|done].
  destruct (decide (s' = s)) as [->|Hne].
  - rewrite (get_screen_set_list _ _ _ _ _ Hs), Hs. cbn [s_popups].
    rewrite plist_set_plist.
    destruct (decide (q = p)) as [->|]; destruct (decide _) as [[_ ?]|Hn]; try done.
    exfalso. apply Hn. done.
  - rewrite get_screen_set_list_ne by done.
    destruct (decide _) as [[? _]|]; [done|reflexivity].
Qed.

Lemma frame_set_list st s p l l' :
  get_list st s p = Some l -> l' `sublist_of` l -> frame st (set_list st s p l').
Proof.
  intros Hl Hsub. constructor.
  - apply cfg_set_list.
  - destruct s as [|s]; [done|]. simpl. destruct (screens st !! s); reflexivity.
  - destruct s as [|s]; [done|]. simpl. destruct (screens st !! s); reflexivity.
  - destruct s as [|s]; [done|]. simpl. destruct (screens st !! s); reflexivity.
  - rewrite store_set_list. reflexivity.
  - intros s'. unfold get_list in Hl.
    destruct (get_screen st s) as [sc|] eqn:Hs; [|done].
    destruct (decide (s' = s)) as [->|Hne].
    + rewrite (get_screen_set_list _ _ _ _ _ Hs), Hs. reflexivity.
    + rewrite get_screen_set_list_ne by done. reflexivity.
  - intros s' q l0 H0. rewrite (get_list_set_list _ _ _ _ _ _ _ Hl).
    destruct (decide _) as [[-> ->]|].
    + exists l'. split; [done|]. congruence.
    + exists l0. split; [done|reflexivity].
  - intros r n H. exists n. rewrite store_set_list. split; [done|apply same_static_refl].
  - exists []. rewrite app_nil_r. split.
    + destruct s as [|s]; [done|]. simpl. destruct (screens st !! s); reflexivity.
    + intros e He. set_solver.
Qed.

Lemma frame_update st r f :
  (forall n, same_static n (f n)) -> frame st (update st r f).
Proof.
  intros Hf. constructor; [reflexivity..| | | | |].
  - rewrite store_update, length_alter. reflexivity.
  - intros s. rewrite get_screen_update. reflexivity.
  - intros s p l H. exists l. rewrite get_list_update. split; [done|reflexivity].
  - intros r' n H. destruct (decide (r = r')) as [->|Hne].
    + exists (f n). rewrite (lookup_update_eq _ _ _ n H). split; [done|apply Hf].
    + exists n. rewrite lookup_update_ne by done. split; [done|apply same_static_refl].
  - exists []. rewrite app_nil_r. split; [done|]. intros e He. set_solver.
Qed.

Lemma frame_log st st' r n z :
  frame st st' -> store st !! r = Some n -> box_visible n = true ->
  frame st (log_cb st' r z).
Proof.
  intros A Hn Hv. constructor; try apply A.
  destruct (fr_log _ _ A) as (a1 & E1 & V1).
  - exists (a1 ++ [(r, z)]). cbn [cb_log log_cb]. rewrite E1, app_assoc. split; [done|].
    intros e He. apply elem_of_app in He as [He|He]; [auto|].
    apply list_elem_of_singleton in He as ->. exists n. done.
Qed.

Lemma same_static_place o n : same_static n (place o n).
Proof. constructor; auto. Qed.
Lemma same_static_stop_timer n : same_static n (stop_timer n).
Proof. constructor; auto. Qed.
Lemma same_static_hide n : same_static n (with_visible false n).
Proof. constructor; auto. Qed.

Lemma table_remove_sublist l pos : table_remove l pos `sublist_of` l.
Proof.
  unfold table_remove. destruct (_ && _); [apply sublist_delete|reflexivity].
Qed.


Ltac inv_bind H :=
  repeat (let x := fresh "x" in
          let Hx := fresh "Hx" in
          apply bind_done in H as (x & Hx & H); cbn beta zeta in H).

Section Frame.
Variable order : list position.

Lemma get_offset_S fuel st s pos idx width height :
  get_offset order (S fuel) st s pos idx width height =
  bind (non_nil (get_screen st s)) (fun sc =>
    let ws := s_workarea sc in
    let l := plist (s_popups sc) pos in
    let idx := default (Z.of_nat (length l) + 1) idx in
    bind (match width with
          | Some w => Done w
          | None =>
              bind (non_nil (lua_index l idx)) (fun r =>
              bind (non_nil (store st !! r)) (fun n => Done (n_width n)))
          end) (fun width =>
    bind (non_nil (padding (cfg st))) (fun pad =>
    bind (existing_height st l idx) (fun existing =>
      if outside ws (offset_y ws pos pad height existing) height then
        bind (destroy order fuel st (lua_index l 1) None) (fun d =>
          get_offset order fuel (fst d) s pos (Some (idx - 1)) (Some width) height)
      else Done (st, Offset (offset_x ws pos pad width)
                            (offset_y ws pos pad height existing) idx))))).
Proof. reflexivity. Qed.

Lemma arrange_fold_frame fuel s (ps : list position) :
  (forall st p i st', arrange_items order fuel st s p i = Done st' -> frame st st') ->
  forall acc st', foldl (arrange_step order fuel s) acc ps = Done st' ->
  exists st0, acc = Done st0 /\ frame st0 st'.
Proof.
  intros IH. induction ps as [|q ps IHps]; intros acc st' H; cbn [foldl] in H.
  - exists st'. split; [done|apply frame_refl].
  - destruct (IHps _ _ H) as (st1 & H1 & F1).
    unfold arrange_step in H1. apply bind_done in H1 as (st0 & -> & H1).
    exists st0. split; [done|]. eapply frame_trans; [|exact F1]. eapply IH; eauto.
Qed.

Lemma frame_all (fuel : nat) :
  (forall st s pos idx w h st' o,
     get_offset order fuel st s pos idx w h = Done (st', o) -> frame st st') /\
  (forall st s p i st',
     arrange_items order fuel st s p i = Done st' -> frame st st') /\
  (forall st s st', arrange order fuel st s = Done st' -> frame st st') /\
  (forall st r reason st' b,
     destroy order fuel st r reason = Done (st', b) -> frame st st').
Proof.
  induction fuel as [|fuel (IHo & IHi & IHa & IHd)].
  { split; [|split; [|split]]; intros; discriminate. }
  assert (Hi : forall st s p i st',
             arrange_items order (S fuel) st s p i = Done st' -> frame st st').
  { intros st s p i st' H. rewrite arrange_items_S in H.
    apply bind_done in H as (l & Hl & H).
    destruct (l !! i) as [r|]; [|inversion H; apply frame_refl].
    inv_bind H. destruct x0 as [st1 o]. cbn [fst snd] in H.
    eapply frame_trans; [eapply IHo; eauto|].
    eapply frame_trans; [|eapply IHi; eauto].
    apply frame_update. intros n. apply same_static_place. }
  assert (Ha : forall st s st', arrange order (S fuel) st s = Done st' -> frame st st').
  { intros st s st' H. rewrite arrange_S in H. apply bind_done in H as (sc & _ & H).
    destruct (arrange_fold_frame fuel s order (fun st0 => IHi st0 s) _ _ H) as (st0 & E & F).
    inversion E; subst. exact F. }
  split; [|split; [exact Hi|split; [exact Ha|]]].
  - intros st s pos idx w h st' o H. rewrite get_offset_S in H.
    inv_bind H. destruct (outside _ _ _).
    + apply bind_done in H as ([st1 b] & Hd & H). cbn [fst] in H.
      eapply frame_trans; [eapply IHd; eauto|eapply IHo; eauto].
    + inversion H; subst. apply frame_refl.
  - intros st r reason st' b H. destruct r as [r|]; [|inversion H; apply frame_refl].
    rewrite destroy_S in H. apply bind_done in H as (n & Hn & H).
    apply non_nil_done in Hn.
    destruct (box_visible n) eqn:Hv; [|inversion H; apply frame_refl].
    cbn zeta in H. apply bind_done in H as (l & Hl & H). apply non_nil_done in Hl.
    apply bind_done in H as (st5 & H5 & H). apply bind_done in H as (n' & Hn' & H).
    inversion H; subst; clear H.
    set (sta := if suspended st then set_susp st (remove_first r (susp st)) else st) in *.
    assert (Fa : frame st sta).
    { unfold sta. destruct (suspended st); [apply frame_set_susp|apply frame_refl]. }
    assert (F5 : frame st st5).
    { eapply frame_trans; [exact Fa|].
      eapply frame_trans; [eapply frame_set_list; [exact Hl|apply table_remove_sublist]|].
      eapply frame_trans; [apply frame_update; intros; apply same_static_stop_timer|].
      eapply frame_trans; [apply frame_update; intros; apply same_static_hide|].
      eapply IHa; eauto. }
    destruct (_ && _); [|exact F5].
    eapply frame_log; eauto.
Qed.

End Frame.

(** ** What [notify] does *)

Lemma set_list_fields st s p l :
  counter (set_list st s p l) = counter st /\
  suspended (set_list st s p l) = suspended st /\
  g_timeout (set_list st s p l) = g_timeout st /\
  cb_log (set_list st s p l) = cb_log st /\
  susp (set_list st s p l) = susp st.
Proof. destruct s as [|k]; [done|]. simpl. destruct (screens st !! k); done. Qed.

Lemma workarea_set_list st s p l s' :
  s_workarea <$> get_screen (set_list st s p l) s' = s_workarea <$> get_screen st s'.
Proof.
  destruct (get_screen st s) as [sc|] eqn:Hs.
  - destruct (decide (s' = s)) as [->|Hne].
    + rewrite (get_screen_set_list _ _ _ _ _ Hs), Hs. reflexivity.
    + rewrite get_screen_set_list_ne by done. reflexivity.
  - destruct s as [|k]; [done|]. simpl in *. rewrite Hs. reflexivity.
Qed.

Section Notify.
Variable order : list position.

Lemma find_id_Some h id l r :
  find_id h id l = Some r -> r ∈ l /\ exists n, h !! r = Some n /\ n_id n = id.
Proof.
  induction l as [|x l IH]; simpl; [done|].
  destruct (h !! x) as [n|] eqn:Hx.
  - destruct (Z.eqb_spec (n_id n) id) as [E|E].
    + intros [= <-]. split; [set_solver|eauto].
    + intros H. destruct (IH H) as [? ?]. split; [set_solver|done].
  - intros H. destruct (IH H) as [? ?]. split; [set_solver|done].
Qed.

Lemma find_id_positions_Some h id t ps r :
  find_id_positions h id t ps = Some r ->
  exists p, p ∈ ps /\ r ∈ plist t p /\ exists n, h !! r = Some n /\ n_id n = id.
Proof.
  induction ps as [|p ps IH]; simpl; [done|].
  destruct (find_id h id (plist t p)) as [r'|] eqn:E.
  - intros [= <-]. apply find_id_Some in E as [? ?]. exists p. split; [set_solver|done].
  - intros H. destruct (IH H) as (q & ? & ?). exists q. split; [set_solver|done].
Qed.

Lemma getById_Some st id r :
  getById order st id = Some r ->
  exists s p l n, get_list st s p = Some l /\ r ∈ l /\
                  store st !! r = Some n /\ n_id n = id.
Proof.
  unfold getById.
  assert (G : forall scs k, (forall j sc, scs !! j = Some sc -> screens st !! (k + j)%nat = Some sc) ->
            find_id_screens order (store st) id scs = Some r ->
            exists s p l n, get_list st s p = Some l /\ r ∈ l /\
                            store st !! r = Some n /\ n_id n = id).
  { induction scs as [|sc scs IH]; intros k Hk; simpl; [done|].
    destruct (find_id_positions (store st) id (s_popups sc) order) as [r'|] eqn:E.
    - intros [= <-]. apply find_id_positions_Some in E as (p & _ & Hin & n & Hn & Hid).
      exists (S k), p, (plist (s_popups sc) p), n. repeat split; try done.
      unfold get_list. simpl. rewrite <- (Nat.add_0_r k). rewrite (Hk 0%nat sc eq_refl). done.
    - apply (IH (S k)). intros j sc' Hj. replace (S k + j)%nat with (k + S j)%nat by lia.
      apply Hk. exact Hj. }
  apply (G (screens st) 0%nat). intros j sc Hj. exact Hj.
Qed.

Lemma assign_id_frame fuel st rid st1 id :
  assign_id order fuel st rid = Done (st1, id) ->
  exists st0, frame st st0 /\
    (st1 = st0 \/ st1 = set_counter st0 (counter st0 + 1)).
Proof.
  unfold assign_id. destruct rid as [rid|].
  - intros H. apply bind_done in H as (st0 & H0 & H).
    assert (F : frame st st0).
    { destruct (getById order st rid) as [obj|].
      - apply bind_done in H0 as ([st0' b] & Hd & H0). inversion H0; subst.
        eapply (frame_all order fuel); eauto.
      - inversion H0; subst. apply frame_refl. }
    exists st0. split; [exact F|].
    destruct (rid <=? counter st0); inversion H; subst; auto.
  - intros H. inversion H; subst. exists st. split; [apply frame_refl|auto].
Qed.

Lemma set_timeout_fields b t n :
  n_screen (set_timeout b t n) = n_screen n /\
  n_destroy_cb (set_timeout b t n) = n_destroy_cb n /\
  n_timeout (set_timeout b t n) = n_timeout n /\
  n_id (set_timeout b t n) = n_id n /\
  n_position (set_timeout b t n) = n_position n /\
  n_height (set_timeout b t n) = n_height n /\
  n_width (set_timeout b t n) = n_width n /\
  n_idx (set_timeout b t n) = n_idx n /\
  box_visible (set_timeout b t n) = box_visible n /\
  box_x (set_timeout b t n) = box_x n /\
  box_y (set_timeout b t n) = box_y n /\
  box_width (set_timeout b t n) = box_width n /\
  box_height (set_timeout b t n) = box_height n /\
  n_timer (set_timeout b t n)
  = if 0 <? t then Some (Timer t (negb b)) else n_timer n.
Proof. unfold set_timeout. destruct (0 <? t); repeat split; reflexivity. Qed.

Lemma notify_done fuel st a st' res :
  notify order fuel st a = Done (st', res) ->
  (effective_args (cfg st) a = None /\ st' = st /\ res = None) \/
  exists a' r st1 st2 n off sc l,
    effective_args (cfg st) a = Some a' /\ res = Some r /\
    notified order fuel st a' st' r st1 st2 n off sc l.
Proof.
  unfold notify. destruct (effective_args (cfg st) a) as [a'|].
  2:{ intros [= <- <-]. left. done. }
  intros H. right.
  apply bind_done in H as ([st1 id] & Hid & H). cbn [fst snd] in H.
  apply bind_done in H as (timeout & Ht & H). apply non_nil_done in Ht.
  apply bind_done in H as (screen & Hscr & H). apply non_nil_done in Hscr.
  apply bind_done in H as (sc & Hsc & H). apply non_nil_done in Hsc.
  apply bind_done in H as (position & Hpos & H). apply non_nil_done in Hpos.
  apply bind_done in H as ([st2 off] & Hoff & H). cbn [fst snd] in H.
  apply bind_done in H as (st3 & Happ & H).
  unfold append_popup in Happ. apply bind_done in Happ as (l & Hl & Happ).
  apply non_nil_done in Hl. inversion Happ; subst st3; clear Happ.
  inversion H; subst; clear H.
  match type of Hl with
  | get_list (set_store _ (_ ++ [?n0])) _ _ = _ => set (n := n0) in *
  end.
  set (stn := set_store st2 (store st2 ++ [n])) in *.
  set (stl := set_list stn screen position (l ++ [length (store st2)])) in *.
  destruct (set_timeout_fields (suspended st1) timeout
              {| n_screen := screen; n_destroy_cb := a_destroy a'; n_timeout := timeout;
                 n_id := id; n_position := position; n_timer := None;
                 n_height := outer (cfg st1) a' (popup_height (cfg st1) (s_workarea sc) a');
                 n_width := outer (cfg st1) a' (popup_width (cfg st1) (s_workarea sc) a');
                 n_idx := o_idx off; box_visible := negb (suspended st2);
                 box_x := o_x off; box_y := o_y off;
                 box_width := popup_width (cfg st1) (s_workarea sc) a';
                 box_height := popup_height (cfg st1) (s_workarea sc) a' |})
    as (F1 & F2 & F3 & F4 & F5 & F6 & F7 & F8 & F9 & F10 & F11 & F12 & F13 & F14).
  cbn [n_screen n_destroy_cb n_timeout n_id n_position n_timer n_height n_width n_idx
       box_visible box_x box_y box_width box_height] in *.
  fold n in F1, F2, F3, F4, F5, F6, F7, F8, F9, F10, F11, F12, F13, F14.
  assert (Hl2 : get_list st2 screen position = Some l) by (destruct screen; exact Hl).
  assert (Hsusp : suspended stl = suspended st2).
  { unfold stl. destruct screen as [|k]; [done|]. simpl.
    destruct (screens st2 !! k); reflexivity. }
  set (stf := if suspended stl
              then set_susp stl (susp stl ++ [length (store st2)]) else stl) in *.
  destruct (set_list_fields stn screen position (l ++ [length (store st2)]))
    as (G1 & G2 & G3 & G4 & G5). fold stl in G1, G2, G3, G4, G5.
  assert (Hcfg1 : cfg st1 = cfg st).
  { destruct (assign_id_frame _ _ _ _ _ Hid) as (st0 & F0 & [->| ->]);
      [|cbn [cfg set_counter]]; apply F0. }
  rewrite Hcfg1 in *.
  assert (E1 : store stf = store st2 ++ [n]).
  { unfold stf. destruct (suspended stl); cbn [store set_susp]; unfold stl;
      rewrite store_set_list; done. }
  assert (E2 : forall s q, get_list stf s q
                = if decide (s = screen /\ q = position)
                  then Some (l ++ [length (store st2)]) else get_list st2 s q).
  { intros s q.
    assert (E : get_list stl s q
                = if decide (s = screen /\ q = position)
                  then Some (l ++ [length (store st2)]) else get_list st2 s q).
    { unfold stl. rewrite (get_list_set_list _ _ _ _ l) by exact Hl.
      destruct (decide _); [done|]. destruct s; reflexivity. }
    rewrite <- E. unfold stf. destruct (suspended stl); [destruct s|]; reflexivity. }
  assert (E3 : forall s, s_workarea <$> get_screen stf s = s_workarea <$> get_screen st2 s).
  { intros s. transitivity (s_workarea <$> get_screen stl s).
    - unfold stf. destruct (suspended stl); [destruct s|]; reflexivity.
    - unfold stl. rewrite workarea_set_list. destruct s; reflexivity. }
  assert (E4 : cfg stf = cfg st2).
  { unfold stf. destruct (suspended stl); cbn [cfg set_susp]; unfold stl;
      rewrite cfg_set_list; done. }
  assert (E5 : counter stf = counter st2 /\ suspended stf = suspended st2
               /\ g_timeout stf = g_timeout st2 /\ cb_log stf = cb_log st2).
  { assert (X : counter stf = counter stl /\ suspended stf = suspended stl
                 /\ g_timeout stf = g_timeout stl /\ cb_log stf = cb_log stl).
    { unfold stf. destruct (suspended stl) eqn:Es; repeat split; try reflexivity; exact Es. }
    destruct X as (X1 & X2 & X3 & X4). rewrite X1, X2, X3, X4, G1, G3, G4, Hsusp. done. }
  destruct E5 as (E5 & E6 & E7 & E8).
  assert (E9 : susp stf = if suspended st2 then susp st2 ++ [length (store st2)] else susp st2).
  { unfold stf. rewrite <- Hsusp. destruct (suspended stl); cbn [susp set_susp];
      rewrite ?G5; done. }
  exists a', (length (store st2)), st1, st2, n, off, sc, l.
  split; [done|]. split; [done|].
  constructor; rewrite ?F1, ?F2, ?F3, ?F4, ?F5, ?F6, ?F7, ?F8, ?F9, ?F10, ?F11, ?F12, ?F13, ?F14;
    try done.
  destruct (assign_id_frame _ _ _ _ _ Hid) as (st0 & F0 & [->| ->]); [left|right]; eauto.
Qed.

End Notify.

(** ** Replacing a notification *)

Section Replace.
Variable order : list position.

Lemma lua_index_Some l idx r :
  lua_index l idx = Some r ->
  exists i : nat, idx = Z.of_nat i + 1 /\ l !! i = Some r.
Proof.
  unfold lua_index. destruct (Z.leb_spec 1 idx) as [Hle|Hle]; [|done].
  intros Hl. exists (Z.to_nat (idx - 1)). split; [lia|exact Hl].
Qed.

Lemma destroy_silent fuel st old n st1 b :
  destroy order fuel st (Some old) (Some reason_silent) = Done (st1, b) ->
  store st !! old = Some n -> box_visible n = true ->
  listed_once st old n ->
  frame st st1 /\
  (exists n1, store st1 !! old = Some n1 /\ box_visible n1 = false) /\
  (forall s q l, get_list st1 s q = Some l -> old ∉ l) /\
  (exists added, cb_log st1 = cb_log st ++ added /\ forall e, e ∈ added -> e.1 <> old).
Proof.
  intros H Hn Hv [(l & Hl & Hidx) Honly].
  split; [eapply (frame_all order fuel); eauto|].
  destruct fuel as [|fuel]; [discriminate|].
  rewrite destroy_S, Hn in H. cbn [non_nil bind] in H. rewrite Hv in H. cbn zeta in H.
  set (sta := if suspended st then set_susp st (remove_first old (susp st)) else st) in *.
  assert (Fa : frame st sta).
  { unfold sta. destruct (suspended st); [apply frame_set_susp|apply frame_refl]. }
  assert (Hla : forall s q, get_list sta s q = get_list st s q).
  { intros s q. unfold sta. destruct (suspended st); [destruct s|]; reflexivity. }
  assert (Hsa : store sta = store st /\ cb_log sta = cb_log st).
  { unfold sta. destruct (suspended st); split; reflexivity. }
  destruct Hsa as [Hsa Hca].
  rewrite Hla, Hl in H. cbn [non_nil bind] in H.
  apply lua_index_Some in Hidx as (i & Hi & Hli).
  rewrite Hi, (table_remove_at l i) in H by (eapply lookup_lt_Some; eauto).
  set (stb := set_list sta (n_screen n) (n_position n) (delete i l)) in *.
  set (std := update (update stb old stop_timer) old (with_visible false)) in *.
  apply bind_done in H as (st5 & H5 & H). apply bind_done in H as (n' & Hn' & H).
  apply non_nil_done in Hn'.
  replace (n_destroy_cb n' && negb (bool_decide (Some reason_silent = Some reason_silent)))
    with false in H
    by (rewrite bool_decide_eq_true_2 by done; rewrite andb_false_r; done).
  inversion H; subst st1 b; clear H.
  pose proof (proj1 (proj2 (proj2 (frame_all order fuel))) _ _ _ H5) as F5.
  assert (Hstore_b : store stb = store st).
  { unfold stb. rewrite store_set_list. exact Hsa. }
  assert (Hd_old : store std !! old = Some (with_visible false (stop_timer n))).
  { unfold std. erewrite lookup_update_eq; [reflexivity|].
    erewrite lookup_update_eq; [reflexivity|]. rewrite Hstore_b. exact Hn. }
  assert (Hd_lists : forall s q l', get_list std s q = Some l' -> old ∉ l').
  { intros s q l' H. unfold std in H. rewrite !get_list_update in H.
    unfold stb in H. rewrite (get_list_set_list _ _ _ _ l) in H by (rewrite Hla; exact Hl).
    destruct (decide _) as [[-> ->]|Hne].
    - inversion H; subst l'. intros Hin. apply list_elem_of_lookup in Hin as [j Hj].
      destruct (decide (j < i)%nat).
      + rewrite list_lookup_delete_lt in Hj by done.
        destruct (Honly _ _ _ _ Hl Hj) as (_ & _ & E). lia.
      + rewrite list_lookup_delete_ge in Hj by lia.
        destruct (Honly _ _ _ _ Hl Hj) as (_ & _ & E). lia.
    - rewrite Hla in H. intros Hin. apply list_elem_of_lookup in Hin as [j Hj].
      destruct (Honly _ _ _ _ H Hj) as (-> & -> & _). apply Hne. done. }
  split; [|split].
  - destruct (fr_store _ _ F5 _ _ Hd_old) as (n1 & Hn1 & S).
    exists n1. split; [done|]. apply (ss_hidden _ _ S). reflexivity.
  - intros s q l5 H5l.
    destruct (get_list std s q) as [ld|] eqn:Hld.
    + destruct (fr_lists _ _ F5 _ _ _ Hld) as (l5' & H5' & Hsub).
      assert (l5' = l5) as -> by congruence.
      intros Hin. apply (Hd_lists _ _ _ Hld). eapply sublist_subseteq; eauto.
    + exfalso. pose proof (fr_workarea _ _ F5 s) as W. unfold get_list in *.
      destruct (get_screen std s); [done|]. destruct (get_screen st5 s); done.
  - destruct (fr_log _ _ F5) as (added & E & V). exists added. split.
    + rewrite E. unfold std, stb. cbn [cb_log update set_store].
      destruct (set_list_fields sta (n_screen n) (n_position n) (delete i l))
        as (_ & _ & _ & -> & _). rewrite Hca. reflexivity.
    + intros e He <-. destruct (V e He) as (nv & Hnv & Hvis).
      rewrite Hd_old in Hnv. inversion Hnv; subst nv. discriminate.
Qed.


Lemma assign_id_replaces fuel st rid old n st1 id :
  getById order st rid = Some old ->
  store st !! old = Some n -> box_visible n = true ->
  listed_once st old n ->
  rid <= counter st ->
  assign_id order fuel st (Some rid) = Done (st1, id) ->
  id = rid /\ frame st st1 /\
  (exists n1, store st1 !! old = Some n1 /\ box_visible n1 = false) /\
  (forall s q l, get_list st1 s q = Some l -> old ∉ l) /\
  (exists added, cb_log st1 = cb_log st ++ added /\ forall e, e ∈ added -> e.1 <> old).
Proof.
  intros Hget Hn Hv Hlo Hle H. unfold assign_id in H. rewrite Hget in H.
  apply bind_done in H as (st0 & H0 & H).
  apply bind_done in H0 as ([st0' b] & Hd & H0). cbn [fst] in H0.
  inversion H0; subst st0'; clear H0.
  destruct (destroy_silent _ _ _ _ _ _ Hd Hn Hv Hlo) as (F & Hinv & Hgone & Hlog).
  rewrite (fr_counter _ _ F) in H.
  destruct (Z.leb_spec rid (counter st)); [|lia].
  inversion H; subst. done.
Qed.

Lemma notify_replaces_partial fuel st a a' rid old n_old st' res :
  effective_args (cfg st) a = Some a' ->
  a_replaces_id a' = Some rid ->
  getById order st rid = Some old ->
  store st !! old = Some n_old -> box_visible n_old = true ->
  listed_once st old n_old ->
  rid <= counter st ->
  notify order fuel st a = Done (st', res) ->
  exists r n, res = Some r /\ store st' !! r = Some n /\ n_id n = rid /\ r <> old /\
    (exists n1, store st' !! old = Some n1 /\ box_visible n1 = false) /\
    (forall s q l, get_list st' s q = Some l -> old ∉ l) /\
    (exists added, cb_log st' = cb_log st ++ added /\ forall e, e ∈ added -> e.1 <> old).
Proof.
  intros Ha Hrid Hget Hn Hv Hlo Hle H.
  apply notify_done in H as [(E & _)|(a2 & r & st1 & st2 & n & off & sc & l & Ha2 & Hr & N)];
    [congruence|].
  assert (a2 = a') as -> by congruence. destruct N.
  rewrite Hrid in nd_assign0.
  destruct (assign_id_replaces _ _ _ _ _ _ _ Hget Hn Hv Hlo Hle nd_assign0)
    as (Hid & F1 & (n1 & Hn1 & Hv1) & Hgone1 & (added1 & Hlog1 & Hne1)).
  pose proof (proj1 (frame_all order fuel) _ _ _ _ _ _ _ _ nd_offset0) as F2.
  destruct (fr_store _ _ F2 _ _ Hn1) as (n2 & Hn2 & S2).
  assert (Hlt : (old < length (store st2))%nat) by (eapply lookup_lt_Some; eauto).
  exists r, n. split; [done|]. split.
  { rewrite nd_store0, nd_ref0, lookup_app_r by lia. rewrite Nat.sub_diag. reflexivity. }
  split; [done|]. split; [lia|]. split; [|split].
  - exists n2. rewrite nd_store0, lookup_app_l by lia. split; [done|].
    apply (ss_hidden _ _ S2 Hv1).
  - intros s q l' Hl'. rewrite nd_lists0 in Hl'.
    assert (Hgone2 : forall s q l, get_list st2 s q = Some l -> old ∉ l).
    { intros s0 q0 l0 H0.
      destruct (get_list st1 s0 q0) as [l1|] eqn:Hl1.
      - destruct (fr_lists _ _ F2 _ _ _ Hl1) as (l2 & H2 & Hsub).
        assert (l2 = l0) as -> by congruence.
        intros Hin. apply (Hgone1 _ _ _ Hl1). eapply sublist_subseteq; eauto.
      - exfalso. pose proof (fr_workarea _ _ F2 s0) as W. unfold get_list in *.
        destruct (get_screen st1 s0); [done|]. destruct (get_screen st2 s0); done. }
    destruct (decide _) as [_|_]; [|eauto].
    inversion Hl'; subst l'. intros Hin. apply elem_of_app in Hin as [Hin|Hin].
    + apply (Hgone2 _ _ _ nd_list0 Hin).
    + apply list_elem_of_singleton in Hin. lia.
  - destruct (fr_log _ _ F2) as (added2 & Hlog2 & V2).
    exists (added1 ++ added2). rewrite nd_cb_log0, Hlog2, Hlog1, app_assoc. split; [done|].
    intros e He. apply elem_of_app in He as [He|He]; [auto|].
    intros <-. destruct (V2 e He) as (nv & Hnv & Hvis). congruence.
Qed.


Lemma weight_frame st st' r : frame st st' -> weight st' r = weight st r.
Proof.
  intros F. unfold weight. rewrite (fr_cfg _ _ F).
  destruct (store st !! r) as [n|] eqn:E.
  - destruct (fr_store _ _ F _ _ E) as (n' & -> & S). rewrite (ss_height _ _ S). done.
  - apply lookup_ge_None in E. rewrite <- (fr_length _ _ F) in E.
    apply lookup_ge_None in E. rewrite E. done.
Qed.

Lemma remove_first_absent (r : ref) l : r ∉ l -> remove_first r l = l.
Proof.
  induction l as [|x l IH]; intros H; simpl; [done|].
  destruct (decide (x = r)) as [->|]; [set_solver|]. rewrite IH; [done|set_solver].
Qed.

Lemma remove_first_at (r : ref) l : forall i,
  NoDup l -> l !! i = Some r -> remove_first r l = delete i l.
Proof.
  induction l as [|x l IH]; intros i Hnd Hi; [done|].
  apply NoDup_cons in Hnd as [Hx Hnd]. destruct i as [|i]; simpl in *.
  - inversion Hi; subst. destruct (decide (r = r)); done.
  - destruct (decide (x = r)) as [->|].
    + exfalso. apply Hx. eapply list_elem_of_lookup_2; eauto.
    + f_equal. apply IH; done.
Qed.

Lemma get_offset_end fuel st s p w h sc pad :
  get_screen st s = Some sc ->
  padding (cfg st) = Some pad ->
  (forall r, r ∈ plist (s_popups sc) p -> is_Some (store st !! r)) ->
  outside (s_workarea sc)
    (offset_y (s_workarea sc) p pad h (total st (plist (s_popups sc) p))) h = false ->
  exists o, get_offset order (S fuel) st s p None (Some w) h = Done (st, o).
Proof.
  intros Hs Hp Hv Ho. rewrite get_offset_S, Hs. cbn [non_nil bind default from_option id].
  cbn zeta. cbn [bind]. rewrite Hp. cbn [non_nil bind].
  replace (Z.of_nat (length (plist (s_popups sc) p)) + 1)
    with (Z.of_nat (length (plist (s_popups sc) p)) + 1) by reflexivity.
  rewrite (existing_height_total st _ (length (plist (s_popups sc) p))) by (auto; lia).
  cbn [bind]. rewrite firstn_all. rewrite Ho. eauto.
Qed.

Lemma notify_replaces_total st a a' rid old n_old :
  NoDup order -> (forall q, q ∈ order) ->
  effective_args (cfg st) a = Some a' ->
  a_replaces_id a' = Some rid ->
  getById order st rid = Some old ->
  store st !! old = Some n_old -> box_visible n_old = true ->
  listed_once st old n_old ->
  rid <= counter st ->
  settled st (n_screen n_old) = true ->
  admits st a' old = true ->
  forall fuel, (length (store st) + 3 <= fuel)%nat ->
  exists st' r, notify order fuel st a = Done (st', Some r).
Proof.
  intros Hnd Hfull Ha Hrid Hget Hn Hv Hlo Hle Hset Hadm fuel Hfuel.
  unfold admits in Hadm.
  destruct (p_timeout (gathered (cfg st) a')) as [t|] eqn:Ht; [|done].
  destruct (p_screen (gathered (cfg st) a')) as [s_t|] eqn:Hst; [|done].
  destruct (p_position (gathered (cfg st) a')) as [p_t|] eqn:Hpt; [|done].
  apply andb_prop in Hadm as [Hset_t Hroom].
  destruct (settled_spec _ _ Hset_t) as (sc_t & pad & Hsc_t & Hpad & Hall_t).
  rewrite Hsc_t, Hpad in Hroom. cbn zeta in Hroom. apply negb_true_iff in Hroom.
  destruct (settled_spec _ _ Hset) as (sc_o & pad' & Hsc_o & Hpad' & Hall_o).
  assert (pad' = pad) as -> by congruence.
  destruct Hlo as [(l & Hl & Hidx) Honly].
  apply lua_index_Some in Hidx as (i & Hi & Hli).
  unfold get_list in Hl. rewrite Hsc_o in Hl. inversion Hl as [Hl']. clear Hl.
  assert (Hli' : plist (s_popups sc_o) (n_position n_old) !! i = Some old) by (rewrite Hl'; done).
  destruct (destroy_calm order Hnd Hfull st (n_screen n_old) (n_position n_old) i old n_old
              (Some reason_silent) sc_o pad Hset Hsc_o Hpad Hli' Hn Hv)
    as (st1 & Hrun & Hcfg1 & Hcnt1 & Hsus1 & _ & Hscr1 & Hlen1 & _ & _ & _ & _).
  pose proof (Hrun fuel Hfuel) as Hd.
  pose proof (proj2 (proj2 (proj2 (frame_all order fuel))) _ _ _ _ _ Hd) as F1.
  rewrite Hl' in *.
  set (sc' := Screen (s_workarea sc_o)
                (set_plist (s_popups sc_o) (n_position n_old) (delete i l))) in *.
  assert (Hs_ne : n_screen n_old <> 0%nat) by (intros E; rewrite E in Hsc_o; discriminate).
  assert (Hsc1 : exists sc1, get_screen st1 s_t = Some sc1 /\
                   s_workarea sc1 = s_workarea sc_t /\
                   plist (s_popups sc1) p_t = remove_first old (plist (s_popups sc_t) p_t)).
  { destruct (decide (s_t = n_screen n_old)) as [->|Hne].
    - assert (sc_t = sc_o) as -> by congruence.
      exists sc'. split.
      { destruct (n_screen n_old) as [|k]; [done|]. simpl in *. rewrite Hscr1.
        apply list_lookup_insert_eq. eapply lookup_lt_Some; eauto. }
      split; [reflexivity|]. unfold sc'. cbn [s_popups]. rewrite plist_set_plist.
      destruct (decide (p_t = n_position n_old)) as [->|Hp].
      + rewrite Hl'. symmetry. apply remove_first_at; [|done].
        rewrite <- Hl'. apply Hall_o.
      + symmetry. apply remove_first_absent. intros Hin.
        apply list_elem_of_lookup in Hin as [j Hj].
        destruct (Honly (n_screen n_old) p_t (plist (s_popups sc_o) p_t) j)
          as (_ & E & _); [|exact Hj|congruence].
        unfold get_list. rewrite Hsc_o. done.
    - exists sc_t. split.
      { destruct s_t as [|k]; [done|]. destruct (n_screen n_old) as [|k']; [done|].
        simpl in *. rewrite Hscr1. rewrite list_lookup_insert_ne by congruence. done. }
      split; [reflexivity|]. symmetry. apply remove_first_absent. intros Hin.
      apply list_elem_of_lookup in Hin as [j Hj].
      destruct (Honly s_t p_t (plist (s_popups sc_t) p_t) j)
        as (E & _ & _); [|exact Hj|congruence].
      unfold get_list. rewrite Hsc_t. done. }
  destruct Hsc1 as (sc1 & Hsc1 & Hwa1 & Hl1).
  assert (Hvalid1 : forall r, r ∈ plist (s_popups sc1) p_t -> is_Some (store st1 !! r)).
  { intros r Hr.
    assert (Hr' : r ∈ plist (s_popups sc_t) p_t).
    { rewrite Hl1 in Hr. clear -Hr.
      induction (plist (s_popups sc_t) p_t) as [|x l0 IH]; simpl in Hr; [done|].
      destruct (decide (x = old)); set_solver. }
    apply list_elem_of_lookup in Hr' as [j Hj].
    destruct (Hall_t p_t) as [_ Hq]. destruct (Hq j r Hj) as (n & Hnr & _).
    destruct (fr_store _ _ F1 _ _ Hnr) as (n' & Hn' & _). eauto. }
  destruct (get_offset_end (pred fuel) st1 s_t p_t
              (outer (cfg st) a' (popup_width (cfg st) (s_workarea sc1) a'))
              (outer (cfg st) a' (popup_height (cfg st) (s_workarea sc1) a'))
              sc1 pad Hsc1) as (o & Ho).
  { rewrite Hcfg1. exact Hpad. }
  { exact Hvalid1. }
  { rewrite Hwa1, Hl1, (total_ext st st1) by (intros; apply weight_frame; exact F1).
    exact Hroom. }
  replace (S (pred fuel)) with fuel in Ho by lia.
  unfold notify. rewrite Ha. cbn zeta. rewrite Hrid.
  unfold assign_id. rewrite Hget, Hd. cbn [bind fst snd].
  rewrite Hcnt1. destruct (Z.leb_spec rid (counter st)); [|lia]. cbn [bind fst snd].
  rewrite Ht, Hst, Hpt. cbn [non_nil bind]. rewrite Hsc1. cbn [non_nil bind].
  rewrite Hcfg1, Ho. cbn [bind fst snd].
  unfold append_popup, get_list.
  assert (Hsc1' : forall h, get_screen (set_store st1 h) s_t = Some sc1).
  { intros h. destruct s_t; exact Hsc1. }
  rewrite Hsc1'. cbn [non_nil bind]. eauto.
Qed.

End Replace.

(** X19: replacing a visible popup.  Take a call of [notify] that the
    notify callback lets through and whose [replaces_id] is the id of a
    notification that [getById] finds, whose popup is visible, which is
    listed once (at the index its [idx] field records, and nowhere
    else), the id being at most the counter.  Whenever the call returns,
    the old notification has been destroyed with the silent reason: its
    popup is hidden, no list holds it, and its destroy callback has not
    been invoked; the notification returned is a new one whose id is
    [replaces_id].  And the call does return when the iteration visits
    every position once, the screen of the old notification is settled,
    and the arguments name a timeout, a settled screen and a position at
    which the new popup fits once the old one has left ([admits]). *)
Theorem notify_replaces_visible (order : list position) (st : state)
    (a a' : args) (rid : Z) (old : ref) (n_old : notification) :
  effective_args (cfg st) a = Some a' ->
  a_replaces_id a' = Some rid ->
  getById order st rid = Some old ->
  store st !! old = Some n_old ->
  box_visible n_old = true ->
  listed_once st old n_old ->
  rid <= counter st ->
  (forall fuel st' res,
     notify order fuel st a = Done (st', res) ->
     exists r n,
       res = Some r /\ store st' !! r = Some n /\ n_id n = rid /\ r <> old /\
       (exists n1, store st' !! old = Some n1 /\ box_visible n1 = false) /\
       (forall s q l, get_list st' s q = Some l -> old ∉ l) /\
       (exists added, cb_log st' = cb_log st ++ added /\
          forall e, e ∈ added -> e.1 <> old)) /\
  (visits_each_once order = true ->
   settled st (n_screen n_old) = true ->
   admits st a' old = true ->
   forall fuel, (length (store st) + 3 <= fuel)%nat ->
     exists st' r, notify order fuel st a = Done (st', Some r)).
Proof.
  intros Ha Hrid Hget Hn Hv Hlo Hle. split.
  - intros fuel st' res H.
    eapply notify_replaces_partial; eauto.
  - intros Hord Hset Hadm fuel Hfuel.
    apply visits_each_once_spec in Hord as [Hnd Hfull].
    eapply notify_replaces_total; eauto.
Qed.

Lemma sample_state_lists s q l :
  get_list sample_state s q = Some l ->
  s = 1%nat /\
  ((q = top_right /\ l = [0; 1]%nat) \/ (q = bottom_left /\ l = [2; 3]%nat) \/ l = []).
Proof.
  intros H. destruct s as [|[|s]]; vm_compute in H; [discriminate| |discriminate].
  destruct q; vm_compute in H; inversion H; subst; auto 6.
Qed.

(** Replacing the oldest popup of the sample state. *)
Lemma notify_replaces_visible_witness :
  exists st' r n,
    notify positions 7 sample_state replacing_args = Done (st', Some r) /\
    store st' !! r = Some n /\ n_id n = 2 /\ r <> 0%nat /\
    (box_visible <$> store st' !! 0%nat) = Some false /\
    get_list st' 1 top_right = Some [1%nat; r] /\
    cb_log st' = [].
Proof.
  assert (Hlo : listed_once sample_state 0
                  (Notification 1 true 5 2 top_right (Some (Timer 5 true)) 32 62 1
                     true 734 4 60 30)).
  { constructor.
    - exists [0; 1]%nat. split; reflexivity.
    - intros s q l j Hl Hj. apply sample_state_lists in Hl as (-> & [(-> & ->)|[(-> & ->)| ->]]).
      + destruct j as [|[|j]]; [done|discriminate|discriminate].
      + destruct j as [|[|j]]; discriminate.
      + discriminate. }
  destruct (notify_replaces_visible positions sample_state replacing_args replacing_args 2 0
              (Notification 1 true 5 2 top_right (Some (Timer 5 true)) 32 62 1
                 true 734 4 60 30))
    as [Hpart Htot]; [reflexivity|reflexivity|reflexivity|reflexivity|reflexivity|exact Hlo
                     |vm_compute; discriminate|].
  destruct (Htot eq_refl eq_refl eq_refl 7%nat) as (st' & r & Hrun); [vm_compute; lia|].
  destruct (Hpart _ _ _ Hrun) as (r' & n & Hr & Hn & Hid & Hne & (n1 & Hn1 & Hv1) & _ & _).
  inversion Hr; subst r'; clear Hr.
  exists st', r, n. split; [exact Hrun|]. split; [exact Hn|]. split; [exact Hid|].
  split; [exact Hne|]. split; [rewrite Hn1; simpl; rewrite Hv1; done|].
  vm_compute in Hrun. inversion Hrun; subst st' r. split; reflexivity.
Defined.

(** C2: the replacement does not destroy a notification whose popup is
    hidden.  Suspend, make a notification (reference 0, id 2), and call
    [notify] with [replaces_id = 2]: [getById] finds the old
    notification, but [naughty.destroy] does nothing for a popup that is
    not visible.  The call returns a new notification with id 2, and the
    old one is exactly as it was: still in its list and in the list of
    suspended notifications, still the one [getById] finds for id 2.  No
    destroy callback is invoked.  After [naughty.resume] the popups of
    both are visible, with the same id. *)
Theorem notify_replaces_hidden_keeps_old :
  getById positions sample_suspended 2 = Some 0%nat /\
  get_list sample_suspended 1 top_right = Some [0%nat] /\
  susp sample_suspended = [0%nat] /\
  shown sample_suspended 0 = false /\
  exists st' r,
    notify positions 7 sample_suspended replacing_args = Done (st', Some r) /\
    r <> 0%nat /\
    (n_id <$> store st' !! r) = Some 2 /\
    store st' !! 0%nat = store sample_suspended !! 0%nat /\
    get_list st' 1 top_right = Some [0%nat; r] /\
    susp st' = [0%nat; r] /\
    getById positions st' 2 = Some 0%nat /\
    cb_log st' = cb_log sample_suspended /\
    shown (resume st') 0 = true /\ shown (resume st') r = true /\
    (n_id <$> store (resume st') !! 0%nat) = Some 2 /\
    (n_id <$> store (resume st') !! r) = Some 2.
Proof.
  split; [vm_compute; reflexivity|]. split; [vm_compute; reflexivity|].
  split; [vm_compute; reflexivity|]. split; [vm_compute; reflexivity|].
  eexists _, 1%nat. split; [vm_compute; reflexivity|].
  split; [discriminate|].
  split; [vm_compute; reflexivity|]. split; [vm_compute; reflexivity|].
  split; [vm_compute; reflexivity|]. split; [vm_compute; reflexivity|].
  split; [vm_compute; reflexivity|]. split; [vm_compute; reflexivity|].
  split; [vm_compute; reflexivity|]. split; [vm_compute; reflexivity|].
  split; vm_compute; reflexivity.
Qed.

(** C10: [naughty.destroy] on a notification whose popup is not visible
    returns [nil] and leaves the whole state as it is (lists, suspended
    list, timers, record of destroy callbacks); a call that returns
    [true] was made on a visible popup; and a notification created while
    notifications are suspended is such an invisible one. *)
Theorem destroy_invisible_is_noop (order : list position) :
  (forall fuel st r n reason,
     store st !! r = Some n -> box_visible n = false ->
     destroy order (S fuel) st (Some r) reason = Done (st, false)) /\
  (forall fuel st r reason st',
     destroy order fuel st (Some r) reason = Done (st', true) ->
     exists n, store st !! r = Some n /\ box_visible n = true) /\
  (forall fuel st a st' r,
     suspended st = true ->
     notify order fuel st a = Done (st', Some r) ->
     exists n, store st' !! r = Some n /\ box_visible n = false /\
       forall fuel' reason,
         destroy order (S fuel') st' (Some r) reason = Done (st', false)).
Proof.
  split; [|split].
  - intros fuel st r n reason Hr Hv. rewrite destroy_S, Hr. cbn [non_nil bind].
    rewrite Hv. reflexivity.
  - intros fuel st r reason st' H. destruct fuel as [|fuel]; [discriminate|].
    rewrite destroy_S in H. apply bind_done in H as (n & Hn & H).
    apply non_nil_done in Hn. exists n. split; [done|].
    destruct (box_visible n); [done|]. inversion H.
  - intros fuel st a st' r Hsusp H.
    apply notify_done in H as [(_ & _ & ?)|(a' & r' & st1 & st2 & n & off & sc & l & Ha & Hr & N)];
      [discriminate|].
    inversion Hr; subst r'; clear Hr.
    assert (Hs1 : suspended st1 = true).
    { destruct (nd_frame1 _ _ _ _ _ _ _ _ _ _ _ _ N) as [F|(st0 & F & ->)];
        [|cbn [suspended set_counter]]; rewrite (fr_suspended _ _ F); exact Hsusp. }
    assert (Hs2 : suspended st2 = true).
    { pose proof (proj1 (frame_all order fuel) _ _ _ _ _ _ _ _
                    (nd_offset _ _ _ _ _ _ _ _ _ _ _ _ N)) as F.
      rewrite (fr_suspended _ _ F). exact Hs1. }
    assert (Hn : store st' !! r = Some n).
    { rewrite (nd_store _ _ _ _ _ _ _ _ _ _ _ _ N), (nd_ref _ _ _ _ _ _ _ _ _ _ _ _ N).
      rewrite lookup_app_r by lia. rewrite Nat.sub_diag. reflexivity. }
    assert (Hv : box_visible n = false).
    { rewrite (nd_visible _ _ _ _ _ _ _ _ _ _ _ _ N), Hs2. reflexivity. }
    exists n. split; [done|]. split; [done|].
    intros fuel' reason. rewrite destroy_S, Hn. cbn [non_nil bind]. rewrite Hv. reflexivity.
Qed.

(** A notification made while suspended cannot be destroyed. *)
Lemma destroy_invisible_is_noop_witness :
  exists st' r n,
    suspended (suspend (init [sample_workarea])) = true /\
    notify positions 1 (suspend (init [sample_workarea])) sample_args = Done (st', Some r) /\
    store st' !! r = Some n /\ box_visible n = false /\
    destroy positions 1 st' (Some r) None = Done (st', false).
Proof.
  assert (Hs : suspended (suspend (init [sample_workarea])) = true) by reflexivity.
  destruct (notify positions 1 (suspend (init [sample_workarea])) sample_args)
    as [[st' [r|]]| |] eqn:Hrun; try (vm_compute in Hrun; discriminate).
  destruct (proj2 (proj2 (destroy_invisible_is_noop positions)) _ _ _ _ _ Hs Hrun)
    as (n & Hn & Hv & Hd).
  exists st', r, n. repeat split; try assumption; try reflexivity. apply Hd.
Defined.


(** ** Sizes and timers *)

Lemma crop_spec dim workarea_dim border_width pad :
  let limit := workarea_dim - 2 * default 0 border_width - 2 * default 0 pad in
  (dim > limit -> crop dim workarea_dim border_width pad = limit) /\
  (dim <= limit -> crop dim workarea_dim border_width pad = dim).
Proof.
  cbn zeta. unfold crop.
  destruct (Z.gtb_spec dim (workarea_dim - 2 * default 0 border_width - 2 * default 0 pad));
    split; intros; lia.
Qed.

(** C6: the width (and likewise the height) that [notify] gives to the
    popup is the computed one when that does not exceed the work-area
    dimension minus twice the border width and twice the padding, and
    exactly that bound when it does; this cropped size is the geometry of
    the popup in the notification that [notify] returns, and the size
    recorded in the notification adds the border on both sides. *)
Theorem notify_crops_to_workarea (order : list position) :
  (forall (c : config) (wa : workarea) (a : args),
     let g := gathered c a in
     let border := default 0 (p_border_width g) in
     let pad := default 0 (padding c) in
     let w := computed_width (p_width g) (a_measured a) in
     let h := computed_height (p_height g) (a_measured a) in
     (w > ws_width wa - 2 * border - 2 * pad ->
      popup_width c wa a = ws_width wa - 2 * border - 2 * pad) /\
     (w <= ws_width wa - 2 * border - 2 * pad -> popup_width c wa a = w) /\
     (h > ws_height wa - 2 * border - 2 * pad ->
      popup_height c wa a = ws_height wa - 2 * border - 2 * pad) /\
     (h <= ws_height wa - 2 * border - 2 * pad -> popup_height c wa a = h)) /\
  (forall (fuel : nat) (st st' : state) (a : args) (r : ref),
     notify order fuel st a = Done (st', Some r) ->
     exists a' n sc,
       effective_args (cfg st) a = Some a' /\
       store st' !! r = Some n /\
       get_screen st' (n_screen n) = Some sc /\
       box_width n = popup_width (cfg st) (s_workarea sc) a' /\
       box_height n = popup_height (cfg st) (s_workarea sc) a' /\
       n_width n = box_width n + 2 * default 0 (p_border_width (gathered (cfg st) a')) /\
       n_height n = box_height n + 2 * default 0 (p_border_width (gathered (cfg st) a'))).
Proof.
  split.
  - intros c wa a. cbn zeta. unfold popup_width, popup_height.
    destruct (crop_spec (computed_width (p_width (gathered c a)) (a_measured a))
                (ws_width wa) (p_border_width (gathered c a)) (padding c)) as [W1 W2].
    destruct (crop_spec (computed_height (p_height (gathered c a)) (a_measured a))
                (ws_height wa) (p_border_width (gathered c a)) (padding c)) as [H1 H2].
    auto.
  - intros fuel st st' a r H.
    apply notify_done in H
      as [(_ & _ & ?)|(a' & r' & st1 & st2 & n & off & sc & l & Ha & Hr & N)];
      [discriminate|].
    inversion Hr; subst r'; clear Hr. destruct N.
    assert (Hn : store st' !! r = Some n).
    { rewrite nd_store0, nd_ref0. rewrite lookup_app_r by lia.
      rewrite Nat.sub_diag. reflexivity. }
    pose proof (proj1 (frame_all order fuel) _ _ _ _ _ _ _ _ nd_offset0) as F.
    assert (Hsc : exists sc', get_screen st' (n_screen n) = Some sc'
                              /\ s_workarea sc' = s_workarea sc).
    { pose proof (nd_workarea0 (n_screen n)) as W.
      rewrite (fr_workarea _ _ F), nd_sc0 in W.
      destruct (get_screen st' (n_screen n)) as [sc'|]; [|discriminate].
      exists sc'. split; [done|]. inversion W. done. }
    destruct Hsc as (sc' & Hsc' & Hwa).
    exists a', n, sc'. rewrite Hwa. unfold outer in *. auto 10.
Qed.

(** A requested height of 500 on a work area of height 100 becomes 90. *)
Lemma notify_crops_to_workarea_witness :
  exists st' r n,
    notify positions 1 (init [sample_workarea]) tall_args = Done (st', Some r) /\
    store st' !! r = Some n /\ box_height n = 90 /\ box_width n = 60.
Proof.
  destruct (notify positions 1 (init [sample_workarea]) tall_args)
    as [[st' [r|]]| |] eqn:Hrun; try (vm_compute in Hrun; discriminate).
  destruct (proj2 (notify_crops_to_workarea positions) 1%nat _ _ _ _ Hrun)
    as (a' & n & sc & Ha & Hn & Hsc & Hw & Hh & _).
  exists st', r, n. split; [reflexivity|]. split; [exact Hn|].
  vm_compute in Ha. inversion Ha; subst a'; clear Ha.
  assert (Hwa : s_workarea sc = sample_workarea).
  { vm_compute in Hrun. inversion Hrun; subst st' r; clear Hrun.
    vm_compute in Hn. inversion Hn; subst n; clear Hn.
    vm_compute in Hsc. inversion Hsc; subst sc. reflexivity. }
  rewrite Hwa in Hw, Hh. rewrite Hw, Hh. split; reflexivity.
Defined.




(** ** Horizontal placement *)

Lemma offset_x_middle ws p pad w :
  position_match p "left" = false -> position_match p "middle" = true ->
  (offset_x ws p pad w == (inject_Z (ws_width ws) - inject_Z w) / 2)%Q.
Proof.
  intros H1 H2. unfold offset_x. rewrite H1, H2. field.
Qed.

(** C4: [get_offset] puts the [*_left] positions at [ws.x + padding] and
    the [*_right] positions at [ws.x + ws.width - (width + padding)], as
    claimed, but the [*_middle] positions at [(ws.width - width) / 2]
    without [ws.x]: on a work area that starts at x = 100 and is 800
    wide, a popup of width 200 at [top_middle] gets x = 300, not the
    centred x = 100 + (800 - 200) / 2 = 400. *)
Theorem get_offset_middle_ignores_workarea_x (order : list position) :
  (forall ws pad w,
     offset_x ws top_left pad w = inject_Z (ws_x ws + pad) /\
     offset_x ws bottom_left pad w = inject_Z (ws_x ws + pad)) /\
  (forall ws pad w,
     offset_x ws top_right pad w = inject_Z (ws_x ws + ws_width ws - (w + pad)) /\
     offset_x ws bottom_right pad w = inject_Z (ws_x ws + ws_width ws - (w + pad))) /\
  (forall ws pad w,
     (offset_x ws top_middle pad w == (inject_Z (ws_width ws) - inject_Z w) / 2)%Q /\
     (offset_x ws bottom_middle pad w == (inject_Z (ws_width ws) - inject_Z w) / 2)%Q) /\
  exists o,
    get_offset order 1 (init [shifted_workarea]) 1 top_middle (Some 1) (Some 200) 50
    = Done (init [shifted_workarea], o) /\
    (o_x o == 300)%Q /\
    ~ (o_x o == inject_Z (ws_x shifted_workarea)
                + (inject_Z (ws_width shifted_workarea) - 200) / 2)%Q.
Proof.
  split; [|split; [|split]].
  - intros ws pad w. split; reflexivity.
  - intros ws pad w. split; reflexivity.
  - intros ws pad w. split; apply offset_x_middle; reflexivity.
  - eexists. split; [reflexivity|]. split; [reflexivity|]. cbn. intros H. discriminate H.
Qed.

(** ** Popups that cannot fit *)

Section Stuck.
Variable order : list position.

Lemma sum_existing_ge h sp l : forall acc ex,
  (forall r n, h !! r = Some n -> 0 <= n_height n + sp) ->
  sum_existing h sp l acc = Done ex -> acc <= ex.
Proof.
  induction l as [|r l IH]; intros acc ex Hw H; simpl in H.
  - inversion H. lia.
  - apply bind_done in H as (n & Hn & H). apply non_nil_done in Hn.
    specialize (IH _ _ Hw H). specialize (Hw _ _ Hn). lia.
Qed.

Lemma too_tall_frame st st' s h : frame st st' -> too_tall st s h -> too_tall st' s h.
Proof.
  intros F [(sc & pad & Hs & Hp & Hh) Hw]. constructor.
  - pose proof (fr_workarea _ _ F s) as W. rewrite Hs in W.
    destruct (get_screen st' s) as [sc'|]; [|discriminate]. inversion W as [W'].
    exists sc', pad. rewrite (fr_cfg _ _ F), W'. done.
  - intros r n' Hn'. rewrite (fr_cfg _ _ F).
    assert (Hlt : (r < length (store st))%nat).
    { rewrite <- (fr_length _ _ F). eapply lookup_lt_Some; eauto. }
    apply lookup_lt_is_Some in Hlt as [n Hn].
    destruct (fr_store _ _ F _ _ Hn) as (n'' & Hn'' & S).
    assert (n'' = n') as -> by congruence. rewrite (ss_height _ _ S). eauto.
Qed.

Lemma get_offset_stuck fuel : forall st s p idx w h res,
  too_tall st s h ->
  get_offset order fuel st s p idx w h <> Done res.
Proof.
  induction fuel as [|fuel IH]; intros st s p idx w h res T H; [discriminate|].
  pose proof T as [(sc & pad & Hs & Hp & Hh) Hw].
  rewrite get_offset_S, Hs in H. cbn [non_nil bind] in H. cbn zeta in H.
  apply bind_done in H as (w' & _ & H). rewrite Hp in H. cbn [non_nil bind] in H.
  apply bind_done in H as (ex & Hex & H).
  assert (Hex0 : 0 <= ex).
  { unfold existing_height in Hex. destruct (decide _); [|discriminate].
    eapply sum_existing_ge; eauto. }
  assert (Ho : outside (s_workarea sc) (offset_y (s_workarea sc) p pad h ex) h = true).
  { unfold outside, offset_y. destruct (position_match p "top"); apply orb_true_intro.
    - left. lia.
    - right. lia. }
  rewrite Ho in H. apply bind_done in H as ([st1 b] & Hd & H). cbn [fst] in H.
  pose proof (proj2 (proj2 (proj2 (frame_all order fuel))) _ _ _ _ _ Hd) as F.
  eapply IH; [|exact H]. eapply too_tall_frame; eauto.
Qed.

Lemma arrange_items_stuck fuel st s p i st' :
  (forall r n, store st !! r = Some n -> too_tall st s (n_height n)) ->
  arrange_items order fuel st s p i = Done st' ->
  st' = st /\ exists l, get_list st s p = Some l /\ l !! i = None.
Proof.
  intros T H. destruct fuel as [|fuel]; [discriminate|].
  rewrite arrange_items_S in H. apply bind_done in H as (l & Hl & H).
  apply non_nil_done in Hl. destruct (l !! i) as [r|] eqn:Hi.
  - apply bind_done in H as (n & Hn & H). apply non_nil_done in Hn.
    apply bind_done in H as (o & Ho & _). exfalso.
    exact (get_offset_stuck _ _ _ _ _ _ _ _ (T _ _ Hn) Ho).
  - inversion H; subst. split; [done|]. exists l. split; [exact Hl|exact Hi].
Qed.

Lemma arrange_fold_stuck fuel st s (ps : list position) : forall st',
  (forall r n, store st !! r = Some n -> too_tall st s (n_height n)) ->
  foldl (arrange_step order fuel s) (Done st) ps = Done st' ->
  st' = st /\ forall q, q ∈ ps -> get_list st s q = Some [].
Proof.
  induction ps as [|p ps IH] using rev_ind; intros st' T H.
  - inversion H. split; [done|]. intros q Hq. set_solver.
  - rewrite foldl_app in H. cbn [foldl] in H. unfold arrange_step at 1 in H.
    apply bind_done in H as (st0 & H0 & H).
    destruct (IH _ T H0) as [-> Hps].
    apply arrange_items_stuck in H as (-> & l & Hl & Hnone); [|done].
    split; [done|]. intros q Hq. apply elem_of_app in Hq as [Hq|Hq]; [auto|].
    apply list_elem_of_singleton in Hq as ->.
    rewrite Hl. f_equal. destruct l; [done|discriminate].
Qed.

Lemma arrange_stuck fuel st s st' :
  (forall r n, store st !! r = Some n -> too_tall st s (n_height n)) ->
  arrange order fuel st s = Done st' ->
  forall q, q ∈ order -> get_list st s q = Some [].
Proof.
  intros T H. destruct fuel as [|fuel]; [discriminate|].
  rewrite arrange_S in H. apply bind_done in H as (sc & _ & H).
  apply (arrange_fold_stuck _ _ _ _ _ T H).
Qed.

End Stuck.

(** After the work area has shrunk, destroying a popup re-arranges a
    sibling that is too tall, and never returns. *)
Lemma shrunk_state_destroy_stuck fuel reason res :
  destroy positions fuel shrunk_state (Some 0%nat) reason <> Done res.
Proof.
  intros H. destruct fuel as [|fuel]; [discriminate|].
  rewrite destroy_S in H. apply bind_done in H as (n & Hn & H). apply non_nil_done in Hn.
  vm_compute in Hn. inversion Hn; subst n; clear Hn.
  cbn [box_visible n_screen n_position n_idx] in H. cbn zeta in H.
  apply bind_done in H as (l & Hl & H). apply non_nil_done in Hl.
  vm_compute in Hl. inversion Hl; subst l; clear Hl.
  apply bind_done in H as (st5 & H5 & _).
  match type of H5 with arrange _ _ ?s _ = _ => set (std := s) in * end.
  assert (T : forall r n, store std !! r = Some n -> too_tall std 1 (n_height n)).
  { intros r n Hr. constructor.
    - exists (Screen (Workarea 0 0 800 20) (Popups [] [] [1%nat] [] [] [])), 4.
      split; [vm_compute; reflexivity|]. split; [reflexivity|].
      destruct r as [|[|r]]; vm_compute in Hr; inversion Hr; subst n; vm_compute; reflexivity.
    - intros r' n' Hr'.
      destruct r' as [|[|r']]; vm_compute in Hr'; inversion Hr'; subst n'; vm_compute;
        discriminate. }
  pose proof (arrange_stuck positions _ _ _ _ T H5 top_right (in_positions _)) as E.
  vm_compute in E. discriminate.
Qed.

(** C3: with an empty [top_right] list on a work area of height 100, a
    popup of height 200 never fits; [get_offset] finds nothing to evict,
    lowers the index and calls itself again, whatever the depth allowed.
    The same happens from [naughty.destroy] once a listed popup has
    become too tall for a work area that shrank: the call never returns. *)
Theorem get_offset_recursion_unbounded (order : list position) (fuel : nat) :
  get_offset order fuel (init [sample_workarea]) 1 top_right (Some 1) (Some 10) 200
  = OutOfFuel /\
  forall reason,
    returned (destroy positions fuel shrunk_state (Some 0%nat) reason) = false.
Proof.
  split.
  - apply (get_offset_diverges order 200 sample_workarea); [reflexivity|lia].
  - intros reason.
    destruct (destroy positions fuel shrunk_state (Some 0%nat) reason) as [res| |] eqn:E;
      [|reflexivity|reflexivity].
    exfalso. exact (shrunk_state_destroy_stuck _ _ _ E).
Qed.

(* ===================================================================== *)
(** * Further facts about the popup manager *)
(* ===================================================================== *)

(** ** The steps of [naughty.destroy], [arrange] and [get_offset] *)
Lemma unlisted_fields st r n l :
  cfg (unlisted st r n l) = cfg st /\ counter (unlisted st r n l) = counter st /\
  suspended (unlisted st r n l) = suspended st /\
  cb_log (unlisted st r n l) = cb_log st /\
  susp (unlisted st r n l) = (if suspended st then remove_first r (susp st) else susp st) /\
  store (unlisted st r n l) = alter (with_visible false) r (alter stop_timer r (store st)).
Proof.
  unfold unlisted. cbn [cfg counter suspended cb_log susp store update set_store].
  rewrite cfg_set_list, store_set_list.
  destruct (set_list_fields (if suspended st then set_susp st (remove_first r (susp st)) else st)
              (n_screen n) (n_position n) (table_remove l (n_idx n))) as (-> & -> & _ & -> & ->).
  destruct (suspended st) eqn:E; cbn [cfg counter suspended cb_log susp store set_susp];
    rewrite ?E; repeat split; reflexivity.
Qed.

Lemma destroy_false order fuel st r reason st' :
  destroy order fuel st r reason = Done (st', false) -> st' = st.
Proof.
  destruct fuel as [|fuel]; [discriminate|].
  destruct r as [r|]; [|intros H; inversion H; reflexivity].
  rewrite destroy_S. intros H. apply bind_done in H as (n & Hn & H).
  destruct (box_visible n); [|inversion H; reflexivity].
  cbn zeta in H. inv_bind H. inversion H.
Qed.

(** A call of [naughty.destroy] that returns [true], step by step. *)
Lemma destroy_true order fuel st r reason st' :
  destroy order fuel st r reason = Done (st', true) ->
  exists fuel' r' n l st5 n',
    fuel = S fuel' /\ r = Some r' /\
    store st !! r' = Some n /\ box_visible n = true /\
    list_before_removal st r' n = Some l /\
    arrange order fuel' (unlisted st r' n l) (n_screen n) = Done st5 /\
    store st5 !! r' = Some n' /\
    n_destroy_cb n' = n_destroy_cb n /\ box_visible n' = false /\
    st' = if called_back n reason
          then log_cb st5 r' (default reason_undefined reason)
          else st5.
Proof.
  destruct fuel as [|fuel]; [discriminate|].
  destruct r as [r|]; [|discriminate].
  intros H. rewrite destroy_S in H. apply bind_done in H as (n & Hn & H).
  apply non_nil_done in Hn.
  destruct (box_visible n) eqn:Hv; [|inversion H].
  cbn zeta in H. apply bind_done in H as (l & Hl & H). apply non_nil_done in Hl.
  apply bind_done in H as (st5 & H5 & H). apply bind_done in H as (n' & Hn' & H).
  apply non_nil_done in Hn'.
  change (arrange order fuel (unlisted st r n l) (n_screen n) = Done st5) in H5.
  pose proof (proj1 (proj2 (proj2 (frame_all order fuel))) _ _ _ H5) as F5.
  assert (H4 : store (unlisted st r n l) !! r = Some (with_visible false (stop_timer n))).
  { destruct (unlisted_fields st r n l) as (_ & _ & _ & _ & _ & ->).
    rewrite !list_lookup_alter_eq, Hn. reflexivity. }
  destruct (fr_store _ _ F5 _ _ H4) as (n5 & Hn5 & S5).
  assert (n5 = n') as -> by congruence.
  assert (Hcb : n_destroy_cb n' = n_destroy_cb n) by apply (ss_destroy_cb _ _ S5).
  exists fuel, r, n, l, st5, n'. do 6 (split; [done|]).
  split; [exact Hn'|]. split; [exact Hcb|].
  split; [apply (ss_hidden _ _ S5); reflexivity|].
  unfold called_back. rewrite <- Hcb. inversion H. reflexivity.
Qed.

(** Whatever [get_offset], [arrange] and the evictions they trigger do is
    made of three kinds of steps: placing a popup, taking a visible popup
    out of its list, and calling back an evicted popup. *)
Section Calls.
Variable order : list position.
Variable R : state -> state -> Prop.
Hypothesis R_refl : forall st, R st st.
Hypothesis R_trans : forall st1 st2 st3, R st1 st2 -> R st2 st3 -> R st1 st3.
Hypothesis R_place : forall st r o, R st (update st r (place o)).
Hypothesis R_unlist : forall st r n l,
  store st !! r = Some n -> box_visible n = true ->
  list_before_removal st r n = Some l ->
  R st (unlisted st r n l).
Hypothesis R_log : forall st r n,
  store st !! r = Some n -> n_destroy_cb n = true -> box_visible n = false ->
  R st (log_cb st r reason_undefined).

Lemma arrange_fold_calls fuel s (ps : list position) :
  (forall st p i st', arrange_items order fuel st s p i = Done st' -> R st st') ->
  forall acc st', foldl (arrange_step order fuel s) acc ps = Done st' ->
  exists st0, acc = Done st0 /\ R st0 st'.
Proof.
  intros IH. induction ps as [|q ps IHps]; intros acc st' H; cbn [foldl] in H.
  - exists st'. split; [done|apply R_refl].
  - destruct (IHps _ _ H) as (st1 & H1 & F1).
    unfold arrange_step in H1. apply bind_done in H1 as (st0 & -> & H1).
    exists st0. split; [done|]. eapply R_trans; [|exact F1]. eapply IH; eauto.
Qed.

Lemma calls_ind (fuel : nat) :
  (forall st s pos idx w h st' o,
     get_offset order fuel st s pos idx w h = Done (st', o) -> R st st') /\
  (forall st s p i st',
     arrange_items order fuel st s p i = Done st' -> R st st') /\
  (forall st s st', arrange order fuel st s = Done st' -> R st st') /\
  (forall st r st' b,
     destroy order fuel st r None = Done (st', b) -> R st st').
Proof.
  induction fuel as [|fuel (IHo & IHi & IHa & IHd)].
  { repeat split; intros; discriminate. }
  assert (Hi : forall st s p i st',
             arrange_items order (S fuel) st s p i = Done st' -> R st st').
  { intros st s p i st' H. rewrite arrange_items_S in H.
    apply bind_done in H as (l & Hl & H).
    destruct (l !! i) as [r|]; [|inversion H; apply R_refl].
    inv_bind H. destruct x0 as [st1 o]. cbn [fst snd] in H.
    eapply R_trans; [eapply IHo; eauto|].
    eapply R_trans; [|eapply IHi; eauto].
    apply R_place. }
  assert (Ha : forall st s st', arrange order (S fuel) st s = Done st' -> R st st').
  { intros st s st' H. rewrite arrange_S in H. apply bind_done in H as (sc & _ & H).
    destruct (arrange_fold_calls fuel s order (fun st0 => IHi st0 s) _ _ H) as (st0 & E & F).
    inversion E; subst. exact F. }
  split; [|split; [exact Hi|split; [exact Ha|]]].
  - intros st s pos idx w h st' o H. rewrite get_offset_S in H.
    inv_bind H. destruct (outside _ _ _).
    + apply bind_done in H as ([st1 b] & Hd1 & H). cbn [fst] in H.
      eapply R_trans; [eapply IHd; eauto|eapply IHo; eauto].
    + inversion H; subst. apply R_refl.
  - intros st r st' b H. destruct b.
    + apply destroy_true in H
        as (fuel' & r' & n & l & st5 & n' & Hf & -> & Hn & Hv & Hl & H5 & Hn' & Hcb & Hh & ->).
      inversion Hf; subst fuel'.
      pose proof (R_trans _ _ _ (R_unlist st r' n l Hn Hv Hl) (IHa _ _ _ H5)) as R5.
      unfold called_back. rewrite bool_decide_eq_false_2 by discriminate. rewrite andb_true_r.
      destruct (n_destroy_cb n) eqn:E; [|exact R5].
      eapply R_trans; [exact R5|]. eapply R_log; eauto; congruence.
    + apply destroy_false in H as ->. apply R_refl.
Qed.

End Calls.

Lemma evictions_only_refl st : evictions_only st st.
Proof. exists []. rewrite app_nil_r. split; [done|]. intros e He. set_solver. Qed.

Lemma evictions_only_all (order : list position) (fuel : nat) :
  (forall st s pos idx w h st' o,
     get_offset order fuel st s pos idx w h = Done (st', o) -> evictions_only st st') /\
  (forall st s st', arrange order fuel st s = Done st' -> evictions_only st st').
Proof.
  assert (Rtrans : forall st1 st2 st3,
            evictions_only st1 st2 -> evictions_only st2 st3 -> evictions_only st1 st3).
  { intros st1 st2 st3 (a1 & E1 & V1) (a2 & E2 & V2). exists (a1 ++ a2).
    rewrite E2, E1, app_assoc. split; [done|].
    intros e He. apply elem_of_app in He as [He|He]; auto. }
  destruct (calls_ind order evictions_only evictions_only_refl Rtrans) with (fuel := fuel)
    as (Ho & _ & Ha & _); [| | |split; assumption].
  - intros st r o. exists []. rewrite app_nil_r. split; [done|]. intros e He. set_solver.
  - intros st r n l _ _ _. exists []. rewrite app_nil_r.
    destruct (unlisted_fields st r n l) as (_ & _ & _ & -> & _). split; [done|].
    intros e He. set_solver.
  - intros st r n _ _ _. exists [(r, reason_undefined)]. split; [reflexivity|].
    intros e He. apply list_elem_of_singleton in He as ->. reflexivity.
Qed.

(** The callbacks made by a call of [naughty.destroy] that returns [true]. *)
Lemma destroy_log order fuel st r reason st' :
  destroy order fuel st (Some r) reason = Done (st', true) ->
  exists n evicted,
    store st !! r = Some n /\ box_visible n = true /\
    cb_log st' = cb_log st ++ evicted ++
      (if called_back n reason then [(r, default reason_undefined reason)] else []) /\
    forall e, e ∈ evicted -> e.1 <> r /\ e.2 = reason_undefined.
Proof.
  intros H. apply destroy_true in H
    as (fuel' & r' & n & l & st5 & n' & Hf & Hr & Hn & Hv & Hl & H5 & Hn' & Hcb & Hh & ->).
  inversion Hr; subst r'; clear Hr.
  destruct (proj2 (evictions_only_all order fuel') _ _ _ H5) as (added & E & V).
  pose proof (proj1 (proj2 (proj2 (frame_all order fuel'))) _ _ _ H5) as F5.
  destruct (unlisted_fields st r n l) as (_ & _ & _ & Elog & _ & Est).
  exists n, added. split; [exact Hn|]. split; [exact Hv|].
  rewrite Elog in E. split.
  - destruct (called_back n reason); cbn [cb_log log_cb]; rewrite E;
      [rewrite app_assoc; reflexivity|]. rewrite app_nil_r. reflexivity.
  - intros e He. split; [|apply V; exact He].
    destruct (fr_log _ _ F5) as (added' & E' & V').
    rewrite Elog, E in E'. apply app_inv_head in E'. subst added'.
    destruct (V' e He) as (m & Hm & Hvis). intros <-.
    rewrite Est, list_lookup_alter_eq, list_lookup_alter_eq, Hn in Hm.
    inversion Hm; subst m. discriminate.
Qed.

(** ** The suspended list *)

Lemma susp_hidden_spec st :
  susp_hidden st = true <->
  forall r, r ∈ susp st -> exists n, store st !! r = Some n /\ box_visible n = false.
Proof.
  unfold susp_hidden. rewrite forallb_forall. split.
  - intros H r Hr. apply list_elem_of_In, H in Hr.
    destruct (store st !! r) as [n|]; [|discriminate].
    exists n. split; [done|]. destruct (box_visible n); [discriminate|done].
  - intros H r Hr. apply list_elem_of_In, H in Hr as (n & -> & ->). reflexivity.
Qed.

Lemma keeps_suspended_list_all (order : list position) (fuel : nat) :
  (forall st s pos idx w h st' o,
     get_offset order fuel st s pos idx w h = Done (st', o) -> keeps_suspended_list st st') /\
  (forall st r reason st' b,
     destroy order fuel st r reason = Done (st', b) -> keeps_suspended_list st st').
Proof.
  assert (Rrefl : forall st, keeps_suspended_list st st) by (intros st H; done).
  assert (Rtrans : forall st1 st2 st3,
            keeps_suspended_list st1 st2 -> keeps_suspended_list st2 st3 ->
            keeps_suspended_list st1 st3).
  { intros st1 st2 st3 A B H. destruct (A H) as [E1 H2]. destruct (B H2) as [E2 H3].
    split; [congruence|done]. }
  assert (Rlog : forall st r z, keeps_suspended_list st (log_cb st r z)).
  { intros st r z H. split; [reflexivity|exact H]. }
  assert (Runlist : forall st r n l,
            store st !! r = Some n -> box_visible n = true ->
            keeps_suspended_list st (unlisted st r n l)).
  { intros st r n l Hn Hv H.
    destruct (unlisted_fields st r n l) as (_ & _ & _ & _ & Es & Est).
    assert (Hr : r ∉ susp st).
    { intros Hin. destruct (proj1 (susp_hidden_spec st) H r Hin) as (m & Hm & Hh). congruence. }
    assert (E : susp (unlisted st r n l) = susp st).
    { rewrite Es. destruct (suspended st); [apply remove_first_absent; exact Hr|reflexivity]. }
    split; [exact E|]. apply susp_hidden_spec. intros r' Hr'. rewrite E in Hr'.
    destruct (proj1 (susp_hidden_spec st) H r' Hr') as (m & Hm & Hh).
    exists m. split; [|exact Hh]. rewrite Est.
    rewrite !list_lookup_alter_ne by (intros ->; contradiction). exact Hm. }
  assert (Rplace : forall st r o, keeps_suspended_list st (update st r (place o))).
  { intros st r o H. split; [reflexivity|]. apply susp_hidden_spec. intros r' Hr'.
    destruct (proj1 (susp_hidden_spec st) H r' Hr') as (m & Hm & Hh).
    destruct (decide (r = r')) as [->|Hne].
    + exists (place o m). rewrite (lookup_update_eq _ _ _ m Hm). done.
    + exists m. rewrite lookup_update_ne by done. done. }
  assert (All : forall k, _) by
    (exact (fun k => calls_ind order keeps_suspended_list Rrefl Rtrans Rplace
              (fun st r n l Hn Hv _ => Runlist st r n l Hn Hv)
              (fun st r n _ _ _ => Rlog st r reason_undefined) k)).
  pose proof (proj1 (proj2 (proj2 (All (pred fuel))))) as Ha.
  split; [exact (proj1 (All fuel))|]. intros st r reason st' b H. destruct b.
  - apply destroy_true in H
      as (fuel' & r' & n & l & st5 & n' & Hf & -> & Hn & Hv & Hl & H5 & Hn' & Hcb & Hh & ->).
    subst fuel. cbn [pred] in Ha.
    eapply Rtrans; [apply Runlist; eassumption|].
    eapply Rtrans; [eapply Ha; eauto|]. destruct (called_back n reason); [apply Rlog|apply Rrefl].
  - apply destroy_false in H as ->. apply Rrefl.
Qed.

(** ** Timers *)

Lemma timer_stop_stop (t : option timer) : timer_stop <$> (timer_stop <$> t) = timer_stop <$> t.
Proof. destruct t; reflexivity. Qed.

Lemma timers_only_stop_arrange (order : list position) (fuel : nat) :
  forall st s st', arrange order fuel st s = Done st' -> timers_only_stop st st'.
Proof.
  assert (Rrefl : forall st, timers_only_stop st st).
  { intros st. split; [done|]. intros r n n' H1 H2. left. congruence. }
  assert (Rtrans : forall st1 st2 st3, timers_only_stop st1 st2 ->
            timers_only_stop st2 st3 -> timers_only_stop st1 st3).
  { intros st1 st2 st3 [L1 A] [L2 B]. split; [congruence|].
    intros r n n'' H1 H3.
    assert (Hlt : (r < length (store st2))%nat).
    { rewrite L1. eapply lookup_lt_Some; eauto. }
    apply lookup_lt_is_Some in Hlt as [n' H2].
    destruct (A _ _ _ H1 H2) as [E1|E1], (B _ _ _ H2 H3) as [E2|E2];
      rewrite E2, E1, ?timer_stop_stop; auto. }
  assert (Rupd : forall st r f, (forall n, n_timer (f n) = n_timer n \/
                                           n_timer (f n) = timer_stop <$> n_timer n) ->
                 timers_only_stop st (update st r f)).
  { intros st r f Hf. split; [rewrite store_update; apply length_alter|].
    intros r' n n' H1 H2. destruct (decide (r = r')) as [->|Hne].
    - rewrite (lookup_update_eq _ _ _ n H1) in H2. inversion H2. apply Hf.
    - rewrite lookup_update_ne in H2 by done. left. congruence. }
  destruct (calls_ind order timers_only_stop Rrefl Rtrans) with (fuel := fuel)
    as (_ & _ & Ha & _); [| | |exact Ha].
  - intros st r o. apply Rupd. intros n. left. reflexivity.
  - intros st r n l Hn Hv Hl. unfold unlisted.
    eapply Rtrans; [|apply Rupd; intros; left; reflexivity].
    eapply Rtrans; [|apply Rupd; intros; right; reflexivity].
    split; [rewrite store_set_list; destruct (suspended st); reflexivity|].
    intros r' m m' H1 H2. rewrite store_set_list in H2. left.
    destruct (suspended st); cbn in H2; congruence.
  - intros st r n _ _ _. split; [reflexivity|]. intros r' m m' H1 H2. left.
    cbn in H2. congruence.
Qed.

(** ** Suspending and resuming *)

Lemma wake_wake n : wake (wake n) = wake n.
Proof. unfold wake. destruct n as [? ? ? ? ? [[]|] ? ? ? ? ? ? ? ?]; reflexivity. Qed.

Lemma resume_fold_fields (l : list ref) : forall st,
  let st' := foldl (fun st' v => update st' v wake) st l in
  cfg st' = cfg st /\ counter st' = counter st /\ suspended st' = suspended st /\
  screens st' = screens st /\ susp st' = susp st /\ cb_log st' = cb_log st /\
  g_timeout st' = g_timeout st /\ length (store st') = length (store st).
Proof.
  induction l as [|v l IH]; intros st; cbn [foldl]; [repeat split|].
  cbn zeta in *. destruct (IH (update st v wake)) as (?&?&?&?&?&?&?&Hl).
  rewrite store_update, length_alter in Hl.
  repeat split; try assumption.
Qed.

Lemma resume_fold_lookup (l : list ref) : forall st r,
  store (foldl (fun st' v => update st' v wake) st l) !! r
  = if decide (r ∈ l) then wake <$> store st !! r else store st !! r.
Proof.
  induction l as [|v l IH]; intros st r; cbn [foldl].
  - destruct (decide _) as [H|]; [set_solver|reflexivity].
  - rewrite IH. destruct (decide (v = r)) as [->|Hne].
    + rewrite store_update, list_lookup_alter_eq.
      destruct (decide (r ∈ l)), (decide (r ∈ r :: l)); try set_solver.
      destruct (store st !! r); simpl; [|done]. rewrite wake_wake. done.
    + rewrite lookup_update_ne by done.
      destruct (decide (r ∈ l)), (decide (r ∈ v :: l)); set_solver.
Qed.
Lemma resume_lookup st r :
  store (resume st) !! r
  = if decide (r ∈ susp st) then wake <$> store st !! r else store st !! r.
Proof. unfold resume. cbn [store set_susp]. rewrite resume_fold_lookup. reflexivity. Qed.

Lemma resume_fields st :
  suspended (resume st) = false /\ susp (resume st) = [] /\
  screens (resume st) = screens st /\ counter (resume st) = counter st /\
  cb_log (resume st) = cb_log st /\ cfg (resume st) = cfg st.
Proof.
  unfold resume. cbn [suspended susp screens counter cb_log cfg set_susp].
  pose proof (resume_fold_fields (susp (set_suspended st false)) (set_suspended st false)) as F.
  cbn zeta in F. destruct F as (Hcfg & Hc & Hs & Hsc & _ & Hlog & _).
  split; [exact Hs|]. split; [reflexivity|]. split; [exact Hsc|].
  split; [exact Hc|]. split; [exact Hlog|exact Hcfg].
Qed.

(** X3: [naughty.resume] clears the suspended flag and empties the
    suspended list; every notification that was in the list gets its
    popup shown and its timer, if it has one, started with the duration
    it had, while its id, index, size and place stay; notifications
    outside the list, the popup lists, the counter and the record of
    callbacks are left alone. *)
Theorem resume_wakes_suspended (st : state) :
  suspended (resume st) = false /\
  susp (resume st) = [] /\
  screens (resume st) = screens st /\
  counter (resume st) = counter st /\
  cb_log (resume st) = cb_log st /\
  (forall r n, r ∈ susp st -> store st !! r = Some n ->
     exists n', store (resume st) !! r = Some n' /\
       box_visible n' = true /\
       n_timer n' = timer_start <$> n_timer n /\
       n_id n' = n_id n /\ n_idx n' = n_idx n /\
       box_x n' = box_x n /\ box_y n' = box_y n /\
       n_height n' = n_height n /\ n_width n' = n_width n) /\
  (forall r, r ∉ susp st -> store (resume st) !! r = store st !! r).
Proof.
  destruct (resume_fields st) as (H1 & H2 & H3 & H4 & H5 & _).
  do 5 (split; [assumption|]). split.
  - intros r n Hr Hn. exists (wake n). rewrite resume_lookup, decide_True, Hn by done.
    repeat split; reflexivity.
  - intros r Hr. rewrite resume_lookup, decide_False by done. reflexivity.
Qed.

(** A popup made while suspended is hidden with a stopped timer of 5
    seconds; [resume] shows it and starts the timer. *)
Lemma resume_wakes_suspended_witness :
  susp sample_suspended = [0%nat] /\
  (box_visible <$> store sample_suspended !! 0%nat) = Some false /\
  (n_timer <$> store sample_suspended !! 0%nat) = Some (Some (Timer 5 false)) /\
  (box_visible <$> store (resume sample_suspended) !! 0%nat) = Some true /\
  (n_timer <$> store (resume sample_suspended) !! 0%nat) = Some (Some (Timer 5 true)).
Proof.
  assert (Hin : 0%nat ∈ [0%nat]) by (apply (list_elem_of_lookup_2 _ 0%nat); reflexivity).
  destruct (resume_wakes_suspended sample_suspended) as (_ & _ & _ & _ & _ & H & _).
  assert (Hs : susp sample_suspended = [0%nat]) by (vm_compute; reflexivity).
  assert (Hn : store sample_suspended !! 0%nat
               = Some (Notification 1 true 5 2 top_right (Some (Timer 5 false)) 32 62 1
                         false 734 4 60 30)) by (vm_compute; reflexivity).
  destruct (H 0%nat _ (eq_ind_r (fun l => 0%nat ∈ l) Hin Hs) Hn)
    as (n' & Hn' & Hv & Ht & _).
  split; [exact Hs|]. rewrite Hn, Hn'. cbn [fmap option_fmap option_map]. rewrite Hv, Ht.
  repeat split; reflexivity.
Defined.

(** X17: [naughty.toggle] flips the suspended flag; when notifications are
    not suspended and the suspended list is empty, suspending and then
    toggling again gives back the state one started from. *)
Theorem toggle_round_trip (st : state) :
  suspended (toggle st) = negb (suspended st) /\
  (suspended st = false -> susp st = [] ->
   toggle st = suspend st /\ toggle (toggle st) = st).
Proof.
  split.
  - unfold toggle. destruct (suspended st) eqn:E.
    + apply (resume_fields st).
    + reflexivity.
  - intros Hs Hl.
    assert (E1 : toggle st = suspend st) by (unfold toggle; rewrite Hs; reflexivity).
    split; [exact E1|]. rewrite E1. unfold toggle, suspend. cbn [suspended set_suspended].
    unfold resume. cbn [susp set_suspended]. rewrite Hl. cbn [foldl].
    destruct st as [c k s scs su h lg g]. cbn in Hs, Hl. subst s su. reflexivity.
Qed.

(** Right after loading, toggling twice changes nothing. *)
Lemma toggle_round_trip_witness :
  suspended (toggle (init [sample_workarea])) = true /\
  toggle (toggle (init [sample_workarea])) = init [sample_workarea].
Proof.
  destruct (toggle_round_trip (init [sample_workarea])) as [H1 H2].
  split; [exact H1|]. apply H2; reflexivity.
Defined.

(** ** What a call of [notify] leaves behind *)

Lemma ids_bounded_spec st :
  ids_bounded st = true <->
  forall r n, store st !! r = Some n -> n_id n <= counter st.
Proof.
  unfold ids_bounded. rewrite forallb_forall. split.
  - intros H r n Hr. apply Z.leb_le, H. apply list_elem_of_In. eapply list_elem_of_lookup_2; eauto.
  - intros H n Hn. apply list_elem_of_In, list_elem_of_lookup_1 in Hn as [r Hr].
    apply Z.leb_le. eauto.
Qed.

Lemma assign_id_done order fuel st rid st1 id :
  assign_id order fuel st rid = Done (st1, id) ->
  exists st0,
    (st0 = st \/
     exists x old b, rid = Some x /\ getById order st x = Some old /\
       destroy order fuel st (Some old) (Some reason_silent) = Done (st0, b)) /\
    ((st1 = st0 /\ rid = Some id /\ id <= counter st0) \/
     (st1 = set_counter st0 (counter st0 + 1) /\ id = counter st0 + 1 /\
      forall x, rid = Some x -> counter st0 < x)).
Proof.
  unfold assign_id. destruct rid as [x|].
  - intros H. apply bind_done in H as (st0 & H0 & H). exists st0. split.
    + destruct (getById order st x) as [old|] eqn:G.
      * apply bind_done in H0 as ([st0' b] & Hd & H0). inversion H0; subst.
        right. exists x, old, b. done.
      * inversion H0. left. reflexivity.
    + destruct (Z.leb_spec x (counter st0)); inversion H; subst.
      * left. done.
      * right. split; [done|]. split; [done|]. intros y Hy. inversion Hy; subst. done.
  - intros H. inversion H; subst. exists st. split; [left; done|].
    right. split; [done|]. split; [done|]. intros x Hx. discriminate.
Qed.

Lemma frame_visible_back st st' r n' :
  frame st st' -> store st' !! r = Some n' -> box_visible n' = true ->
  exists n, store st !! r = Some n /\ box_visible n = true.
Proof.
  intros F Hn' Hv.
  assert (Hlt : (r < length (store st))%nat).
  { rewrite <- (fr_length _ _ F). eapply lookup_lt_Some; eauto. }
  apply lookup_lt_is_Some in Hlt as [n Hn].
  destruct (fr_store _ _ F _ _ Hn) as (n2 & Hn2 & S).
  assert (n2 = n') as -> by congruence.
  exists n. split; [done|]. destruct (box_visible n) eqn:E; [done|].
  rewrite (ss_hidden _ _ S E) in Hv. done.
Qed.

Lemma assign_id_store order fuel st rid st1 id :
  assign_id order fuel st rid = Done (st1, id) ->
  exists st0, frame st st0 /\ store st1 = store st0 /\ cb_log st1 = cb_log st0 /\
    susp st1 = susp st0 /\ suspended st1 = suspended st0 /\
    evictions_only st st0 /\ keeps_suspended_list st st0.
Proof.
  intros H. destruct (assign_id_done _ _ _ _ _ _ H) as (st0 & H0 & H1).
  exists st0.
  assert (E : store st1 = store st0 /\ cb_log st1 = cb_log st0 /\
              susp st1 = susp st0 /\ suspended st1 = suspended st0).
  { destruct H1 as [(-> & _)|(-> & _)]; repeat split; reflexivity. }
  destruct E as (? & ? & ? & ?).
  destruct H0 as [->|(x & old & b & _ & _ & Hdes)].
  - split; [apply frame_refl|]. do 4 (split; [assumption|]). split.
    + exists []. rewrite app_nil_r. split; [done|]. intros e He. set_solver.
    + intros Hh. done.
  - split; [eapply (frame_all order fuel); eauto|]. do 4 (split; [assumption|]). split.
    + destruct b.
      * destruct (destroy_log _ _ _ _ _ _ Hdes) as (m & ev & Hm & Hv & E & V).
        unfold called_back in E.
        rewrite bool_decide_eq_true_2, andb_false_r, app_nil_r in E by done.
        exists ev. split; [exact E|]. intros e He. apply V, He.
      * apply destroy_false in Hdes as ->. exists []. rewrite app_nil_r. split; [done|].
        intros e He. set_solver.
    + intros Hh. eapply (keeps_suspended_list_all order fuel); eauto.
Qed.

Ltac notified_fields N :=
  pose proof (nd_assign _ _ _ _ _ _ _ _ _ _ _ _ N) as Nassign;
  pose proof (nd_offset _ _ _ _ _ _ _ _ _ _ _ _ N) as Noffset;
  pose proof (nd_store _ _ _ _ _ _ _ _ _ _ _ _ N) as Nstore;
  pose proof (nd_ref _ _ _ _ _ _ _ _ _ _ _ _ N) as Nref;
  pose proof (nd_counter _ _ _ _ _ _ _ _ _ _ _ _ N) as Ncounter;
  pose proof (nd_cb_log _ _ _ _ _ _ _ _ _ _ _ _ N) as Ncb_log;
  pose proof (nd_susp _ _ _ _ _ _ _ _ _ _ _ _ N) as Nsusp;
  pose proof (nd_visible _ _ _ _ _ _ _ _ _ _ _ _ N) as Nvisible;
  pose proof (nd_suspended _ _ _ _ _ _ _ _ _ _ _ _ N) as Nsuspended.

Section NotifyMore.
Variable order : list position.

(** X6: ids never run ahead of the counter.  If every stored id is at
    most the counter, the same holds after [notify]; the counter grows by
    at most one; and a notification made without [replaces_id] gets the
    id [counter + 1], which is larger than the id of every notification
    made before. *)
Theorem notify_ids_bounded (fuel : nat) (st st' : state) (a : args) (res : option ref) :
  ids_bounded st = true ->
  notify order fuel st a = Done (st', res) ->
  ids_bounded st' = true /\
  counter st <= counter st' <= counter st + 1 /\
  (forall a' r,
     effective_args (cfg st) a = Some a' -> a_replaces_id a' = None -> res = Some r ->
     counter st' = counter st + 1 /\
     (n_id <$> store st' !! r) = Some (counter st + 1) /\
     forall r' n', store st !! r' = Some n' -> n_id n' < counter st + 1) /\
  (forall a' r rid,
     effective_args (cfg st) a = Some a' -> a_replaces_id a' = Some rid -> res = Some r ->
     (n_id <$> store st' !! r)
     = Some (if rid <=? counter st then rid else counter st + 1) /\
     counter st' = (if rid <=? counter st then counter st else counter st + 1)).
Proof.
  intros Hb H. pose proof (proj1 (ids_bounded_spec st) Hb) as Hb'.
  destruct (notify_done order _ _ _ _ _ H)
    as [(_ & -> & ->)|(a' & r & st1 & st2 & n & off & sc & l & Ha & -> & N)].
  { split; [exact Hb|]. split; [lia|]. split; intros; discriminate. }
  notified_fields N.
  destruct (frame_all order fuel) as (Ho & _ & _ & Hd).
  pose proof (Ho _ _ _ _ _ _ _ _ Noffset) as F2.
  destruct (assign_id_done _ _ _ _ _ _ Nassign) as (st0 & H0 & H1).
  assert (F0 : frame st st0).
  { destruct H0 as [->|(x & old & b & _ & _ & Hdes)]; [apply frame_refl|eapply Hd; eauto]. }
  assert (Hc1 : counter st <= counter st1 <= counter st + 1 /\ n_id n <= counter st1 /\
                frame st0 (set_counter st1 (counter st0))).
  { rewrite <- (fr_counter _ _ F0).
    destruct H1 as [(-> & _ & Hle)|(-> & -> & _)]; cbn [counter set_counter].
    - split; [lia|]. split; [exact Hle|]. destruct st0; apply frame_refl.
    - split; [lia|]. split; [lia|]. destruct st0; apply frame_refl. }
  destruct Hc1 as (Hc1 & Hid & _).
  assert (Hst1 : forall r' n', store st !! r' = Some n' ->
                   exists n1, store st1 !! r' = Some n1 /\ n_id n1 = n_id n').
  { intros r' n' Hr'. destruct (fr_store _ _ F0 _ _ Hr') as (n0 & Hn0 & S0).
    exists n0. split; [|apply S0].
    destruct H1 as [(-> & _)|(-> & _)]; exact Hn0. }
  assert (Hlen1 : length (store st1) = length (store st)).
  { rewrite <- (fr_length _ _ F0). destruct H1 as [(-> & _)|(-> & _)]; reflexivity. }
  assert (Hc' : counter st' = counter st1) by (rewrite Ncounter; apply F2).
  split; [|split; [lia|split]].
  - apply ids_bounded_spec. intros r' n' Hr'. rewrite Nstore in Hr'.
    apply lookup_app_Some in Hr' as [Hr'|[Hge Hr']].
    + assert (Hlt : (r' < length (store st))%nat).
      { rewrite <- Hlen1, <- (fr_length _ _ F2). eapply lookup_lt_Some; eauto. }
      apply lookup_lt_is_Some in Hlt as [m Hm].
      destruct (Hst1 _ _ Hm) as (n1 & Hn1 & E1).
      destruct (fr_store _ _ F2 _ _ Hn1) as (n2 & Hn2 & S2).
      assert (n2 = n') as -> by congruence.
      rewrite (ss_id _ _ S2), E1. pose proof (Hb' _ _ Hm). lia.
    + destruct (r' - length (store st2))%nat; [|destruct n0; discriminate].
      inversion Hr'; subst n'. lia.
  - intros a'' r0 Ha'' Hnone Hr0. inversion Hr0; subst r0. clear Hr0.
    assert (a'' = a') as -> by congruence.
    rewrite Hnone in Nassign. cbn [assign_id] in Nassign.
    inversion Nassign as [[E1 E2]]. 
    split; [rewrite Hc', <- E1; reflexivity|]. split.
    + rewrite Nstore, Nref, lookup_app_r, Nat.sub_diag by lia. simpl. congruence.
    + intros r' n' Hr'. pose proof (Hb' _ _ Hr'). lia.
  - intros a'' r0 rid Ha'' Hrid Hr0. inversion Hr0; subst r0. clear Hr0.
    assert (a'' = a') as -> by congruence.
    assert (Hn : (n_id <$> store st' !! r) = Some (n_id n)).
    { rewrite Nstore, Nref, lookup_app_r, Nat.sub_diag by lia. reflexivity. }
    rewrite Hn, Hc', <- (fr_counter _ _ F0).
    destruct H1 as [(-> & E & Hle)|(-> & -> & Hgt)].
    + rewrite Hrid in E. inversion E; subst rid.
      destruct (Z.leb_spec (n_id n) (counter st0)); [split; reflexivity|lia].
    + pose proof (Hgt rid Hrid). cbn [counter set_counter].
      destruct (Z.leb_spec rid (counter st0)); [lia|split; reflexivity].
Qed.

(** X10: every destroy callback that a call of [notify] triggers, be it
    for a popup evicted to make room or during the silent replacement of
    an old notification, is called with the reason [undefined], and only
    for popups that were visible before the call. *)
Theorem notify_evicts_with_reason_undefined (fuel : nat) (st st' : state) (a : args)
    (res : option ref) :
  notify order fuel st a = Done (st', res) ->
  exists added,
    cb_log st' = cb_log st ++ added /\
    forall e, e ∈ added ->
      e.2 = reason_undefined /\
      exists n, store st !! e.1 = Some n /\ box_visible n = true.
Proof.
  intros H.
  destruct (notify_done order _ _ _ _ _ H)
    as [(_ & -> & ->)|(a' & r & st1 & st2 & n & off & sc & l & Ha & -> & N)].
  { exists []. rewrite app_nil_r. split; [done|]. intros e He. set_solver. }
  notified_fields N.
  pose proof (proj1 (frame_all order fuel) _ _ _ _ _ _ _ _ Noffset) as F2.
  destruct (proj1 (evictions_only_all order fuel) _ _ _ _ _ _ _ _ Noffset) as (a2 & E2 & V2).
  destruct (assign_id_store _ _ _ _ _ _ Nassign)
    as (st0 & F0 & Es & El & _ & _ & (a0 & E0 & V0) & _).
  exists (a0 ++ a2). split.
  { rewrite Ncb_log, E2, El, E0, app_assoc. reflexivity. }
  intros e He. apply elem_of_app in He as [He|He].
  - split; [apply V0, He|].
    destruct (fr_log _ _ F0) as (a0' & E0' & V0').
    rewrite E0 in E0'. apply app_inv_head in E0'. subst a0'. apply V0', He.
  - split; [apply V2, He|].
    destruct (fr_log _ _ F2) as (a2' & E2' & V2').
    rewrite E2 in E2'. apply app_inv_head in E2'. subst a2'.
    destruct (V2' e He) as (n1 & Hn1 & Hv1). rewrite Es in Hn1.
    eapply frame_visible_back; eauto.
Qed.

(** X5: the suspended list holds only live notifications whose popups
    are hidden.  This is so after loading, and [suspend], [resume],
    [naughty.destroy] and [notify] keep it so; under it
    [naughty.destroy] never takes anything out of the suspended list
    (the loop over the list in it finds nothing), and [notify] appends
    the new notification exactly when notifications are suspended. *)
Theorem suspended_list_holds_hidden_popups :
  (forall was, susp_hidden (init was) = true) /\
  (forall st, susp_hidden st = true -> susp_hidden (suspend st) = true) /\
  (forall st, susp_hidden (resume st) = true) /\
  (forall fuel st r reason st' b,
     susp_hidden st = true ->
     destroy order fuel st r reason = Done (st', b) ->
     susp st' = susp st /\ susp_hidden st' = true) /\
  (forall fuel st a st' res,
     susp_hidden st = true ->
     notify order fuel st a = Done (st', res) ->
     susp_hidden st' = true /\
     susp st' = susp st ++ (if suspended st then option_list res else [])).
Proof.
  split; [reflexivity|]. split; [intros st H; exact H|]. split; [reflexivity|]. split.
  { intros fuel st r reason st' b Hh H.
    eapply (keeps_suspended_list_all order fuel); eauto. }
  intros fuel st a st' res Hh H.
  destruct (notify_done order _ _ _ _ _ H)
    as [(_ & -> & ->)|(a' & r & st1 & st2 & n & off & sc & l & Ha & -> & N)].
  { split; [exact Hh|]. destruct (suspended st); rewrite app_nil_r; reflexivity. }
  notified_fields N.
  pose proof (proj1 (frame_all order fuel) _ _ _ _ _ _ _ _ Noffset) as F2.
  destruct (assign_id_store _ _ _ _ _ _ Nassign)
    as (st0 & F0 & Es & _ & Esu & Esd & _ & K0).
  destruct (K0 Hh) as (Es0 & Hh0).
  assert (Hh1 : susp_hidden st1 = true).
  { unfold susp_hidden. rewrite Es, Esu. exact Hh0. }
  destruct (proj1 (keeps_suspended_list_all order fuel) _ _ _ _ _ _ _ _ Noffset Hh1)
    as (Es2 & Hh2).
  assert (Esusp : suspended st2 = suspended st).
  { rewrite (fr_suspended _ _ F2), Esd. apply F0. }
  rewrite Esusp in Nsusp, Nvisible.
  assert (E : susp st' = susp st ++ (if suspended st then [r] else [])).
  { rewrite Nsusp, Es2, Esu, Es0. destruct (suspended st); [done|]. rewrite app_nil_r. done. }
  split; [|exact E].
  apply susp_hidden_spec. intros r' Hr'. rewrite E in Hr'. rewrite Nstore.
  apply elem_of_app in Hr' as [Hr'|Hr'].
  - rewrite <- Es0, <- Esu, <- Es2 in Hr'.
    destruct (proj1 (susp_hidden_spec st2) Hh2 r' Hr') as (m & Hm & Hv).
    exists m. split; [|exact Hv]. apply lookup_app_l_Some. exact Hm.
  - destruct (suspended st) eqn:Su; [|set_solver].
    apply list_elem_of_singleton in Hr' as ->. exists n.
    rewrite Nref, lookup_app_r, Nat.sub_diag by lia. split; [reflexivity|].
    rewrite Nvisible. reflexivity.
Qed.

(** X4: a notification made while notifications are suspended comes out
    hidden, with its timer (if the timeout is positive) installed but not
    started, and is put on the suspended list; the next [resume] shows it
    where it was placed and starts the timer with the full timeout. *)
Theorem notify_while_suspended (fuel : nat) (st st' : state) (a : args) (r : ref) :
  suspended st = true ->
  notify order fuel st a = Done (st', Some r) ->
  exists n,
    store st' !! r = Some n /\
    box_visible n = false /\
    n_timer n = (if 0 <? n_timeout n then Some (Timer (n_timeout n) false) else None) /\
    r ∈ susp st' /\
    exists n', store (resume st') !! r = Some n' /\
      box_visible n' = true /\
      n_timer n' = (if 0 <? n_timeout n then Some (Timer (n_timeout n) true) else None) /\
      box_x n' = box_x n /\ box_y n' = box_y n /\ n_idx n' = n_idx n.
Proof.
  intros Hsusp H.
  destruct (notify_done order _ _ _ _ _ H)
    as [(_ & _ & ?)|(a' & r' & st1 & st2 & n & off & sc & l & Ha & Hr & N)]; [discriminate|].
  inversion Hr; subst r'; clear Hr. notified_fields N.
  destruct (assign_id_store _ _ _ _ _ _ Nassign) as (st0 & F0 & _ & _ & _ & Es & _).
  assert (S1 : suspended st1 = true) by (rewrite Es, (fr_suspended _ _ F0); exact Hsusp).
  assert (S2 : suspended st2 = true).
  { rewrite (fr_suspended _ _ (proj1 (frame_all order fuel) _ _ _ _ _ _ _ _ Noffset)).
    exact S1. }
  assert (Hn : store st' !! r = Some n).
  { rewrite Nstore, Nref, lookup_app_r, Nat.sub_diag by lia. reflexivity. }
  assert (Hin : r ∈ susp st').
  { rewrite Nsusp, S2. apply elem_of_app. right. apply list_elem_of_singleton. reflexivity. }
  assert (Ht : n_timer n = if 0 <? n_timeout n then Some (Timer (n_timeout n) false) else None).
  { rewrite (nd_timer _ _ _ _ _ _ _ _ _ _ _ _ N), S1. reflexivity. }
  exists n. split; [exact Hn|]. split; [rewrite Nvisible, S2; reflexivity|].
  split; [exact Ht|]. split; [exact Hin|].
  exists (wake n). rewrite resume_lookup, decide_True, Hn by exact Hin.
  split; [reflexivity|]. split; [reflexivity|].
  split; [|repeat split; reflexivity].
  cbn [wake n_timer with_timer with_visible]. rewrite Ht.
  destruct (0 <? n_timeout n); reflexivity.
Qed.

End NotifyMore.

(** A fifth notification on the sample state. *)
Lemma notify_ids_bounded_witness :
  exists st' res,
    ids_bounded sample_state = true /\
    notify positions 7 sample_state sample_args = Done (st', res) /\
    ids_bounded st' = true /\
    counter sample_state <= counter st' <= counter sample_state + 1.
Proof.
  destruct (notify positions 7 sample_state sample_args)
    as [[st' res]| |] eqn:Hrun; try (vm_compute in Hrun; discriminate).
  assert (Hb : ids_bounded sample_state = true) by (vm_compute; reflexivity).
  destruct (notify_ids_bounded positions _ _ _ _ _ Hb Hrun) as (Hb' & Hc & _).
  exists st', res. split; [exact Hb|]. split; [reflexivity|]. split; [exact Hb'|exact Hc].
Defined.

(** A third popup on the crowded screen evicts the first one. *)
Lemma notify_evicts_with_reason_undefined_witness :
  exists st' res added,
    notify positions 7 crowded_state sample_args = Done (st', res) /\
    cb_log st' = cb_log crowded_state ++ added /\
    forall e, e ∈ added -> e.2 = reason_undefined.
Proof.
  destruct (notify positions 7 crowded_state sample_args)
    as [[st' res]| |] eqn:Hrun; try (vm_compute in Hrun; discriminate).
  destruct (notify_evicts_with_reason_undefined positions _ _ _ _ _ Hrun) as (added & E & V).
  exists st', res, added. split; [reflexivity|]. split; [exact E|].
  intros e He. apply V, He.
Defined.

(** A second notification while suspended. *)
Lemma suspended_list_holds_hidden_popups_witness :
  exists st' res,
    susp_hidden sample_suspended = true /\
    notify positions 1 sample_suspended sample_args = Done (st', res) /\
    susp_hidden st' = true /\
    susp st' = susp sample_suspended ++ option_list res.
Proof.
  assert (Hh : susp_hidden sample_suspended = true) by (vm_compute; reflexivity).
  destruct (notify positions 1 sample_suspended sample_args)
    as [[st' res]| |] eqn:Hrun; try (vm_compute in Hrun; discriminate).
  destruct (proj2 (proj2 (proj2 (proj2 (suspended_list_holds_hidden_popups positions))))
              _ _ _ _ _ Hh Hrun) as (Hh' & E).
  exists st', res. split; [exact Hh|]. split; [reflexivity|]. split; [exact Hh'|].
  rewrite E. reflexivity.
Defined.

(** A notification made while suspended, and then resumed. *)
Lemma notify_while_suspended_witness :
  exists st' r n',
    suspended (suspend (init [sample_workarea])) = true /\
    notify positions 1 (suspend (init [sample_workarea])) sample_args = Done (st', Some r) /\
    shown st' r = false /\
    store (resume st') !! r = Some n' /\ box_visible n' = true /\
    n_timer n' = Some (Timer 5 true).
Proof.
  assert (Hs : suspended (suspend (init [sample_workarea])) = true) by reflexivity.
  destruct (notify positions 1 (suspend (init [sample_workarea])) sample_args)
    as [[st' [r|]]| |] eqn:Hrun; try (vm_compute in Hrun; discriminate).
  destruct (notify_while_suspended positions _ _ _ _ _ Hs Hrun)
    as (n & Hn & Hv & Ht & Hin & n' & Hn' & Hv' & Ht' & _).
  exists st', r, n'. split; [exact Hs|]. split; [reflexivity|].
  split; [unfold shown; rewrite Hn; exact Hv|]. split; [exact Hn'|]. split; [exact Hv'|].
  rewrite Ht'. vm_compute in Hrun. inversion Hrun; subst st' r.
  vm_compute in Hn. inversion Hn; subst n. reflexivity.
Defined.

(** ** Looking notifications up, and destroying them *)

Lemma find_id_complete h id l r n :
  r ∈ l -> h !! r = Some n -> n_id n = id -> is_Some (find_id h id l).
Proof.
  induction l as [|r0 l IH]; intros Hin Hn Hid; [set_solver|].
  cbn [find_id]. destruct (h !! r0) as [n0|] eqn:E0.
  - destruct (Z.eqb_spec (n_id n0) id); [eauto|].
    apply IH; try done. apply elem_of_cons in Hin as [->|]; [congruence|done].
  - apply IH; try done. apply elem_of_cons in Hin as [->|]; [congruence|done].
Qed.

Lemma find_id_positions_complete h id t ps p r n :
  p ∈ ps -> r ∈ plist t p -> h !! r = Some n -> n_id n = id ->
  is_Some (find_id_positions h id t ps).
Proof.
  induction ps as [|p0 ps IH]; intros Hp Hin Hn Hid; [set_solver|].
  cbn [find_id_positions]. destruct (find_id h id (plist t p0)) eqn:E; [eauto|].
  apply IH; try done. apply elem_of_cons in Hp as [->|]; [|done].
  destruct (find_id_complete h id _ _ _ Hin Hn Hid) as [x Hx]. congruence.
Qed.

Lemma find_id_screens_complete order h id scs sc p r n :
  sc ∈ scs -> p ∈ order -> r ∈ plist (s_popups sc) p -> h !! r = Some n -> n_id n = id ->
  is_Some (find_id_screens order h id scs).
Proof.
  induction scs as [|sc0 scs IH]; intros Hs Hp Hin Hn Hid; [set_solver|].
  cbn [find_id_screens]. destruct (find_id_positions h id (s_popups sc0) order) eqn:E; [eauto|].
  apply IH; try done. apply elem_of_cons in Hs as [->|]; [|done].
  destruct (find_id_positions_complete h id _ _ _ _ _ Hp Hin Hn Hid) as [x Hx]. congruence.
Qed.

Lemma get_list_Some st s p l :
  get_list st s p = Some l <->
  exists sc, get_screen st s = Some sc /\ l = plist (s_popups sc) p.
Proof.
  unfold get_list. destruct (get_screen st s) as [sc|]; split.
  - intros H. inversion H. eauto.
  - intros (sc' & E & ->). inversion E. reflexivity.
  - discriminate.
  - intros (sc' & E & _). discriminate.
Qed.
(** X7: [naughty.getById] finds exactly the listed ids.  Whatever it
    returns is a notification with the id asked for that is in one of the
    lists; and whenever some list holds a notification with that id, it
    returns one (the first in the order of screens, positions and list
    indices), provided the walk over the positions visits each of them. *)
Theorem getById_finds_listed (order : list position) (st : state) (id : Z) :
  visits_each_once order = true ->
  (forall r, getById order st id = Some r ->
     exists s p l n, get_list st s p = Some l /\ r ∈ l /\
       store st !! r = Some n /\ n_id n = id) /\
  (forall s p l r n,
     get_list st s p = Some l -> r ∈ l -> store st !! r = Some n -> n_id n = id ->
     exists r' n', getById order st id = Some r' /\
       store st !! r' = Some n' /\ n_id n' = id).
Proof.
  intros Hord. apply visits_each_once_spec in Hord as [_ Hfull]. split.
  - intros r H. apply (getById_Some order). exact H.
  - intros s p l r n Hl Hin Hn Hid.
    apply get_list_Some in Hl as (sc & Hsc & ->).
    destruct s as [|s']; [discriminate|]. cbn [get_screen] in Hsc.
    destruct (find_id_screens_complete order (store st) id (screens st) sc p r n)
      as [r' Hr']; try done.
    { eapply list_elem_of_lookup_2; eauto. }
    destruct (getById_Some order st id r' Hr') as (_ & _ & _ & n' & _ & _ & Hn' & Hid').
    exists r', n'. done.
Qed.

(** The second popup of the sample state has id 3. *)
Lemma getById_finds_listed_witness :
  visits_each_once positions = true /\
  exists r' n', getById positions sample_state 3 = Some r' /\
    store sample_state !! r' = Some n' /\ n_id n' = 3.
Proof.
  assert (Hin : 1%nat ∈ [0; 1]%nat) by (apply (list_elem_of_lookup_2 _ 1%nat); reflexivity).
  assert (Hord : visits_each_once positions = true) by (vm_compute; reflexivity).
  split; [exact Hord|].
  assert (Hn : exists n, store sample_state !! 1%nat = Some n /\ n_id n = 3).
  { vm_compute. eexists. split; reflexivity. }
  destruct Hn as (n & Hn & Hid).
  assert (Hl : get_list sample_state 1 top_right = Some [0; 1]%nat) by (vm_compute; reflexivity).
  exact (proj2 (getById_finds_listed positions sample_state 3 Hord)
           1%nat top_right [0; 1]%nat 1%nat n Hl Hin Hn Hid).
Defined.

Section DestroyMore.
Variable order : list position.

Lemma destroy_unlists fuel st r n reason st' :
  destroy order fuel st (Some r) reason = Done (st', true) ->
  store st !! r = Some n ->
  listed_once st r n ->
  frame st st' /\
  (exists n1, store st' !! r = Some n1 /\ box_visible n1 = false /\
              n_timer n1 = timer_stop <$> n_timer n) /\
  (forall s q l, get_list st' s q = Some l -> r ∉ l).
Proof.
  intros H Hn [(l & Hl & Hidx) Honly].
  split; [eapply (frame_all order fuel); eauto|].
  apply destroy_true in H
    as (fuel' & r' & n0 & l0 & st5 & n' & Hf & Hr & Hn0 & Hv & Hl0 & H5 & Hn' & _ & Hh & E).
  inversion Hr; subst r'; clear Hr.
  assert (n0 = n) as -> by congruence.
  destruct (timers_only_stop_arrange _ _ _ _ _ H5) as [_ T5].
  pose proof (proj1 (proj2 (proj2 (frame_all order fuel'))) _ _ _ H5) as F5.
  assert (Hla : forall s q, get_list (if suspended st then set_susp st (remove_first r (susp st)) else st) s q = get_list st s q).
  { intros s q. destruct (suspended st); [destruct s|]; reflexivity. }
  unfold list_before_removal in Hl0. rewrite Hla in Hl0.
  assert (l0 = l) as -> by congruence.
  apply lua_index_Some in Hidx as (i & Hi & Hli).
  destruct (unlisted_fields st r n l) as (_ & _ & _ & _ & _ & Est).
  assert (H4 : store (unlisted st r n l) !! r = Some (with_visible false (stop_timer n))).
  { rewrite Est, !list_lookup_alter_eq, Hn. reflexivity. }
  assert (Hd_lists : forall s q l', get_list (unlisted st r n l) s q = Some l' -> r ∉ l').
  { intros s q l' Hq. unfold unlisted in Hq. rewrite !get_list_update in Hq.
    rewrite (get_list_set_list _ _ _ _ l) in Hq by (rewrite Hla; exact Hl).
    rewrite Hi, (table_remove_at l i) in Hq by (eapply lookup_lt_Some; eauto).
    destruct (decide _) as [[-> ->]|Hne].
    - inversion Hq; subst l'. intros Hin. apply list_elem_of_lookup in Hin as [j Hj].
      destruct (decide (j < i)%nat).
      + rewrite list_lookup_delete_lt in Hj by done.
        destruct (Honly _ _ _ _ Hl Hj) as (_ & _ & E'). lia.
      + rewrite list_lookup_delete_ge in Hj by lia.
        destruct (Honly _ _ _ _ Hl Hj) as (_ & _ & E'). lia.
    - rewrite Hla in Hq. intros Hin. apply list_elem_of_lookup in Hin as [j Hj].
      destruct (Honly _ _ _ _ Hq Hj) as (-> & -> & _). apply Hne. done. }
  assert (Est' : store st' = store st5 /\ forall s q, get_list st' s q = get_list st5 s q).
  { rewrite E. destruct (called_back n reason); split; try reflexivity; intros [|s] q; reflexivity. }
  destruct Est' as [Est' Elst']. split.
  - exists n'. rewrite Est'. split; [exact Hn'|]. split; [exact Hh|].
    destruct (T5 _ _ _ H4 Hn') as [-> | ->]; cbn [n_timer with_visible stop_timer with_timer];
      rewrite ?timer_stop_stop; reflexivity.
  - intros s q l5 H5l. rewrite Elst' in H5l.
    destruct (get_list (unlisted st r n l) s q) as [ld|] eqn:Hld.
    + destruct (fr_lists _ _ F5 _ _ _ Hld) as (l5' & H5' & Hsub).
      assert (l5' = l5) as -> by congruence.
      intros Hin. apply (Hd_lists _ _ _ Hld). eapply sublist_subseteq; eauto.
    + exfalso. pose proof (fr_workarea _ _ F5 s) as W. unfold get_list in *.
      destruct (get_screen (unlisted st r n l) s); [done|]. destruct (get_screen st5 s); done.
Qed.

(** What a call of [naughty.destroy] that returns [true] does to the
    notification itself, wherever the lists hold it. *)
Lemma destroy_hides fuel st r n reason st' :
  destroy order fuel st (Some r) reason = Done (st', true) ->
  store st !! r = Some n ->
  exists n1, store st' !! r = Some n1 /\ box_visible n1 = false /\
             n_timer n1 = timer_stop <$> n_timer n /\ n_id n1 = n_id n.
Proof.
  intros H Hn.
  pose proof (proj2 (proj2 (proj2 (frame_all order fuel))) _ _ _ _ _ H) as F.
  apply destroy_true in H
    as (fuel' & r' & n0 & l & st5 & n' & Hf & Hr & Hn0 & Hv & Hl & H5 & Hn' & _ & Hh & E).
  inversion Hr; subst r'; clear Hr.
  assert (n0 = n) as -> by congruence.
  destruct (timers_only_stop_arrange _ _ _ _ _ H5) as [_ T5].
  destruct (unlisted_fields st r n l) as (_ & _ & _ & _ & _ & Est).
  assert (H4 : store (unlisted st r n l) !! r = Some (with_visible false (stop_timer n))).
  { rewrite Est, !list_lookup_alter_eq, Hn. reflexivity. }
  assert (Est' : store st' = store st5).
  { rewrite E. destruct (called_back n reason); reflexivity. }
  destruct (fr_store _ _ F _ _ Hn) as (n1 & Hn1 & S).
  assert (n1 = n') as -> by (rewrite Est' in Hn1; congruence).
  exists n'. rewrite Est'. split; [exact Hn'|]. split; [exact Hh|]. split; [|apply S].
  destruct (T5 _ _ _ H4 Hn') as [-> | ->]; cbn [n_timer with_visible stop_timer with_timer];
    rewrite ?timer_stop_stop; reflexivity.
Qed.

(** X8: what [naughty.destroy] leaves of a notification it has destroyed
    (the call returned [true]).  The popup is hidden, the timer (if any)
    is stopped, the id is unchanged, and destroying it again does nothing
    and returns [nil].  If, before the call, the notification was listed
    once (the list of its screen and position held it at the index its
    [idx] field records, and no list held it anywhere else), then no list
    holds it any more and [naughty.getById] never returns it, whatever
    the id asked for.  Without that premise the entry that
    [table.remove] takes out at [notification.idx] can be another one. *)
Theorem destroy_retires_popup (fuel : nat) (st st' : state) (r : ref)
    (n : notification) (reason : option Z) :
  destroy order fuel st (Some r) reason = Done (st', true) ->
  store st !! r = Some n ->
  (exists n1, store st' !! r = Some n1 /\ box_visible n1 = false /\
     n_timer n1 = timer_stop <$> n_timer n /\ n_id n1 = n_id n) /\
  (forall fuel' reason', destroy order (S fuel') st' (Some r) reason' = Done (st', false)) /\
  (listed_once st r n ->
     (forall s q l, get_list st' s q = Some l -> r ∉ l) /\
     (forall id, getById order st' id <> Some r)).
Proof.
  intros H Hn.
  destruct (destroy_hides _ _ _ _ _ _ H Hn) as (n1 & Hn1 & Hh & Ht & Hid).
  split; [|split].
  - exists n1. split; [done|]. split; [done|]. split; done.
  - intros fuel' reason'. rewrite destroy_S, Hn1. cbn [non_nil bind]. rewrite Hh. reflexivity.
  - intros Hlo.
    destruct (destroy_unlists _ _ _ _ _ _ H Hn Hlo) as (_ & _ & Hgone).
    split; [exact Hgone|].
    intros id Hid'. destruct (getById_Some order _ _ _ Hid') as (s & p & l & _ & Hl & Hin & _).
    exact (Hgone _ _ _ Hl Hin).
Qed.

(** X9: the destroy callback of the notification being destroyed is
    called exactly once, after the remaining popups have been arranged,
    with the reason given (or [undefined] when none is given), unless
    the notification has no callback or the reason is [silent]; the
    callbacks that come before it belong to other popups, evicted while
    arranging, and get the reason [undefined]. *)
Theorem destroy_calls_back_once (fuel : nat) (st st' : state)
    (r : ref) (reason : option Z) :
  destroy order fuel st (Some r) reason = Done (st', true) ->
  exists n evicted,
    store st !! r = Some n /\ box_visible n = true /\
    cb_log st' = cb_log st ++ evicted ++
      (if n_destroy_cb n && negb (bool_decide (reason = Some reason_silent))
       then [(r, default reason_undefined reason)] else []) /\
    forall e, e ∈ evicted -> e.1 <> r /\ e.2 = reason_undefined.
Proof.
  intros H. destruct (destroy_log _ _ _ _ _ _ H) as (n & ev & Hn & Hv & E & V).
  exists n, ev. split; [exact Hn|]. split; [exact Hv|]. split; [exact E|exact V].
Qed.

End DestroyMore.

Lemma sample_state_listed_once :
  listed_once sample_state 2
    (Notification 1 true 5 4 bottom_left (Some (Timer 5 true)) 32 62 1 true 4 164 60 30).
Proof.
  constructor.
  - exists [2; 3]%nat. split; reflexivity.
  - intros s q l j Hl Hj. apply sample_state_lists in Hl as (-> & [(-> & ->)|[(-> & ->)| ->]]).
    + destruct j as [|[|j]]; discriminate.
    + destruct j as [|[|j]]; [done|discriminate|discriminate].
    + discriminate.
Qed.

(** Destroying the first popup at the bottom left of the sample state. *)
Lemma destroy_retires_popup_witness :
  exists st' n,
    destroy positions 7 sample_state (Some 2%nat) None = Done (st', true) /\
    store sample_state !! 2%nat = Some n /\
    getById positions sample_state (n_id n) = Some 2%nat /\
    getById positions st' (n_id n) <> Some 2%nat /\
    destroy positions 1 st' (Some 2%nat) None = Done (st', false).
Proof.
  destruct (destroy positions 7 sample_state (Some 2%nat) None)
    as [[st' [|]]| |] eqn:Hrun; try (vm_compute in Hrun; discriminate).
  assert (Hn : store sample_state !! 2%nat
               = Some (Notification 1 true 5 4 bottom_left (Some (Timer 5 true)) 32 62 1
                         true 4 164 60 30)) by (vm_compute; reflexivity).
  destruct (destroy_retires_popup positions _ _ _ _ _ _ Hrun Hn) as (_ & Hagain & Hlisted).
  destruct (Hlisted sample_state_listed_once) as [_ Hget].
  eexists st', _. split; [reflexivity|]. split; [exact Hn|].
  split; [vm_compute; reflexivity|]. split; [apply Hget|apply Hagain].
Defined.

(** The same call with the reason [expired]. *)
Lemma destroy_calls_back_once_witness :
  exists st' n evicted,
    destroy positions 7 sample_state (Some 2%nat) (Some reason_expired) = Done (st', true) /\
    store sample_state !! 2%nat = Some n /\
    cb_log st' = cb_log sample_state ++ evicted ++
      (if n_destroy_cb n && negb (bool_decide (Some reason_expired = Some reason_silent))
       then [(2%nat, reason_expired)] else []).
Proof.
  destruct (destroy positions 7 sample_state (Some 2%nat) (Some reason_expired))
    as [[st' [|]]| |] eqn:H1; try (vm_compute in H1; discriminate).
  destruct (destroy_calls_back_once _ _ _ _ _ _ H1) as (n1 & ev1 & Hn1 & _ & E1 & _).
  exists st', n1, ev1. split; [reflexivity|]. split; [exact Hn1|exact E1].
Defined.

(** ** Settled screens stay settled *)

Lemma forallb_id_intro (l : list bool) :
  (forall i b, l !! i = Some b -> b = true) -> forallb id l = true.
Proof.
  induction l as [|b l IH]; intros H; [reflexivity|]. cbn [forallb].
  rewrite (H 0%nat b eq_refl). cbn. apply IH. intros i b' Hi. apply (H (S i)). exact Hi.
Qed.

Lemma popup_settled_intro st s ws pad q l j r n :
  store st !! r = Some n -> popup_facts st s ws pad q l j n ->
  popup_settled st s ws pad q l j r = true.
Proof.
  intros Hn [H1 H2 H3 H4 H5 H6]. unfold popup_settled. rewrite Hn, H4.
  rewrite !bool_decide_eq_true_2 by done. reflexivity.
Qed.

Lemma settled_intro st s sc pad :
  get_screen st s = Some sc -> padding (cfg st) = Some pad ->
  (forall q, NoDup (plist (s_popups sc) q) /\
     forall j r, plist (s_popups sc) q !! j = Some r ->
       exists n, store st !! r = Some n /\
         popup_facts st s (s_workarea sc) pad q (plist (s_popups sc) q) j n) ->
  settled st s = true.
Proof.
  intros Hs Hp H. unfold settled. rewrite Hs, Hp. apply forallb_forall.
  intros q _. destruct (H q) as [Hnd Hq]. rewrite bool_decide_eq_true_2 by done.
  cbn [andb]. apply forallb_id_intro. intros i b Hi.
  rewrite list_lookup_imap in Hi.
  destruct (plist (s_popups sc) q !! i) as [r|] eqn:E; [|discriminate].
  cbn in Hi. inversion Hi; subst b. destruct (Hq i r E) as (n & Hn & F).
  eapply popup_settled_intro; eauto.
Qed.

Lemma popup_facts_ext st st' s ws pad q l j n :
  cfg st' = cfg st -> (forall r, weight st' r = weight st r) ->
  popup_facts st s ws pad q l j n -> popup_facts st' s ws pad q l j n.
Proof.
  intros Hc Hw [H1 H2 H3 H4 H5 H6].
  constructor; try assumption; rewrite ?(total_ext st st') by exact Hw; try assumption.
  rewrite Hc. exact H6.
Qed.

Section KeepSettled.
Variable order : list position.
Hypothesis order_nodup : NoDup order.
Hypothesis order_full : forall q, q ∈ order.

Lemma destroy_settled st s p i r n reason sc pad :
  settled st s = true ->
  get_screen st s = Some sc -> padding (cfg st) = Some pad ->
  plist (s_popups sc) p !! i = Some r ->
  store st !! r = Some n -> box_visible n = true ->
  let l := plist (s_popups sc) p in
  let sc' := Screen (s_workarea sc) (set_plist (s_popups sc) p (delete i l)) in
  exists st',
    (forall fuel, (length (store st) + 3 <= fuel)%nat ->
       destroy order fuel st (Some r) reason = Done (st', true)) /\
    settled st' s = true /\
    get_screen st' s = Some sc' /\
    (forall s', s' <> s -> get_screen st' s' = get_screen st s') /\
    (forall s', s' <> s -> settled st s' = true -> settled st' s' = true) /\
    frame st st' /\
    (exists n1, store st' !! r = Some n1 /\ box_visible n1 = false) /\
    (forall r' n', r' <> r -> store st !! r' = Some n' ->
       exists n'', store st' !! r' = Some n'' /\ box_visible n'' = box_visible n') /\
    cb_log st' = cb_log st ++
      (if called_back n reason then [(r, default reason_undefined reason)] else []).
Proof.
  intros Hset Hs Hp Hi Hn Hvis l sc'.
  destruct (destroy_calm order order_nodup order_full st s p i r n reason sc pad
              Hset Hs Hp Hi Hn Hvis)
    as (st' & Hrun & Hcfg & Hcnt & Hsus & Hgt & Hscr & Hlen & Hr & Hlisted & Hother & Hlog).
  fold l in Hscr, Hlisted. fold sc' in Hscr, Hlisted.
  destruct (settled_spec st s Hset) as (sc0 & pad0 & Hs0 & Hp0 & Hall).
  assert (sc0 = sc) as -> by congruence. assert (pad0 = pad) as -> by congruence.
  clear Hs0 Hp0.
  destruct (Hall p) as [Hndp Hpop]. fold l in Hndp, Hpop.
  destruct (Hpop i r Hi) as (n0 & Hn0 & Fr). assert (n0 = n) as -> by congruence. clear Hn0.
  assert (Hs_ne : s <> 0%nat) by (intros ->; discriminate).
  assert (Hs' : get_screen st' s = Some sc').
  { destruct s as [|k]; [done|]. cbn [get_screen pred] in *. rewrite Hscr.
    apply list_lookup_insert_eq. eapply lookup_lt_Some; eauto. }
  assert (Hso : forall s', s' <> s -> get_screen st' s' = get_screen st s').
  { intros s' Hne. destruct s' as [|k']; [done|]. destruct s as [|k]; [done|].
    cbn [get_screen pred] in *. rewrite Hscr. apply list_lookup_insert_ne. congruence. }
  assert (Hfr : frame st st').
  { eapply (frame_all order (length (store st) + 3)). apply Hrun. lia. }
  assert (Hw : forall r', weight st' r' = weight st r').
  { intros r'. apply weight_frame. exact Hfr. }
  assert (Hlists : forall q, plist (s_popups sc') q
                             = if decide (q = p) then delete i l else plist (s_popups sc) q).
  { intros q. unfold sc'. cbn [s_popups]. apply plist_set_plist. }
  assert (Hsub : forall q r', r' ∈ plist (s_popups sc') q -> r' ∈ plist (s_popups sc) q).
  { intros q r'. rewrite Hlists. destruct (decide (q = p)) as [->|]; [|done].
    intros H. apply (sublist_subseteq _ _ (sublist_delete l i)). exact H. }
  assert (Hpad : 0 <= pad).
  { destruct (l !! 0%nat) as [r0|] eqn:E0.
    - destruct (Hpop 0%nat r0 E0) as (n0 & Hn0 & F0).
      eapply outside_first_pad. exact (pf_inside _ _ _ _ _ _ _ _ F0).
    - apply lookup_ge_None in E0. apply lookup_lt_Some in Hi. fold l in Hi. lia. }
  assert (Hwpos : forall q r', r' ∈ plist (s_popups sc) q -> 0 <= weight st r').
  { intros q r' Hr'. apply list_elem_of_lookup in Hr' as [j Hj].
    destruct (Hall q) as [_ Hq]. destruct (Hq j r' Hj) as (n' & Hn' & F').
    unfold weight. rewrite Hn'. apply F'. }
  assert (Hr_gone : forall q, r ∉ plist (s_popups sc') q).
  { intros q Hin. rewrite Hlists in Hin. destruct (decide (q = p)) as [->|Hne].
    - apply list_elem_of_lookup in Hin as [j Hj].
      destruct (decide (j < i)%nat).
      + rewrite list_lookup_delete_lt in Hj by done.
        pose proof (NoDup_lookup l _ _ _ Hndp Hi Hj). lia.
      + rewrite list_lookup_delete_ge in Hj by lia.
        pose proof (NoDup_lookup l _ _ _ Hndp Hi Hj). lia.
    - apply list_elem_of_lookup in Hin as [j Hj].
      destruct (Hall q) as [_ Hq]. destruct (Hq j r Hj) as (n' & Hn' & F').
      assert (n' = n) as -> by congruence.
      apply Hne. rewrite <- (pf_position _ _ _ _ _ _ _ _ F'), (pf_position _ _ _ _ _ _ _ _ Fr).
      reflexivity. }
  assert (Hkept : forall q r', r' <> r -> r' ∈ plist (s_popups sc) q ->
                    r' ∈ plist (s_popups sc') q).
  { intros q r' Hne Hin. rewrite Hlists. destruct (decide (q = p)) as [->|]; [|done].
    apply list_elem_of_lookup in Hin as [j Hj]. fold l in Hj.
    destruct (decide (j < i)%nat).
    - apply (list_elem_of_lookup_2 _ j). rewrite list_lookup_delete_lt by done. done.
    - assert (j <> i) by (intros ->; unfold l in Hj; congruence).
      apply (list_elem_of_lookup_2 _ (pred j)). rewrite list_lookup_delete_ge by lia.
      replace (S (pred j)) with j by lia. done. }
  exists st'. split; [exact Hrun|]. split; [|split; [exact Hs'|split; [exact Hso|split]]].
  - (* settled on the screen of the popup *)
    apply (settled_intro st' s sc' pad Hs'); [rewrite Hcfg; exact Hp|].
    intros q. split.
    { rewrite Hlists. destruct (decide (q = p)) as [->|].
      - exact (sublist_NoDup _ _ Hndp (sublist_delete l i)).
      - apply Hall. }
    intros j r' Hj.
    assert (Hin : r' ∈ plist (s_popups sc) q).
    { apply Hsub. eapply list_elem_of_lookup_2; eauto. }
    apply list_elem_of_lookup in Hin as [j0 Hj0].
    destruct (Hall q) as [_ Hq]. destruct (Hq j0 r' Hj0) as (n' & Hn' & F').
    exists (place (slot st (s_workarea sc) q pad (plist (s_popups sc') q) j n') n').
    split; [apply Hlisted; assumption|].
    cbn [s_workarea sc'].
    assert (Hin' : outside (s_workarea sc)
                     (offset_y (s_workarea sc) q pad (n_height n')
                        (total st (take j (plist (s_popups sc') q)))) (n_height n') = false).
    { rewrite Hlists in Hj |- *. destruct (decide (q = p)) as [->|Hqp].
      - destruct (decide (j < i)%nat) as [Hlt|Hge].
        + rewrite list_lookup_delete_lt in Hj by done.
          destruct (Hpop j r' Hj) as (n2 & Hn2 & F2). assert (n2 = n') as -> by congruence.
          rewrite total_take_delete_lt by lia. apply F2.
        + rewrite list_lookup_delete_ge in Hj by lia.
          destruct (Hpop (S j) r' Hj) as (n2 & Hn2 & F2). assert (n2 = n') as -> by congruence.
          rewrite (total_take_delete_ge st l i j r Hi) by lia.
          eapply outside_mono; [exact Hpad| |apply F2].
          fold l.
          assert (0 <= weight st r) by (apply (Hwpos p); eapply list_elem_of_lookup_2; eauto).
          assert (0 <= total st (take j (delete i l))).
          { apply total_nonneg. intros x Hx. apply (Hwpos p).
            apply elem_of_take in Hx as (k & Hk & _).
            apply (sublist_subseteq _ _ (sublist_delete l i)).
            eapply list_elem_of_lookup_2; eauto. }
          rewrite (total_take_delete_ge st l i j r Hi) in * by lia. lia.
      - destruct (Hq j r' Hj) as (n2 & Hn2 & F2). assert (n2 = n') as -> by congruence.
        apply F2. }
    constructor; cbn [place slot n_screen n_position n_idx n_height box_y o_idx o_y];
      rewrite ?(total_ext st st') by exact Hw; rewrite ?Hcfg.
    + apply F'.
    + apply F'.
    + reflexivity.
    + exact Hin'.
    + reflexivity.
    + apply F'.
  - (* the other screens *)
    intros s' Hne Hset'.
    destruct (settled_spec st s' Hset') as (sc1 & pad1 & Hs1 & Hp1 & Hall1).
    apply (settled_intro st' s' sc1 pad1); [rewrite Hso by done; exact Hs1|congruence|].
    intros q. destruct (Hall1 q) as [Hnd1 Hq1]. split; [exact Hnd1|].
    intros j r' Hj. destruct (Hq1 j r' Hj) as (n' & Hn' & F').
    exists n'. split.
    + rewrite Hother; [exact Hn'| |].
      * intros ->. assert (n' = n) as -> by congruence.
        apply Hne. rewrite <- (pf_screen _ _ _ _ _ _ _ _ F'), (pf_screen _ _ _ _ _ _ _ _ Fr).
        reflexivity.
      * intros q' Hin. apply list_elem_of_lookup in Hin as [j' Hj'].
        destruct (Hall q') as [_ Hq']. destruct (Hq' j' r' Hj') as (n2 & Hn2 & F2).
        assert (n2 = n') as -> by congruence.
        apply Hne. rewrite <- (pf_screen _ _ _ _ _ _ _ _ F'), (pf_screen _ _ _ _ _ _ _ _ F2).
        reflexivity.
    + eapply popup_facts_ext; eauto.
  - split; [exact Hfr|]. split.
    { eexists. split; [exact Hr|reflexivity]. }
    split; [|exact Hlog].
    intros r' n' Hne Hn'.
    destruct (decide (Exists (fun q => r' ∈ plist (s_popups sc) q) positions)) as [Hex|Hnot].
    + apply Exists_exists in Hex as (q & _ & Hin).
      apply (Hkept q r' Hne) in Hin. apply list_elem_of_lookup in Hin as [j Hj].
      eexists. split; [apply (Hlisted q j r' n' Hj Hn')|reflexivity].
    + exists n'. split; [|reflexivity]. rewrite Hother; [exact Hn'|exact Hne|].
      intros q Hin. apply Hnot. apply Exists_exists. exists q. split; [apply in_positions|exact Hin].
Qed.

End KeepSettled.

Lemma set_plist_set_plist t p a b : set_plist (set_plist t p a) p b = set_plist t p b.
Proof. destruct p; reflexivity. Qed.

Lemma set_plist_same t p : set_plist t p (plist t p) = t.
Proof. destruct t, p; reflexivity. Qed.

Lemma eviction_calls_frame st st' l :
  frame st st' -> (forall r, r ∈ l -> is_Some (store st !! r)) ->
  eviction_calls st' l = eviction_calls st l.
Proof.
  intros F. induction l as [|r l IH]; intros Hl; [reflexivity|].
  cbn [eviction_calls flat_map]. fold (eviction_calls st' l). fold (eviction_calls st l).
  rewrite IH by (intros x Hx; apply Hl; set_solver).
  destruct (Hl r) as [n Hn]; [set_solver|].
  destruct (fr_store _ _ F _ _ Hn) as (n' & Hn' & S).
  rewrite Hn, Hn', (ss_destroy_cb _ _ S). reflexivity.
Qed.

Lemma cropped_fits_alone c wa a p pad :
  padding c = Some pad -> 0 <= pad ->
  outside wa (offset_y wa p pad (outer c a (popup_height c wa a)) 0)
    (outer c a (popup_height c wa a)) = false.
Proof.
  intros Hp Hpad. unfold outer, popup_height.
  set (b := default 0 (p_border_width (gathered c a))).
  destruct (crop_spec (computed_height (p_height (gathered c a)) (a_measured a))
              (ws_height wa) (p_border_width (gathered c a)) (padding c)) as [H1 H2].
  cbn zeta in H1, H2. fold b in H1, H2. rewrite Hp in H1, H2. cbn [default from_option id] in H1, H2.
  set (h := crop _ _ _ _) in *.
  assert (Hh : h <= ws_height wa - 2 * b - 2 * pad).
  { destruct (Z_gt_le_dec (computed_height (p_height (gathered c a)) (a_measured a))
                (ws_height wa - 2 * b - 2 * pad)) as [Hgt|Hle].
    - rewrite (H1 Hgt). lia.
    - rewrite (H2 Hle). lia. }
  rewrite Hp. fold h. unfold outside, offset_y.
  destruct (position_match p "top"); apply orb_false_iff; rewrite Z.gtb_ltb, !Z.ltb_ge; lia.
Qed.
Section Evict.
Variable order : list position.
Hypothesis order_nodup : NoDup order.
Hypothesis order_full : forall q, q ∈ order.

Lemma evicted_none st s p sc :
  settled st s = true -> get_screen st s = Some sc -> evicted st s p sc 0 st.
Proof.
  intros Hset Hs. constructor; try done.
  - rewrite drop_0, set_plist_same, Hs. destruct sc; reflexivity.
  - apply frame_refl.
  - intros r Hr. rewrite take_0 in Hr. set_solver.
  - intros r' n' _ Hn'. eauto.
  - rewrite take_0. cbn. rewrite app_nil_r. reflexivity.
Qed.

Lemma get_offset_evicts s p pad w h (m : nat) : forall st sc,
  length (plist (s_popups sc) p) = m ->
  settled st s = true -> get_screen st s = Some sc ->
  padding (cfg st) = Some pad -> 0 <= pad ->
  (forall r, r ∈ plist (s_popups sc) p ->
     exists n, store st !! r = Some n /\ box_visible n = true) ->
  outside (s_workarea sc) (offset_y (s_workarea sc) p pad h 0) h = false ->
  let l := plist (s_popups sc) p in
  let ws := s_workarea sc in
  exists k st',
    (k <= length l)%nat /\
    (forall fuel idx, (length (store st) + 4 + k <= fuel)%nat ->
       idx = None \/ idx = Some (Z.of_nat (length l) + 1) ->
       get_offset order fuel st s p idx (Some w) h
       = Done (st', Offset (offset_x ws p pad w)
                      (offset_y ws p pad h (total st (drop k l)))
                      (Z.of_nat (length l - k) + 1))) /\
    outside ws (offset_y ws p pad h (total st (drop k l))) h = false /\
    (forall k', (k' < k)%nat ->
       outside ws (offset_y ws p pad h (total st (drop k' l))) h = true) /\
    evicted st s p sc k st'.
Proof.
  induction m as [|m IH]; intros st sc Hm Hset Hs Hp Hpad Hvis Halone l ws.
  all: assert (El0 : plist (s_popups sc) p = l) by reflexivity.
  all: assert (Ews : s_workarea sc = ws) by reflexivity.
  all: clearbody l ws; rewrite El0 in Hm, Hvis; rewrite Ews in Halone.
  all: assert (Hstored : forall r, r ∈ l -> is_Some (store st !! r))
         by (intros r Hr; destruct (Hvis r Hr) as (n & Hn & _); eauto).
  all: assert (Hstep : forall f idx, idx = None \/ idx = Some (Z.of_nat (length l) + 1) ->
         get_offset order (S f) st s p idx (Some w) h =
         if outside ws (offset_y ws p pad h (total st l)) h then
           bind (destroy order f st (lua_index l 1) None) (fun d =>
             get_offset order f (fst d) s p (Some (Z.of_nat (length l) + 1 - 1)) (Some w) h)
         else Done (st, Offset (offset_x ws p pad w) (offset_y ws p pad h (total st l))
                          (Z.of_nat (length l) + 1))).
  1,3: (intros f idx Hidx; rewrite get_offset_S, Hs; cbn [non_nil bind]; cbn zeta;
        rewrite El0, Ews;
        replace (default (Z.of_nat (length l) + 1) idx) with (Z.of_nat (length l) + 1)
          by (destruct Hidx as [->| ->]; reflexivity);
        cbn [bind]; rewrite Hp; cbn [non_nil bind];
        rewrite (existing_height_total st l (length l)) by (auto; lia);
        cbn [bind]; rewrite firstn_all; reflexivity).
  all: destruct (outside ws (offset_y ws p pad h (total st l)) h) eqn:Hout.
  2,4: (exists 0%nat, st; split; [lia|]; rewrite drop_0, Nat.sub_0_r;
        split; [|split; [exact Hout|split; [intros k' Hk'; lia|
                 apply evicted_none; assumption]]];
        intros fuel idx Hfuel Hidx; destruct fuel as [|f]; [lia|];
        rewrite (Hstep f idx Hidx); reflexivity).
  - (* nothing to evict, yet no room *)
    exfalso. apply length_zero_iff_nil in Hm. rewrite Hm in Hout.
    cbn [total foldr] in Hout. congruence.
  - destruct l as [|r0 l1]; [discriminate|].
    assert (Hi0 : plist (s_popups sc) p !! 0%nat = Some r0) by (rewrite El0; reflexivity).
    destruct (Hvis r0) as (n0 & Hn0 & Hv0); [set_solver|].
    destruct (destroy_settled order order_nodup order_full st s p 0 r0 n0 None sc pad
                Hset Hs Hp Hi0 Hn0 Hv0)
      as (st1 & Hrun & Hset1 & Hs1 & Hso1 & Hseto1 & F1 & (n1 & Hn1 & Hh1) & Hvis1 & Hlog1).
    rewrite El0 in Hs1. cbn [delete list_delete] in Hs1.
    set (sc1 := Screen (s_workarea sc) (set_plist (s_popups sc) p l1)) in *.
    assert (Hl1 : plist (s_popups sc1) p = l1).
    { unfold sc1. cbn [s_popups]. rewrite plist_set_plist, decide_True by done. done. }
    assert (Hnd : NoDup (r0 :: l1)).
    { destruct (settled_spec st s Hset) as (sc0 & pad0 & Hs0 & _ & Hall).
      assert (sc0 = sc) as -> by congruence. rewrite <- El0. apply Hall. }
    apply NoDup_cons in Hnd as [Hr0 Hnd1].
    destruct (IH st1 sc1) as (k1 & st' & Hk1 & Hrun' & Hfit & Hmin & E1).
    { rewrite Hl1. cbn in Hm. lia. }
    { exact Hset1. }
    { exact Hs1. }
    { rewrite (fr_cfg _ _ F1). exact Hp. }
    { exact Hpad. }
    { rewrite Hl1. intros r Hr.
      destruct (Hvis r) as (n & Hn & Hv); [set_solver|].
      destruct (Hvis1 r n) as (n'' & Hn'' & Hv''); [intros ->; contradiction|exact Hn|].
      exists n''. split; [done|congruence]. }
    { unfold sc1. cbn [s_workarea]. rewrite Ews. exact Halone. }
    rewrite Hl1 in Hrun', Hfit, Hmin, Hk1. cbn [s_workarea sc1] in Hrun', Hfit, Hmin.
    rewrite Ews in Hrun', Hfit, Hmin.
    assert (Hw : forall x, total st1 x = total st x).
    { intros x. apply total_ext. intros r. apply weight_frame. exact F1. }
    rewrite Hw in Hfit.
    exists (S k1), st'. split; [cbn [length]; lia|]. cbn [drop].
    split; [|split; [exact Hfit|split]].
    + intros fuel idx Hfuel Hidx. destruct fuel as [|f]; [lia|].
      rewrite (Hstep f idx Hidx).
      replace (lua_index (r0 :: l1) 1) with (Some r0) by reflexivity.
      rewrite (Hrun f) by lia. cbn [bind fst].
      rewrite (Hrun' f (Some (Z.of_nat (length (r0 :: l1)) + 1 - 1))).
      * rewrite Hw. cbn [length]. replace (S (length l1) - S k1)%nat with (length l1 - k1)%nat by lia.
        reflexivity.
      * rewrite (fr_length _ _ F1). lia.
      * right. f_equal. cbn [length]. lia.
    + intros k' Hk'. destruct k' as [|k'']; [rewrite drop_0; exact Hout|].
      cbn [drop]. rewrite <- Hw. apply Hmin. lia.
    + destruct E1 as [A1 A2 A3 A4 A5 A6 A7 A8]. rewrite Hl1 in A2, A6, A7, A8.
      constructor; rewrite ?El0.
      * exact A1.
      * rewrite A2. unfold sc1. cbn [s_workarea s_popups]. rewrite set_plist_set_plist.
        reflexivity.
      * intros s' Hne. rewrite A3 by done. apply Hso1. done.
      * intros s' Hne Hs'. apply A4; [done|]. apply Hseto1; done.
      * eapply frame_trans; eauto.
      * cbn [take]. intros r Hr. apply elem_of_cons in Hr as [->|Hr].
        -- destruct (fr_store _ _ A5 _ _ Hn1) as (n2 & Hn2 & S2).
           exists n2. split; [done|]. apply (ss_hidden _ _ S2). exact Hh1.
        -- apply A6. exact Hr.
      * cbn [take]. intros r' n' Hnot Hn'.
        destruct (Hvis1 r' n') as (n'' & Hn'' & Hv''); [set_solver|exact Hn'|].
        destruct (A7 r' n'') as (n3 & Hn3 & Hv3); [set_solver|exact Hn''|].
        exists n3. split; [done|congruence].
      * cbn [take]. rewrite A8, Hlog1.
        rewrite (eviction_calls_frame st st1) by
          (try exact F1; intros x Hx; apply Hstored;
           apply elem_of_cons; right; apply elem_of_take in Hx as (j & Hj & _);
           eapply list_elem_of_lookup_2; eauto).
        cbn [eviction_calls flat_map]. rewrite Hn0. unfold called_back.
        rewrite bool_decide_eq_false_2 by discriminate. rewrite andb_true_r, <- app_assoc.
        reflexivity.
Qed.

End Evict.

Lemma total_ext_in st st' l :
  (forall r, r ∈ l -> weight st' r = weight st r) -> total st' l = total st l.
Proof.
  induction l as [|r l IH]; intros H; [reflexivity|]. cbn [total foldr].
  fold (total st' l). fold (total st l). rewrite IH, (H r) by set_solver. reflexivity.
Qed.

Lemma popup_facts_total st st' s ws pad q l l' j n :
  cfg st' = cfg st -> total st' (take j l') = total st (take j l) ->
  popup_facts st s ws pad q l j n -> popup_facts st' s ws pad q l' j n.
Proof.
  intros Hc Ht [H1 H2 H3 H4 H5 H6]. constructor; rewrite ?Ht, ?Hc; assumption.
Qed.

Section Room.
Variable order : list position.
Hypothesis order_nodup : NoDup order.
Hypothesis order_full : forall q, q ∈ order.

Lemma notify_room st a a' :
  effective_args (cfg st) a = Some a' ->
  a_replaces_id a' = None ->
  welcomes st a' = true ->
  exists s p l k st' r n,
    p_screen (gathered (cfg st) a') = Some s /\
    p_position (gathered (cfg st) a') = Some p /\
    get_list st s p = Some l /\
    (k <= length l)%nat /\
    (forall fuel, (length (store st) + 4 + k <= fuel)%nat ->
       notify order fuel st a = Done (st', Some r)) /\
    get_list st' s p = Some (drop k l ++ [r]) /\
    (forall q, q <> p -> get_list st' s q = get_list st s q) /\
    settled st' s = true /\
    store st' !! r = Some n /\
    n_idx n = Z.of_nat (length l - k) + 1 /\
    no_room st s p (n_height n) (total st (drop k l)) = false /\
    (forall k', (k' < k)%nat ->
       no_room st s p (n_height n) (total st (drop k' l)) = true) /\
    (forall r0, r0 ∈ take k l -> shown st' r0 = false) /\
    cb_log st' = cb_log st ++ eviction_calls st (take k l).
Proof.
  intros Ha Hrid Hw. unfold welcomes in Hw. cbn zeta in Hw.
  destruct (p_timeout (gathered (cfg st) a')) as [t|] eqn:Ht; [|done].
  destruct (p_screen (gathered (cfg st) a')) as [s|] eqn:Hst; [|done].
  destruct (p_position (gathered (cfg st) a')) as [p|] eqn:Hpt; [|done].
  apply andb_prop in Hw as [Hset Hw].
  destruct (settled_spec _ _ Hset) as (sc & pad & Hsc & Hpad & Hall).
  rewrite Hsc, Hpad in Hw.
  apply andb_prop in Hw as [Hw Hshown]. apply andb_prop in Hw as [Hpad0 Hroom].
  apply Z.leb_le in Hpad0. apply Z.leb_le in Hroom.
  set (ws := s_workarea sc) in *.
  set (l := plist (s_popups sc) p) in *.
  set (wd := popup_width (cfg st) ws a') in *.
  set (ht := popup_height (cfg st) ws a') in *.
  set (n_w := outer (cfg st) a' wd) in *.
  set (n_h := outer (cfg st) a' ht) in *.
  set (st1 := set_counter st (counter st + 1)).
  assert (Hset1 : settled st1 s = true) by exact Hset.
  assert (Hsc1 : get_screen st1 s = Some sc) by (destruct s; exact Hsc).
  assert (Hvis : forall r, r ∈ l -> exists n, store st1 !! r = Some n /\ box_visible n = true).
  { intros r Hr. rewrite forallb_forall in Hshown.
    apply list_elem_of_In, Hshown in Hr. unfold shown in Hr.
    destruct (store st !! r) as [n|] eqn:E; [|discriminate]. eauto. }
  destruct (get_offset_evicts order order_nodup order_full s p pad n_w n_h (length l) st1 sc
              eq_refl Hset1 Hsc1 Hpad Hpad0 Hvis)
    as (k & st2 & Hk & Hrun & Hfit & Hmin & E).
  { unfold n_h, ht. apply cropped_fits_alone; assumption. }
  fold l in Hrun, Hfit, Hmin, Hk. fold ws in Hrun, Hfit, Hmin.
  destruct E as [E1 E2 E3 E4 E5 E6 E7 E8]. fold l in E2, E6, E7, E8. fold ws in E2.
  set (l2 := drop k l) in *.
  set (sc2 := Screen ws (set_plist (s_popups sc) p l2)) in *.
  set (r := length (store st2)).
  set (off := Offset (offset_x ws p pad n_w) (offset_y ws p pad n_h (total st1 l2))
                (Z.of_nat (length l - k) + 1)) in *.
  set (n := set_timeout (suspended st1) t
              {| n_screen := s; n_destroy_cb := a_destroy a'; n_timeout := t;
                 n_id := counter st + 1; n_position := p; n_timer := None;
                 n_height := n_h; n_width := n_w; n_idx := o_idx off;
                 box_visible := negb (suspended st2);
                 box_x := o_x off; box_y := o_y off;
                 box_width := wd; box_height := ht |}).
  set (stA := set_store st2 (store st2 ++ [n])).
  set (stB := set_list stA s p (l2 ++ [r])).
  set (st' := if suspended stB then set_susp stB (susp stB ++ [r]) else stB).
  assert (HscA : get_screen stA s = Some sc2) by (destruct s; exact E2).
  assert (HlA : get_list stA s p = Some l2).
  { unfold get_list. rewrite HscA. unfold sc2. cbn [s_popups].
    rewrite plist_set_plist, decide_True by done. reflexivity. }
  assert (Hrun_notify : forall fuel, (length (store st) + 4 + k <= fuel)%nat ->
            notify order fuel st a = Done (st', Some r)).
  { intros fuel Hfuel. unfold notify. rewrite Ha. cbn zeta. rewrite Hrid.
    cbn [assign_id bind fst snd]. fold st1.
    change (cfg st1) with (cfg st). rewrite Ht, Hst, Hpt. cbn [non_nil bind].
    rewrite Hsc1. cbn [non_nil bind]. fold ws. fold wd. fold ht. fold n_w. fold n_h.
    rewrite (Hrun fuel None) by (try (left; reflexivity); exact Hfuel).
    cbn [bind fst snd]. fold off. fold r. fold n. fold stA.
    unfold append_popup. rewrite HlA. cbn [non_nil bind]. fold stB. reflexivity. }
  assert (Hst' : store st' = store st2 ++ [n] /\ cfg st' = cfg st /\ cb_log st' = cb_log st2 /\
                 forall s0, get_screen st' s0 = get_screen stB s0).
  { unfold st'. destruct (suspended stB).
    - split; [apply (store_set_list stA)|]. split; [|split].
      + cbn [cfg set_susp]. unfold stB. rewrite cfg_set_list. apply (fr_cfg _ _ E5).
      + cbn [cb_log set_susp]. apply (set_list_fields stA s p (l2 ++ [r])).
      + intros [|s0]; reflexivity.
    - split; [apply (store_set_list stA)|]. split; [|split].
      + unfold stB. rewrite cfg_set_list. apply (fr_cfg _ _ E5).
      + apply (set_list_fields stA s p (l2 ++ [r])).
      + reflexivity. }
  destruct Hst' as (Hstore' & Hcfg' & Hlog' & Hscr').
  set (sc3 := Screen ws (set_plist (s_popups sc2) p (l2 ++ [r]))).
  assert (Hsc' : get_screen st' s = Some sc3).
  { rewrite Hscr'. unfold stB. apply (get_screen_set_list stA s p (l2 ++ [r]) sc2 HscA). }
  assert (Hl3 : forall q, plist (s_popups sc3) q
                          = if decide (q = p) then l2 ++ [r] else plist (s_popups sc) q).
  { intros q. unfold sc3, sc2. cbn [s_popups]. rewrite !plist_set_plist.
    destruct (decide (q = p)); reflexivity. }
  assert (Hl2 : forall q, plist (s_popups sc2) q
                          = if decide (q = p) then l2 else plist (s_popups sc) q).
  { intros q. unfold sc2. cbn [s_popups]. apply plist_set_plist. }
  assert (Hlists' : forall q, get_list st' s q = Some (plist (s_popups sc3) q)).
  { intros q. unfold get_list. rewrite Hsc'. reflexivity. }
  destruct (settled_spec _ _ E1) as (sc2' & pad2 & Hsc2' & Hpad2 & Hall2).
  assert (sc2' = sc2) as -> by congruence.
  assert (pad2 = pad) as -> by (rewrite (fr_cfg _ _ E5) in Hpad2; cbn in Hpad2; congruence).
  assert (Hlt : forall q j r', plist (s_popups sc2) q !! j = Some r' ->
                  (r' < length (store st2))%nat).
  { intros q j r' Hj. destruct (Hall2 q) as [_ Hq]. destruct (Hq j r' Hj) as (n' & Hn' & _).
    eapply lookup_lt_Some; eauto. }
  assert (Hwt : forall r', (r' < length (store st2))%nat -> weight st' r' = weight st2 r').
  { intros r' Hr'. unfold weight. rewrite Hstore', lookup_app_l by exact Hr'.
    rewrite Hcfg', (fr_cfg _ _ E5). reflexivity. }
  assert (Hn_fields := set_timeout_fields (suspended st1) t
            {| n_screen := s; n_destroy_cb := a_destroy a'; n_timeout := t;
               n_id := counter st + 1; n_position := p; n_timer := None;
               n_height := n_h; n_width := n_w; n_idx := o_idx off;
               box_visible := negb (suspended st2);
               box_x := o_x off; box_y := o_y off;
               box_width := wd; box_height := ht |}).
  fold n in Hn_fields. cbn [n_screen n_destroy_cb n_timeout n_id n_position n_height n_width
                            n_idx box_visible box_x box_y box_width box_height n_timer]
    in Hn_fields.
  destruct Hn_fields as (Fs & _ & _ & _ & Fp & Fh & _ & Fi & _ & _ & Fy & _).
  assert (Hnr : store st' !! r = Some n).
  { rewrite Hstore'. unfold r. rewrite lookup_app_r, Nat.sub_diag by lia. reflexivity. }
  assert (Hw12 : forall x, total st2 x = total st x).
  { intros x. rewrite (total_ext st1 st2) by (intros; apply weight_frame; exact E5).
    reflexivity. }
  exists s, p, l, k, st', r, n.
  split; [reflexivity|]. split; [reflexivity|].
  split; [unfold get_list; rewrite Hsc; reflexivity|].
  split; [exact Hk|]. split; [exact Hrun_notify|].
  split; [rewrite Hlists', Hl3, decide_True by done; reflexivity|].
  split.
  { intros q Hq. rewrite Hlists', Hl3, decide_False by done.
    unfold get_list. rewrite Hsc. reflexivity. }
  split.
  { apply (settled_intro st' s sc3 pad Hsc'); [rewrite Hcfg'; exact Hpad|].
    intros q. split.
    - rewrite Hl3. destruct (decide (q = p)) as [->|Hq].
      + apply NoDup_app. split; [|split].
        * destruct (Hall2 p) as [Hnd _]. rewrite Hl2, decide_True in Hnd by done. exact Hnd.
        * intros x Hx Hx'. apply list_elem_of_singleton in Hx'. subst x.
          apply list_elem_of_lookup in Hx as [j Hj].
          assert (r < length (store st2))%nat; [|unfold r in *; lia].
          apply (Hlt p j). rewrite Hl2, decide_True by done. exact Hj.
        * apply NoDup_singleton.
      + destruct (Hall2 q) as [Hnd _]. rewrite Hl2, decide_False in Hnd by done. exact Hnd.
    - intros j r' Hj. cbn [s_workarea sc3].
      destruct (decide (q = p /\ j = length l2)) as [[-> ->]|Hold].
      + (* the new popup *)
        rewrite Hl3, decide_True in Hj by done.
        rewrite lookup_app_r, Nat.sub_diag in Hj by lia. inversion Hj; subst r'.
        exists n. split; [exact Hnr|].
        assert (Ht3 : total st' (take (length l2) (plist (s_popups sc3) p)) = total st l2).
        { rewrite Hl3, decide_True by done. rewrite take_app_length.
          rewrite (total_ext_in st2 st'), Hw12; [reflexivity|].
          intros x Hx. apply list_elem_of_lookup in Hx as [j' Hj']. apply Hwt.
          apply (Hlt p j'). rewrite Hl2, decide_True by done. exact Hj'. }
        constructor; rewrite ?Ht3, ?Fs, ?Fp, ?Fi, ?Fh, ?Fy, ?Hcfg'; cbn [o_idx o_y off]; try reflexivity.
        * unfold l2. rewrite length_drop. reflexivity.
        * exact Hfit.
        * exact Hroom.
      + (* the popups that stay *)
        assert (Hj2 : plist (s_popups sc2) q !! j = Some r').
        { rewrite Hl3 in Hj. rewrite Hl2. destruct (decide (q = p)) as [->|]; [|exact Hj].
          apply lookup_app_Some in Hj as [Hj|[Hge Hj]]; [exact Hj|].
          exfalso. apply Hold. split; [done|].
          apply lookup_lt_Some in Hj. cbn in Hj. lia. }
        destruct (Hall2 q) as [_ Hq]. destruct (Hq j r' Hj2) as (n' & Hn' & F').
        exists n'. split.
        { rewrite Hstore'. apply lookup_app_l_Some. exact Hn'. }
        eapply popup_facts_total; [| |exact F'].
        * rewrite Hcfg', (fr_cfg _ _ E5). reflexivity.
        * assert (Etake : take j (plist (s_popups sc3) q) = take j (plist (s_popups sc2) q)).
          { rewrite Hl3, Hl2. destruct (decide (q = p)) as [->|]; [|reflexivity].
            rewrite Hl2, decide_True in Hj2 by done. apply lookup_lt_Some in Hj2.
            rewrite take_app_le by lia. reflexivity. }
          rewrite Etake. apply total_ext_in. intros x Hx.
          apply elem_of_take in Hx as (j' & Hj' & _). apply Hwt. eapply Hlt; eauto. }
  split; [exact Hnr|]. split; [rewrite Fi; reflexivity|].
  split.
  { unfold no_room. rewrite Hsc, Hpad, Fh. exact Hfit. }
  split.
  { intros k' Hk'. unfold no_room. rewrite Hsc, Hpad, Fh. apply Hmin. exact Hk'. }
  split.
  { intros r0 Hr0. destruct (E6 r0 Hr0) as (n1 & Hn1 & Hh1). unfold shown.
    rewrite Hstore', (lookup_app_l_Some _ _ _ _ Hn1). exact Hh1. }
  rewrite Hlog', E8. reflexivity.
Qed.

End Room.

(** X11: destroying a visible popup that is listed on a settled screen
    always returns (any budget of at least the number of notifications
    plus three suffices), takes the popup out of its list and hides it,
    changes the visibility of no other popup, and leaves every settled
    screen settled: all remaining popups are again distinct, inside the
    work area, at the place [get_offset] computes, with the right
    index. *)
Theorem destroy_keeps_settled (order : list position) (st : state) (s : nat)
    (p : position) (l : list ref) (i : nat) (r : ref) (n : notification)
    (reason : option Z) :
  visits_each_once order = true ->
  settled st s = true ->
  get_list st s p = Some l ->
  l !! i = Some r ->
  store st !! r = Some n ->
  box_visible n = true ->
  exists st',
    (forall fuel, (length (store st) + 3 <= fuel)%nat ->
       destroy order fuel st (Some r) reason = Done (st', true)) /\
    (forall s', settled st s' = true -> settled st' s' = true) /\
    get_list st' s p = Some (delete i l) /\
    shown st' r = false /\
    (forall r', r' <> r -> shown st' r' = shown st r').
Proof.
  intros Hord Hset Hl Hi Hn Hv.
  apply visits_each_once_spec in Hord as [Hnd Hfull].
  apply get_list_Some in Hl as (sc & Hsc & ->).
  destruct (settled_spec _ _ Hset) as (sc0 & pad & Hsc0 & Hpad & _).
  assert (sc0 = sc) as -> by congruence.
  destruct (destroy_settled order Hnd Hfull st s p i r n reason sc pad Hset Hsc Hpad Hi Hn Hv)
    as (st' & Hrun & Hset' & Hsc' & _ & Hothers & F & (n1 & Hn1 & Hh1) & Hvis & _).
  exists st'. split; [exact Hrun|]. split; [|split; [|split]].
  - intros s' Hs'. destruct (decide (s' = s)) as [->|Hne]; [exact Hset'|].
    apply Hothers; assumption.
  - unfold get_list. rewrite Hsc'. cbn [s_popups].
    rewrite plist_set_plist, decide_True by done. reflexivity.
  - unfold shown. rewrite Hn1. exact Hh1.
  - intros r' Hne. unfold shown. destruct (store st !! r') as [n'|] eqn:E.
    + destruct (Hvis r' n' Hne E) as (n'' & -> & ->). reflexivity.
    + destruct (store st' !! r') as [n''|] eqn:E'; [|reflexivity].
      apply lookup_lt_Some in E'. rewrite (fr_length _ _ F) in E'.
      apply lookup_ge_None in E. lia.
Qed.

(** Destroying the first popup at the bottom left of the sample state. *)
Lemma destroy_keeps_settled_witness :
  exists st',
    destroy positions 7 sample_state (Some 2%nat) (Some reason_expired) = Done (st', true) /\
    settled st' 1 = true /\
    get_list st' 1 bottom_left = Some [3%nat] /\
    shown st' 2 = false /\ shown st' 3 = true.
Proof.
  destruct (destroy_keeps_settled positions sample_state 1 bottom_left [2; 3]%nat 0 2
              (Notification 1 true 5 4 bottom_left (Some (Timer 5 true)) 32 62 1
                 true 4 164 60 30) (Some reason_expired))
    as (st' & Hrun & Hset & Hl & Hh & Hv); try reflexivity.
  exists st'. split; [apply Hrun; vm_compute; lia|]. split; [apply Hset; reflexivity|].
  split; [exact Hl|]. split; [exact Hh|]. rewrite Hv by lia. reflexivity.
Defined.

(** X12: [notify] makes room by evicting the oldest popups.  The
    premises: the iteration over the positions visits each of them once;
    the notify callback, if any, lets the call through; the arguments
    carry no [replaces_id]; a timeout, a screen and a position are
    determined (by argument, preset or default); that screen is settled
    and its popups at that position are all visible; the padding is not
    negative; and the height of the new popup plus the spacing is not
    negative.  Then the call always returns: it destroys
    the [k] oldest popups of that position, where [k] is the least number
    for which the new popup fits behind the remaining ones (the crop
    makes it fit once the list is empty), appends the new popup at the
    end with index [#l - k + 1], leaves the other positions alone and
    the screen settled, hides the evicted popups and calls their destroy
    callbacks, oldest first, with the reason [undefined]. *)
Theorem notify_makes_room (order : list position) (st : state) (a a' : args)
    (t : Z) (s : nat) (p : position) (sc : screen) (pad : Z) :
  visits_each_once order = true ->
  effective_args (cfg st) a = Some a' ->
  a_replaces_id a' = None ->
  p_timeout (gathered (cfg st) a') = Some t ->
  p_screen (gathered (cfg st) a') = Some s ->
  p_position (gathered (cfg st) a') = Some p ->
  settled st s = true ->
  get_screen st s = Some sc ->
  let l := plist (s_popups sc) p in
  forallb (shown st) l = true ->
  padding (cfg st) = Some pad ->
  0 <= pad ->
  0 <= outer (cfg st) a' (popup_height (cfg st) (s_workarea sc) a') + spacing (cfg st) ->
  exists k st' r n,
    get_list st s p = Some l /\
    (k <= length l)%nat /\
    (forall fuel, (length (store st) + 4 + k <= fuel)%nat ->
       notify order fuel st a = Done (st', Some r)) /\
    get_list st' s p = Some (drop k l ++ [r]) /\
    (forall q, q <> p -> get_list st' s q = get_list st s q) /\
    settled st' s = true /\
    store st' !! r = Some n /\
    n_idx n = Z.of_nat (length l - k) + 1 /\
    no_room st s p (n_height n) (total st (drop k l)) = false /\
    (forall k', (k' < k)%nat ->
       no_room st s p (n_height n) (total st (drop k' l)) = true) /\
    (forall r0, r0 ∈ take k l -> shown st' r0 = false) /\
    cb_log st' = cb_log st ++ eviction_calls st (take k l).
Proof.
  intros Hord Ha Hrid Ht Hs Hp Hset Hsc l Hshown Hpad Hpad0 Hroom.
  apply visits_each_once_spec in Hord as [Hnd Hfull].
  assert (Hw : welcomes st a' = true).
  { unfold welcomes. cbn zeta. rewrite Ht, Hs, Hp, Hset, Hsc, Hpad.
    apply Z.leb_le in Hpad0. apply Z.leb_le in Hroom. rewrite Hpad0, Hroom. exact Hshown. }
  destruct (notify_room order Hnd Hfull st a a' Ha Hrid Hw)
    as (s0 & p0 & l0 & k & st' & r & n & Hs0 & Hp0 & Hl0 & H).
  assert (s0 = s) as -> by congruence. assert (p0 = p) as -> by congruence.
  assert (l0 = l) as ->.
  { unfold get_list in Hl0. rewrite Hsc in Hl0. inversion Hl0. reflexivity. }
  exists k, st', r, n. split; [exact Hl0|exact H].
Qed.

(** A third popup of height 32 on a work area of height 100 evicts the
    first one. *)
Lemma notify_makes_room_witness :
  exists st' r,
    notify positions 7 crowded_state sample_args = Done (st', Some r) /\
    get_list crowded_state 1 top_right = Some [0; 1]%nat /\
    get_list st' 1 top_right = Some [1%nat; r] /\
    settled st' 1 = true /\
    shown st' 0 = false /\
    cb_log st' = [(0%nat, reason_undefined)].
Proof.
  destruct (notify_makes_room positions crowded_state sample_args sample_args 5 1 top_right
              (Screen sample_workarea (Popups [] [] [0; 1]%nat [] [] [])) 4)
    as (k & st' & r & n & _ & Hk & Hrun & Hl' & _ & Hset & _ & _ & _ & _ & _ & _);
    [reflexivity|reflexivity|reflexivity|reflexivity|reflexivity|reflexivity|reflexivity
    |reflexivity|reflexivity|reflexivity|lia|vm_compute; discriminate|].
  assert (Hrun7 : notify positions 7 crowded_state sample_args = Done (st', Some r)).
  { destruct k as [|[|[|k]]].
    - assert (E : notify positions 6 crowded_state sample_args
                  = notify positions 7 crowded_state sample_args) by (vm_compute; reflexivity).
      rewrite <- E. apply Hrun. vm_compute. lia.
    - apply Hrun. vm_compute. lia.
    - assert (E : notify positions 8 crowded_state sample_args
                  = notify positions 7 crowded_state sample_args) by (vm_compute; reflexivity).
      rewrite <- E. apply Hrun. vm_compute. lia.
    - cbn in Hk. lia. }
  exists st', r. split; [exact Hrun7|]. split; [reflexivity|].
  split; [|split; [exact Hset|]].
  - vm_compute in Hrun7. inversion Hrun7. reflexivity.
  - vm_compute in Hrun7. inversion Hrun7. split; reflexivity.
Defined.

(** ** Timeouts, and what [notify] leaves alone *)

Section NotifyFacts.
Variable order : list position.

(** X13: where the new notification gets its timeout, screen and
    position from: the argument if given, else the preset passed in the
    arguments (or the [normal] preset when none is passed), else the
    defaults.  A timer is installed exactly when the timeout is positive;
    it has the timeout as duration and runs unless notifications are
    suspended. *)
Theorem notify_timeout_precedence (fuel : nat) (st st' : state) (a : args) (r : ref) :
  notify order fuel st a = Done (st', Some r) ->
  exists a' n,
    effective_args (cfg st) a = Some a' /\
    store st' !! r = Some n /\
    let preset := default (default empty_preset (presets_normal (cfg st))) (a_preset a') in
    let defs := default empty_preset (defaults (cfg st)) in
    Some (n_timeout n) = lua_or (a_timeout a') (lua_or (p_timeout preset) (p_timeout defs)) /\
    Some (n_screen n) = lua_or (a_screen a') (lua_or (p_screen preset) (p_screen defs)) /\
    Some (n_position n)
    = lua_or (a_position a') (lua_or (p_position preset) (p_position defs)) /\
    n_timer n = (if 0 <? n_timeout n
                 then Some (Timer (n_timeout n) (negb (suspended st)))
                 else None).
Proof.
  intros H.
  destruct (notify_done order _ _ _ _ _ H)
    as [(_ & _ & ?)|(a' & r' & st1 & st2 & n & off & sc & l & Ha & Hr & N)]; [discriminate|].
  inversion Hr; subst r'; clear Hr. notified_fields N.
  exists a', n. split; [exact Ha|]. split.
  { rewrite Nstore, Nref, lookup_app_r, Nat.sub_diag by lia. reflexivity. }
  cbn zeta.
  split; [rewrite <- (nd_timeout _ _ _ _ _ _ _ _ _ _ _ _ N); reflexivity|].
  split; [rewrite <- (nd_screen _ _ _ _ _ _ _ _ _ _ _ _ N); reflexivity|].
  split; [rewrite <- (nd_position _ _ _ _ _ _ _ _ _ _ _ _ N); reflexivity|].
  rewrite (nd_timer _ _ _ _ _ _ _ _ _ _ _ _ N).
  destruct (assign_id_store _ _ _ _ _ _ Nassign) as (st0 & F0 & _ & _ & _ & Es & _).
  rewrite Es, (fr_suspended _ _ F0). reflexivity.
Qed.

(** X14: what [notify] never changes: the configuration, the suspended
    flag, the global [timeout], the work areas, and of every notification
    made before its id, screen, position, sizes, callback and timeout; a
    hidden popup stays hidden; a list gains at most the new notification;
    and the store grows by exactly the notification returned. *)
Theorem notify_preserves (fuel : nat) (st st' : state) (a : args) (res : option ref) :
  notify order fuel st a = Done (st', res) ->
  cfg st' = cfg st /\ suspended st' = suspended st /\ g_timeout st' = g_timeout st /\
  (forall s, s_workarea <$> get_screen st' s = s_workarea <$> get_screen st s) /\
  (forall r n, store st !! r = Some n ->
     exists n', store st' !! r = Some n' /\ same_static n n') /\
  (forall s p l, get_list st s p = Some l ->
     exists l', get_list st' s p = Some l' /\
       forall x, x ∈ l' -> x ∈ l \/ res = Some x) /\
  length (store st') = (length (store st) + length (option_list res))%nat.
Proof.
  intros H.
  destruct (notify_done order _ _ _ _ _ H)
    as [(_ & -> & ->)|(a' & r & st1 & st2 & n & off & sc & l & Ha & -> & N)].
  { do 4 (split; [reflexivity|]). split; [intros r n Hn; exists n; split;
                                           [exact Hn|apply same_static_refl]|].
    split; [|cbn; lia]. intros s p l Hl. exists l. split; [exact Hl|]. auto. }
  notified_fields N.
  pose proof (proj1 (frame_all order fuel) _ _ _ _ _ _ _ _ Noffset) as F2.
  destruct (assign_id_done _ _ _ _ _ _ Nassign) as (st0 & H0 & H1).
  assert (F0 : frame st st0).
  { destruct H0 as [->|(x & old & b & _ & _ & Hdes)]; [apply frame_refl|].
    eapply (frame_all order fuel); eauto. }
  assert (E1 : cfg st1 = cfg st0 /\ suspended st1 = suspended st0 /\
               g_timeout st1 = g_timeout st0 /\ store st1 = store st0 /\
               (forall s, get_screen st1 s = get_screen st0 s)).
  { destruct H1 as [(-> & _)|(-> & _)]; repeat split; try reflexivity; intros [|s]; reflexivity. }
  destruct E1 as (C1 & S1 & G1 & T1 & Sc1).
  split; [rewrite (nd_cfg _ _ _ _ _ _ _ _ _ _ _ _ N), (fr_cfg _ _ F2), C1; apply F0|].
  split; [rewrite Nsuspended, (fr_suspended _ _ F2), S1; apply F0|].
  split; [rewrite (nd_g_timeout _ _ _ _ _ _ _ _ _ _ _ _ N), (fr_g_timeout _ _ F2), G1; apply F0|].
  split.
  { intros s. rewrite (nd_workarea _ _ _ _ _ _ _ _ _ _ _ _ N), (fr_workarea _ _ F2), Sc1.
    apply F0. }
  split.
  { intros r0 n0 Hn0. destruct (fr_store _ _ F0 _ _ Hn0) as (m0 & Hm0 & Sm0).
    rewrite <- T1 in Hm0. destruct (fr_store _ _ F2 _ _ Hm0) as (m2 & Hm2 & Sm2).
    exists m2. split; [rewrite Nstore; apply lookup_app_l_Some; exact Hm2|].
    eapply same_static_trans; eauto. }
  split.
  { intros s p l0 Hl0. destruct (fr_lists _ _ F0 _ _ _ Hl0) as (l1 & Hl1 & Sub1).
    assert (Hl1' : get_list st1 s p = Some l1).
    { unfold get_list in *. rewrite Sc1. exact Hl1. }
    destruct (fr_lists _ _ F2 _ _ _ Hl1') as (l2 & Hl2 & Sub2).
    rewrite (nd_lists _ _ _ _ _ _ _ _ _ _ _ _ N).
    destruct (decide _) as [[-> ->]|_].
    - exists (l ++ [r]). split; [reflexivity|]. intros x Hx.
      rewrite (nd_list _ _ _ _ _ _ _ _ _ _ _ _ N) in Hl2. inversion Hl2; subst l2.
      apply elem_of_app in Hx as [Hx|Hx].
      + left. eapply sublist_subseteq; [exact Sub1|]. eapply sublist_subseteq; eauto.
      + right. apply list_elem_of_singleton in Hx. subst. reflexivity.
    - exists l2. split; [exact Hl2|]. intros x Hx. left.
      eapply sublist_subseteq; [exact Sub1|]. eapply sublist_subseteq; eauto. }
  rewrite Nstore, length_app, (fr_length _ _ F2), T1, (fr_length _ _ F0). reflexivity.
Qed.

(** X15: popups that are too tall.  Let no stored notification have a
    negative height plus spacing.  When a popup of height [h] does not
    fit between the padding and the far edge of the work area even with
    nothing before it (the height of the work area is less than the
    padding plus [h]), [get_offset] never returns a result for it,
    however large the budget; and when this holds for the height of
    every stored notification (as after the work area has shrunk) and
    some list of the screen that the iteration visits is not empty,
    [arrange] never returns either. *)
Theorem too_tall_never_returns (fuel : nat) (st : state) (s : nat)
    (sc : screen) (pad : Z) :
  (forall r n, store st !! r = Some n -> 0 <= n_height n + spacing (cfg st)) ->
  get_screen st s = Some sc ->
  padding (cfg st) = Some pad ->
  (forall p idx w h,
     ws_height (s_workarea sc) < pad + h ->
     returned (get_offset order fuel st s p idx w h) = false) /\
  (forall q r l,
     (forall r' n', store st !! r' = Some n' ->
        ws_height (s_workarea sc) < pad + n_height n') ->
     q ∈ order -> get_list st s q = Some (r :: l) ->
     returned (arrange order fuel st s) = false).
Proof.
  intros Hw Hs Hp.
  assert (Ht : forall h, ws_height (s_workarea sc) < pad + h -> too_tall st s h).
  { intros h Hh. constructor; [|exact Hw]. exists sc, pad. done. }
  split.
  - intros p idx w h Hh.
    destruct (get_offset order fuel st s p idx w h) as [res| |] eqn:E; try reflexivity.
    exfalso. exact (get_offset_stuck order fuel st s p idx w h res (Ht h Hh) E).
  - intros q r l Hall Hq Hl.
    destruct (arrange order fuel st s) as [st'| |] eqn:E; try reflexivity.
    assert (Hall' : forall r' n', store st !! r' = Some n' -> too_tall st s (n_height n')).
    { intros r' n' Hn'. apply Ht. eapply Hall. exact Hn'. }
    pose proof (arrange_stuck order fuel st s st' Hall' E q Hq) as Hnil. congruence.
Qed.

End NotifyFacts.

(** A notification with timeout 0 never expires. *)
Lemma notify_timeout_precedence_witness :
  exists st' r n,
    notify positions 1 (init [sample_workarea]) forever_args = Done (st', Some r) /\
    store st' !! r = Some n /\
    n_timeout n = 0 /\ n_timer n = None /\ n_position n = top_right.
Proof.
  destruct (notify positions 1 (init [sample_workarea]) forever_args)
    as [[st' [r|]]| |] eqn:Hrun; try (vm_compute in Hrun; discriminate).
  destruct (notify_timeout_precedence positions _ _ _ _ _ Hrun)
    as (a' & n & Ha & Hn & Ht & _ & Hp & Htm).
  vm_compute in Ha. inversion Ha; subst a'.
  change (Some (n_timeout n) = Some 0) in Ht.
  change (Some (n_position n) = Some top_right) in Hp.
  inversion Ht as [Ht']. inversion Hp as [Hp'].
  exists st', r, n. split; [reflexivity|]. split; [exact Hn|]. split; [reflexivity|].
  split; [rewrite Htm, Ht'; reflexivity|reflexivity].
Defined.

(** A third popup on the crowded screen. *)
Lemma notify_preserves_witness :
  exists st' res,
    notify positions 7 crowded_state sample_args = Done (st', res) /\
    cfg st' = cfg crowded_state /\
    length (store st') = (length (store crowded_state) + length (option_list res))%nat.
Proof.
  destruct (notify positions 7 crowded_state sample_args)
    as [[st' res]| |] eqn:Hrun; try (vm_compute in Hrun; discriminate).
  destruct (notify_preserves positions _ _ _ _ _ Hrun) as (Hc & _ & _ & _ & _ & _ & Hl).
  exists st', res. split; [reflexivity|]. split; [exact Hc|exact Hl].
Defined.

(** Two popups of height 32 on a work area shrunk to height 20. *)
Lemma too_tall_never_returns_witness :
  returned (get_offset positions 9 shrunk_state 1 top_right None (Some 62) 32) = false /\
  returned (arrange positions 9 shrunk_state 1) = false.
Proof.
  assert (Hw : forall r n, store shrunk_state !! r = Some n ->
                 0 <= n_height n + spacing (cfg shrunk_state)).
  { intros r n H. destruct r as [|[|r]]; vm_compute in H; inversion H; vm_compute; discriminate. }
  destruct (too_tall_never_returns positions 9 shrunk_state 1
              (Screen (Workarea 0 0 800 20) (Popups [] [] [0; 1]%nat [] [] [])) 4 Hw)
    as [H1 H2]; [vm_compute; reflexivity|vm_compute; reflexivity|].
  split; [apply H1; vm_compute; reflexivity|].
  apply (H2 top_right 0%nat [1%nat]); [|apply in_positions|vm_compute; reflexivity].
  intros r n H. destruct r as [|[|r]]; vm_compute in H; inversion H; subst; vm_compute;
    reflexivity.
Defined.


(** ** Title and text *)

Section TextProofs.
Import Stdlib.Strings.Ascii.

Lemma prefix_other (c : Ascii.ascii) (pat s : string) :
  Ascii.eqb c "&"%char = false -> String.prefix (String "&"%char pat) (String c s) = false.
Proof.
  intros H. cbn [String.prefix]. destruct (Ascii.ascii_dec "&"%char c) as [<-|]; [|reflexivity].
  discriminate.
Qed.

Lemma append_cons (c : ascii) (a b : string) : String c a +:+ b = String c (a +:+ b).
Proof. reflexivity. Qed.

Lemma append_nil (b : string) : "" +:+ b = b.
Proof. reflexivity. Qed.

Lemma prefix_empty (s : string) : String.prefix "" s = true.
Proof. destruct s; reflexivity. Qed.

Lemma gsub_escape_clean (s : string) :
  has_char "<"%char (gsub_escape s) = false /\
  has_char ">"%char (gsub_escape s) = false /\
  unescape (gsub_escape s) = s.
Proof.
  unfold unescape. induction s as [|c s (IH1 & IH2 & IH3)]; [repeat split|].
  cbn [gsub_escape].
  destruct (Ascii.eqb_spec c "<"%char) as [->|Hlt].
  { rewrite !append_cons, append_nil. cbn. rewrite IH1, IH2, IH3, prefix_empty. repeat split. }
  destruct (Ascii.eqb_spec c ">"%char) as [->|Hgt].
  { rewrite !append_cons, append_nil. cbn. rewrite IH1, IH2, IH3, prefix_empty. repeat split. }
  destruct (Ascii.eqb_spec c "&"%char) as [->|Hamp].
  { rewrite !append_cons, append_nil. cbn. rewrite IH1, IH2, IH3, prefix_empty. repeat split. }
  rewrite !append_cons, append_nil.
  cbn [has_char unescape_from].
  rewrite IH1, IH2.
  rewrite !prefix_other by (apply Ascii.eqb_neq; exact Hamp).
  rewrite IH3.
  split; [|split; [|reflexivity]]; apply orb_false_iff; split; try reflexivity;
    apply Ascii.eqb_neq; congruence.
Qed.

Lemma set_text_done (markup_ok text_ok : string -> bool) (title text : string)
    (c : content) :
  set_text markup_ok text_ok title text = Done c ->
  let t := gsub_escape title in
  let first := "<b>" +:+ t +:+ "</b>" +:+ gsub_br text in
  let second := "<b>" +:+ t +:+ "</b>" +:+ gsub_escape text in
  let third := t +:+ " " +:+ text in
  (c = Markup first /\ markup_ok first = true) \/
  (c = Markup second /\ markup_ok first = false /\ markup_ok second = true) \/
  (c = PlainText third /\ markup_ok first = false /\ markup_ok second = false /\
   text_ok third = true) \/
  (c = Markup invalid_markup /\ markup_ok first = false /\ markup_ok second = false /\
   text_ok third = false /\ markup_ok invalid_markup = true).
Proof.
  intros H. cbn zeta.
  unfold set_text, pcall_else, set_markup, textbox_set_text in H.
  destruct (markup_ok ("<b>" +:+ gsub_escape title +:+ "</b>" +:+ gsub_br text)) eqn:M1.
  { inversion H. left. done. }
  destruct (markup_ok ("<b>" +:+ gsub_escape title +:+ "</b>" +:+ gsub_escape text)) eqn:M2.
  { inversion H. right. left. done. }
  destruct (text_ok (gsub_escape title +:+ " " +:+ text)) eqn:T.
  { inversion H. right. right. left. done. }
  destruct (markup_ok invalid_markup) eqn:M3; [|discriminate].
  inversion H. right. right. right. done.
Qed.

(** X16: the title never reaches the toolkit unescaped.  Whatever
    [naughty.replace_text] (and likewise [set_text], which it calls with
    the title followed by a newline, or with the empty title) makes the
    text box show, it is built from an escaped title [t]: [t] has no [<]
    and no [>], and decoding its entities gives the title back.  The text
    box shows the first of these that the toolkit accepts: the markup
    [<b>t</b>] followed by the text with its [<br>] tags turned into
    newlines; the same with the text escaped; the plain text [t],
    a blank and the text (so the entities of the title show); the fixed
    markup for an undisplayable message. *)
Theorem replace_text_escapes_title (markup_ok text_ok : string -> bool)
    (new_title : option string) (text : string) (c : content) :
  replace_text markup_ok text_ok new_title text = Done c ->
  let title := match new_title with
               | Some title => title +:+ String "010"%char EmptyString
               | None => ""
               end in
  replace_text markup_ok text_ok new_title text = set_text markup_ok text_ok title text /\
  exists t,
    has_char "<"%char t = false /\ has_char ">"%char t = false /\ unescape t = title /\
    let first := "<b>" +:+ t +:+ "</b>" +:+ gsub_br text in
    let second := "<b>" +:+ t +:+ "</b>" +:+ gsub_escape text in
    let third := t +:+ " " +:+ text in
    (c = Markup first /\ markup_ok first = true) \/
    (c = Markup second /\ markup_ok first = false /\ markup_ok second = true) \/
    (c = PlainText third /\ markup_ok first = false /\ markup_ok second = false /\
     text_ok third = true) \/
    (c = Markup invalid_markup /\ markup_ok first = false /\ markup_ok second = false /\
     text_ok third = false /\ markup_ok invalid_markup = true).
Proof.
  intros H title. split; [reflexivity|].
  exists (gsub_escape title).
  destruct (gsub_escape_clean title) as (H1 & H2 & H3).
  split; [exact H1|]. split; [exact H2|]. split; [exact H3|].
  apply (set_text_done markup_ok text_ok title text c). exact H.
Qed.

(** With a toolkit that rejects every markup, the title [a<b] shows as
    plain text with the entity in it. *)
Lemma replace_text_escapes_title_witness :
  exists c t,
    replace_text (fun _ => false) (fun _ => true) (Some "a<b") "x" = Done c /\
    has_char "<"%char t = false /\
    unescape t = "a<b" +:+ String "010"%char EmptyString /\
    c = PlainText (t +:+ " " +:+ "x").
Proof.
  destruct (replace_text (fun _ => false) (fun _ => true) (Some "a<b") "x")
    as [c| |] eqn:H; try (vm_compute in H; discriminate).
  destruct (replace_text_escapes_title _ _ _ _ _ H)
    as (_ & t & Ht1 & _ & Ht3 & [(_ & ?)|[(_ & _ & ?)|[(Hc & _)|(_ & _ & _ & ? & _)]]]);
    try discriminate.
  exists c, t. split; [reflexivity|]. split; [exact Ht1|]. split; [exact Ht3|exact Hc].
Defined.

End TextProofs.

End NaughtyProofs.
